(** * kimlab_datalogging: thermocouple configuration and timed acquisition

    A shallow embedding of [src/kimlab_datalogging/03_my_thermocouple.py]
    (whose helper functions are repeated verbatim in
    [04_read_plot_thermocouples.py]) and the properties of its
    specification that can be settled on it.

    Conventions of the embedding:
    - Python [int] is [Z]; a Python [float] is the rational [Q] it stands
      for.  The product that [int()] truncates to the microseconds of the
      timer is rounded to the nearest double, as Python does
      ([float_mul]); the elapsed seconds and the values read are kept
      exact.  [str] is [string], for strings of ASCII characters
      ([isascii]).
    - The LabJack LJM library, the wall clock and the file system are the
      environment.  They are described by a record [mock] of oracles: the
      error code each library call returns, the values a batched read
      yields, the successive readings of [datetime.now()].
    - Effects are threaded through an explicit state: the log of LJM calls,
      what was printed, the file operations, and the lists the sampling
      loop mutates.  A Python exception is the [Raise] result; the state
      reached when it is raised is kept, as in Python. *)

From stdpp Require Import base strings list gmap pretty.
From Stdlib Require Import Ascii ZArith QArith Lia Sorted.

Local Open Scope Z_scope.

(** ** Constants of [labjack.ljm.constants] used by the scripts *)

Module ljm_constants.
Definition dtT4 : Z := 4.
Definition dtT7 : Z := 7.
Definition dtT8 : Z := 8.
Definition GND : Z := 199.
(** [ljm.errorcodes.NOERROR] *)
Definition NOERROR : Z := 0.
End ljm_constants.
Import ljm_constants.

(** ** Python values, exceptions, and what the environment records *)

Inductive value :=
| VInt (z : Z)
| VFloat (q : Q)
| VStr (s : string).

(** The tuple returned by [ljm.getHandleInfo]. *)
Record handle_info := HandleInfo {
  deviceType : Z;
  connectionType : Z;
  serialNumber : Z;
  ipAddress : Z;
  port : Z;
  maxBytesPerMB : Z
}.

Inductive ljm_call :=
| OpenS (deviceType connectionType identifier : string)
| GetHandleInfo (handle : Z)
| EWriteName (handle : Z) (name : string) (v : value)
| EWriteNames (handle : Z) (numFrames : nat) (aNames : list string)
              (aValues : list value)
| EReadNames (handle : Z) (numFrames : nat) (aNames : list string)
| StartInterval (intervalHandle : Z) (microseconds : Z)
| WaitForNextInterval (intervalHandle : Z)
| CleanInterval (intervalHandle : Z)
| Close (handle : Z).

Inductive exn :=
| KeyError (key : string)
| TypeError (msg : string)
| UnboundLocalError (var : string)
| ValueError (msg : string)
| OSError (msg : string)
| LJMError (errorCode : Z)
| SystemExit (code : Z).

(** [except Exception] catches everything but [SystemExit], which derives
    from [BaseException] only. *)
Definition is_Exception (e : exn) : bool :=
  match e with
  | SystemExit _ => false
  | _ => true
  end.

(** A [pandas.DataFrame] as the scripts use it: column labels and rows. *)
Record DataFrame := mkDataFrame {
  columns : list string;
  rows : list (list value)
}.

(** [pathlib.Path] expressions, kept symbolic. *)
Inductive path :=
| Path (s : string)
| Parent (p : path)
| Join (p : path) (name : string)
| WithSuffix (p : path) (suffix : string).

Inductive fs_op :=
| Mkdir (p : path)
| ToCsv (p : path) (index : bool) (df : DataFrame).

(** One item per call of [print]. *)
Inductive printed :=
| PStr (s : string)
| POpened (info : handle_info)
| PLabelled (label : string) (l : list string)
| PReading (channel_names : list string) (num_iterations : Z)
| PRow (row : list value)
| PExc (e : exn)
| PFrame (df : DataFrame).

Definition is_write (c : ljm_call) : bool :=
  match c with
  | EWriteName _ _ _ | EWriteNames _ _ _ _ => true
  | _ => false
  end.

Definition is_release (c : ljm_call) : bool :=
  match c with
  | CleanInterval _ | Close _ => true
  | _ => false
  end.

(** ** The environment *)

Record mock := Mock {
  openS_error : Z;
  openS_handle : Z;
  getHandleInfo_error : Z;
  getHandleInfo_result : handle_info;
  (** error code of the i-th write ([eWriteName] or [eWriteNames]) *)
  write_error : nat -> Z;
  (** error code and values of the i-th [eReadNames] *)
  read_error : nat -> Z;
  read_value : nat -> string -> Q;
  startInterval_error : Z;
  (** error code of the i-th [waitForNextInterval] *)
  wait_error : nat -> Z;
  cleanInterval_error : Z;
  close_error : Z;
  (** i-th reading of [datetime.now()], in microseconds *)
  now : nat -> Z;
  strftime : Z -> string -> string;
  is_dir : path -> bool;
  mkdir_ok : path -> bool;
  to_csv_ok : path -> bool
}.

(** ** State and the state-and-exception monad *)

Record state := State {
  ljm_log : list ljm_call;
  stdout : list printed;
  fs_log : list fs_op;
  n_writes : nat;
  n_reads : nat;
  n_waits : nat;
  n_now : nat;
  (** lists of [read_and_log_thermocouple] appended to inside its [try] *)
  times : list string;
  delta_times : list Q;
  data : list (list value)
}.

Definition initial_state : state :=
  State [] [] [] 0 0 0 0 [] [] [].

Inductive result (A : Type) :=
| Ok (a : A)
| Raise (e : exn).
Arguments Ok {A} a.
Arguments Raise {A} e.

Definition M (A : Type) : Type := state -> result A * state.

Definition ret {A} (a : A) : M A := fun s => (Ok a, s).

Definition bind {A B} (m : M A) (k : A -> M B) : M B :=
  fun s =>
    match m s with
    | (Ok a, s') => k a s'
    | (Raise e, s') => (Raise e, s')
    end.

Definition raise {A} (e : exn) : M A := fun s => (Raise e, s).

Declare Scope M_scope.
Delimit Scope M_scope with M.
Bind Scope M_scope with M.
Notation "x ← y ; z" := (bind y (fun x => z))
  (at level 20, y at level 100, z at level 200, only parsing) : M_scope.
Notation "' x ← y ; z" := (bind y (fun x => z))
  (at level 20, x pattern, y at level 100, z at level 200, only parsing)
  : M_scope.
Notation "x ;; z" := (bind x (fun _ => z))
  (at level 100, z at level 200, only parsing, right associativity)
  : M_scope.
Local Open Scope M_scope.

Definition modify (f : state -> state) : M unit := fun s => (Ok tt, f s).

(** State updates. *)
Definition log_call (c : ljm_call) (s : state) : state :=
  State (ljm_log s ++ [c]) (stdout s) (fs_log s) (n_writes s) (n_reads s)
        (n_waits s) (n_now s) (times s) (delta_times s) (data s).
Definition log_print (p : printed) (s : state) : state :=
  State (ljm_log s) (stdout s ++ [p]) (fs_log s) (n_writes s) (n_reads s)
        (n_waits s) (n_now s) (times s) (delta_times s) (data s).
Definition log_fs (o : fs_op) (s : state) : state :=
  State (ljm_log s) (stdout s) (fs_log s ++ [o]) (n_writes s) (n_reads s)
        (n_waits s) (n_now s) (times s) (delta_times s) (data s).
Definition count_write (s : state) : state :=
  State (ljm_log s) (stdout s) (fs_log s) (S (n_writes s)) (n_reads s)
        (n_waits s) (n_now s) (times s) (delta_times s) (data s).
Definition count_read (s : state) : state :=
  State (ljm_log s) (stdout s) (fs_log s) (n_writes s) (S (n_reads s))
        (n_waits s) (n_now s) (times s) (delta_times s) (data s).
Definition count_wait (s : state) : state :=
  State (ljm_log s) (stdout s) (fs_log s) (n_writes s) (n_reads s)
        (S (n_waits s)) (n_now s) (times s) (delta_times s) (data s).
Definition count_now (s : state) : state :=
  State (ljm_log s) (stdout s) (fs_log s) (n_writes s) (n_reads s)
        (n_waits s) (S (n_now s)) (times s) (delta_times s) (data s).
Definition append_times (t : string) (s : state) : state :=
  State (ljm_log s) (stdout s) (fs_log s) (n_writes s) (n_reads s)
        (n_waits s) (n_now s) (times s ++ [t]) (delta_times s) (data s).
Definition append_delta_times (dt : Q) (s : state) : state :=
  State (ljm_log s) (stdout s) (fs_log s) (n_writes s) (n_reads s)
        (n_waits s) (n_now s) (times s) (delta_times s ++ [dt]) (data s).
Definition append_data (row : list value) (s : state) : state :=
  State (ljm_log s) (stdout s) (fs_log s) (n_writes s) (n_reads s)
        (n_waits s) (n_now s) (times s) (delta_times s) (data s ++ [row]).
Definition reset_lists (s : state) : state :=
  State (ljm_log s) (stdout s) (fs_log s) (n_writes s) (n_reads s)
        (n_waits s) (n_now s) [] [] [].

(** [print(...)] *)
Definition print (p : printed) : M unit := modify (log_print p).

(** The wrappers of [labjack.ljm] raise [LJMError] when the library returns
    a code other than [NOERROR]; the call has been issued either way. *)
Definition check_error (err : Z) : M unit :=
  if err =? NOERROR then ret tt else raise (LJMError err).

(** [for x in l: body(x)] *)
Fixpoint for_each {A} (l : list A) (body : A -> M unit) : M unit :=
  match l with
  | [] => ret tt
  | x :: l' => body x;; for_each l' body
  end.

(** [out = []; for x in l: out.append(f(x))] *)
Fixpoint for_append {A B} (l : list A) (f : A -> M B) : M (list B) :=
  match l with
  | [] => ret []
  | x :: l' => y ← f x; ys ← for_append l' f; ret (y :: ys)
  end.

(** [d[k]] on a dict with string keys *)
Definition getitem {V} (d : gmap string V) (k : string) : M V :=
  match d !! k with
  | Some v => ret v
  | None => raise (KeyError k)
  end.

(** [str.isascii]: every character is below 128.  A Python string is a
    sequence of code points, a string of the model one of bytes; the two
    are the same on the strings of ASCII characters, the only ones the
    model speaks about. *)
Fixpoint isascii (s : string) : bool :=
  match s with
  | EmptyString => true
  | String a s' => (N_of_ascii a <? 128)%N && isascii s'
  end.

(** [str.lower] on a string of ASCII characters, where it changes the
    letters A to Z and nothing else.  On other strings [str.lower] follows
    Unicode (it maps the Kelvin sign U+212A to k, for one): what is stated
    of an arbitrary string is stated where [isascii] holds. *)
Definition lower_ascii (a : ascii) : ascii :=
  let n := N_of_ascii a in
  if ((65 <=? n) && (n <=? 90))%N then ascii_of_N (n + 32) else a.

Fixpoint lower (s : string) : string :=
  match s with
  | EmptyString => EmptyString
  | String a s' => String (lower_ascii a) (lower s')
  end.

(** A float is modelled by the rational it stands for.  [to_double q] is
    the double (IEEE 754 binary64) nearest to [q], ties to even: 53
    significant bits, down to the subnormal quantum [2 ^ -1074].  The
    model has no infinity: a rational beyond the largest double, which
    Python turns into [inf], is outside it. *)
Definition round_half_even (n d : Z) : Z :=
  let f := n / d in
  let r := n mod d in
  match 2 * r ?= d with
  | Lt => f
  | Gt => f + 1
  | Eq => if Z.even f then f else f + 1
  end.

Definition to_double (q : Q) : Q :=
  let a := Z.abs (Qnum q) in
  let d := Zpos (Qden q) in
  if a =? 0 then 0%Q else
  let e0 := Z.log2 a - Z.log2 d in
  let reaches := if 0 <=? e0 then d * 2 ^ e0 <=? a else d <=? a * 2 ^ (- e0) in
  let e := if reaches then e0 else e0 - 1 in
  let p := Z.max e (-1022) - 52 in
  let m := if 0 <=? p then round_half_even a (d * 2 ^ p)
           else round_half_even (a * 2 ^ (- p)) d in
  let m := Z.sgn (Qnum q) * m in
  if 0 <=? p then (m * 2 ^ p) # 1 else m # Z.to_pos (2 ^ (- p)).

(** [x * y] on floats: the exact product, rounded.  An [int] operand is
    converted first, which is exact for [10**6]. *)
Definition float_mul (x y : Q) : Q := to_double (x * y).

(** [int(x)] on a float: truncation towards zero *)
Definition int_of_float (q : Q) : Z := Z.quot (Qnum q) (Zpos (Qden q)).

(** [timedelta.total_seconds()] of a difference in microseconds *)
Definition total_seconds (microseconds : Z) : Q := microseconds # 1000000.

Definition gets {A} (f : state -> A) : M A := fun s => (Ok (f s), s).

(** [try: body / except Exception: handler] *)
Definition try_except {A} (body : M A) (handler : exn -> M A) : M A :=
  fun s =>
    match body s with
    | (Ok a, s') => (Ok a, s')
    | (Raise e, s') =>
        if is_Exception e then handler e s' else (Raise e, s')
    end.

(** Reading a local variable that may not have been assigned. *)
Definition load_local {A} (name : string) (v : option A) : M A :=
  match v with
  | Some a => ret a
  | None => raise (UnboundLocalError name)
  end.

(** [a, b = r] where [r] is a pair or [None] *)
Definition unpack2 {A B} (r : option (A * B)) : M (A * B) :=
  match r with
  | Some p => ret p
  | None => raise (TypeError "cannot unpack non-iterable NoneType object")
  end.

(** The builtin [exit] *)
Definition exit {A} (code : Z) : M A := raise (SystemExit code).

Definition nl : string := String (ascii_of_N 10) EmptyString.

(** ** The program *)

Section Program.

Variable W : mock.

(** *** Calls into the environment *)

Definition openS (deviceType connectionType identifier : string) : M Z :=
  modify (log_call (OpenS deviceType connectionType identifier));;
  check_error (openS_error W);;
  ret (openS_handle W).

Definition getHandleInfo (handle : Z) : M handle_info :=
  modify (log_call (GetHandleInfo handle));;
  check_error (getHandleInfo_error W);;
  ret (getHandleInfo_result W).

Definition eWriteName (handle : Z) (name : string) (v : value) : M unit :=
  i ← gets n_writes;
  modify (log_call (EWriteName handle name v));;
  modify count_write;;
  check_error (write_error W i).

Definition eWriteNames (handle : Z) (numFrames : nat) (aNames : list string)
    (aValues : list value) : M unit :=
  i ← gets n_writes;
  modify (log_call (EWriteNames handle numFrames aNames aValues));;
  modify count_write;;
  check_error (write_error W i).

Definition eReadNames (handle : Z) (numFrames : nat) (aNames : list string)
    : M (list Q) :=
  i ← gets n_reads;
  modify (log_call (EReadNames handle numFrames aNames));;
  modify count_read;;
  check_error (read_error W i);;
  ret (map (read_value W i) (take numFrames aNames)).

Definition startInterval (intervalHandle microseconds : Z) : M unit :=
  modify (log_call (StartInterval intervalHandle microseconds));;
  check_error (startInterval_error W).

Definition waitForNextInterval (intervalHandle : Z) : M unit :=
  i ← gets n_waits;
  modify (log_call (WaitForNextInterval intervalHandle));;
  modify count_wait;;
  check_error (wait_error W i).

Definition cleanInterval (intervalHandle : Z) : M unit :=
  modify (log_call (CleanInterval intervalHandle));;
  check_error (cleanInterval_error W).

Definition close (handle : Z) : M unit :=
  modify (log_call (Close handle));;
  check_error (close_error W).

Definition datetime_now : M Z :=
  i ← gets n_now;
  modify count_now;;
  ret (now W i).

Definition mkdir (p : path) : M unit :=
  modify (log_fs (Mkdir p));;
  if mkdir_ok W p then ret tt else raise (OSError "mkdir").

Definition to_csv (df : DataFrame) (p : path) (index : bool) : M unit :=
  modify (log_fs (ToCsv p index df));;
  if to_csv_ok W p then ret tt else raise (OSError "to_csv").

(** [pd.DataFrame(data, columns=...)] on a list of rows of one length:
    the number of columns passed must be the length of the rows. *)
Definition pd_DataFrame (data : list (list value)) (columns : list string)
    : M DataFrame :=
  if forallb (fun row => Nat.eqb (length row) (length columns)) data
  then ret (mkDataFrame columns data)
  else raise (ValueError "columns passed do not match the data").

(** [df[label] = v] for a label that is not yet a column *)
Definition setitem (df : DataFrame) (label : string) (v : value) : DataFrame :=
  mkDataFrame (columns df ++ [label]) (map (fun row => row ++ [v]) (rows df)).

(** *** The functions of the script *)

Definition get_labjack_handle : M (Z * Z) :=
  handle ← openS "ANY" "ANY" "ANY";
  info ← getHandleInfo handle;
  print (POpened info);;
  let device_type := deviceType info in
  ret (handle, device_type).

Definition create_analog_channel (channel : Z) : string :=
  "AIN" +:+ pretty channel.

Definition ef_indices : gmap string Z :=
  list_to_map
    [("e", 20); ("j", 21); ("k", 22); ("r", 23); ("t", 24); ("s", 25);
     ("n", 27); ("b", 28); ("c", 30)].

Definition set_tc_index (tc_type : string) : M Z :=
  let tc_type := lower tc_type in
  getitem ef_indices tc_type.

Definition temp_unit_index : gmap string Z :=
  list_to_map [("k", 0); ("c", 1); ("f", 2)].

Definition get_temp_unit_index (T_unit_name : string) : M Z :=
  let T_unit_name := lower T_unit_name in
  getitem temp_unit_index T_unit_name.

Definition T4_message : string :=
  nl +:+ "The T4 does not support the thermocouple AIN_EF. See our InAmp thermocouple example.".

Definition get_channel_value_register (handle device_type : Z)
    (channel_name : string) : M (Z * string) :=
  '(neg_channel_value, neg_channel_register) ←
    (if device_type =? dtT7 then
       let neg_channel_value := GND in
       let neg_channel_register := channel_name +:+ "_NEGATIVE_CH" in
       eWriteName handle neg_channel_register (VInt neg_channel_value);;
       ret (Some neg_channel_value, Some neg_channel_register)
     else if device_type =? dtT4 then
       print (PStr T4_message);;
       exit 0
     else ret (None, None));
  neg_channel_value ← load_local "neg_channel_value" neg_channel_value;
  neg_channel_register ← load_local "neg_channel_register" neg_channel_register;
  ret (neg_channel_value, neg_channel_register).

Definition get_cjc_address (device_type channel : Z) : Z :=
  if device_type =? dtT8 then 600 + 2 * channel else 60052.

Definition not_K_message : string :=
  "Since thermocouple is not type K, I don't know what cjc slope and offset to set".

Definition set_cjc_slope_offset (tc_type : string) : M (option (Q * Q)) :=
  if String.eqb (lower tc_type) "k" then
    let '(cjc_slope, cjc_offset) := (1#1, 0#1)%Q in
    ret (Some (cjc_slope, cjc_offset))
  else
    print (PStr not_K_message);;
    ret None.

Definition set_resolution_index_registers (handle : Z)
    (channel_names : list string) (channels : list Z) : M unit :=
  for_each (zip channel_names channels) (fun '(channel_name, channel) =>
    let resolution_index_register := channel_name +:+ "_RESOLUTION_INDEX" in
    eWriteName handle resolution_index_register (VInt channel)).

(** The loop of [configure_ain_ef_registers], with the two lists it
    appends to; it returns them as they are when the loop ends. *)
Fixpoint configure_ain_ef_loop (handle tc_index temp_unit_index : Z)
    (cjc_slope cjc_offset : Q) (pairs : list (string * Z))
    (aNames : list string) (aValues : list value)
    : M (list string * list value) :=
  match pairs with
  | [] => ret (aNames, aValues)
  | (channel_name, cjc_address) :: pairs' =>
      let indexRegister := channel_name +:+ "_EF_INDEX" in
      let aNames := aNames ++ [indexRegister] in
      let aValues := aValues ++ [VInt tc_index] in
      let configA := channel_name +:+ "_EF_CONFIG_A" in
      let aNames := aNames ++ [configA] in
      let aValues := aValues ++ [VInt temp_unit_index] in
      let configB := channel_name +:+ "_EF_CONFIG_B" in
      let aNames := aNames ++ [configB] in
      let aValues := aValues ++ [VInt cjc_address] in
      let configD := channel_name +:+ "_EF_CONFIG_D" in
      let aNames := aNames ++ [configD] in
      let aValues := aValues ++ [VFloat cjc_slope] in
      let configE := channel_name +:+ "_EF_CONFIG_E" in
      let aNames := aNames ++ [configE] in
      let aValues := aValues ++ [VFloat cjc_offset] in
      eWriteNames handle (length aNames) aNames aValues;;
      configure_ain_ef_loop handle tc_index temp_unit_index cjc_slope
        cjc_offset pairs' aNames aValues
  end.

Definition configure_ain_ef_registers (handle : Z)
    (channel_names : list string) (tc_index temp_unit_index : Z)
    (cjc_addresses : list Z) (cjc_slope cjc_offset : Q) : M unit :=
  let aNames := [] in
  let aValues := [] in
  configure_ain_ef_loop handle tc_index temp_unit_index cjc_slope cjc_offset
    (zip channel_names cjc_addresses) aNames aValues;;
  ret tt.

Definition get_read_ABC (channel_name : string) : list string * list string :=
  let readA := channel_name +:+ "_EF_READ_A" in
  let readB := channel_name +:+ "_EF_READ_B" in
  let readC := channel_name +:+ "_EF_READ_C" in
  let abcs := [readA; readB; readC] in
  let labels := ["T_thermocouple"; "V_thermocouple"; "T_cold_junction"] in
  let labels := map (fun i => i +:+ ("_" +:+ channel_name)) labels in
  (abcs, labels).

(** [seconds_between_readings] is a float, as annotated.  (An [int] is
    multiplied exactly; the result is the same while the product is
    below [2 ** 53].) *)
Definition set_time_interval_between_readings (interval_handle : Z)
    (seconds_between_readings : Q) : M unit :=
  let microseconds_between_readings :=
    int_of_float (float_mul seconds_between_readings (10 ^ 6 # 1)) in
  startInterval interval_handle microseconds_between_readings.

(** *** [read_and_log_thermocouple]

    The routine is cut at the comments and blank lines of the source into
    its configuration (lines 232-260), the sampling loop (288-317), the
    saving of the frame (324-333) and the release of the handles
    (337-338). *)

Definition interval_handle : Z := 1.
Definition time_format : string := "%Y/%m/%d, %H:%M:%S.%f".
Definition save_time_format : string := "%Y_%m_%d_%H_%M_%S".

Definition configuring (channels : list Z) (tc_type temp_unit : string)
    (seconds_between_readings : Q) : M (Z * list string) :=
  '(handle, device_type) ← get_labjack_handle;
  tc_index ← set_tc_index tc_type;
  slope_offset ← set_cjc_slope_offset tc_type;
  '(cjc_slope, cjc_offset) ← unpack2 slope_offset;
  temp_unit_index ← get_temp_unit_index temp_unit;
  let channel_names := map create_analog_channel channels in
  negs ← for_append channel_names
           (get_channel_value_register handle device_type);
  let neg_channel_values := map fst negs in
  let neg_channel_registers := map snd negs in
  let cjc_addresses := map (get_cjc_address device_type) channels in
  set_resolution_index_registers handle channel_names channels;;
  configure_ain_ef_registers handle channel_names tc_index temp_unit_index
    cjc_addresses cjc_slope cjc_offset;;
  set_time_interval_between_readings interval_handle
    seconds_between_readings;;
  ret (handle, channel_names).

(** The body of the [try] of one iteration. *)
Definition tick (handle : Z) (abcs_flattened : list string)
    (start_time : Z) (print_output_flag : bool) : M unit :=
  current_time ← datetime_now;
  let formatted_time := strftime W current_time time_format in
  modify (append_times formatted_time);;
  let dt := current_time - start_time in
  let dt := total_seconds dt in
  modify (append_delta_times dt);;
  data_in ← eReadNames handle (length abcs_flattened) abcs_flattened;
  let data_in := map VFloat data_in ++ [VStr formatted_time] in
  let data_in := data_in ++ [VFloat dt] in
  modify (append_data data_in);;
  (if print_output_flag then print (PRow data_in) else ret tt);;
  waitForNextInterval interval_handle.

Inductive flow := Next | Break.

(** [for i in range(n): try: tick / except Exception: print; break] *)
Fixpoint sampling_loop (n : nat) (handle : Z) (abcs_flattened : list string)
    (start_time : Z) (print_output_flag : bool) : M flow :=
  match n with
  | O => ret Next
  | S n' =>
      c ← try_except
            (tick handle abcs_flattened start_time print_output_flag;;
             ret Next)
            (fun e => print (PExc e);; ret Break);
      match c with
      | Next =>
          sampling_loop n' handle abcs_flattened start_time print_output_flag
      | Break => ret Break
      end
  end.

Definition save (save_to : option path) (formatted_start_time : string)
    (data : DataFrame) : M unit :=
  match save_to with
  | None => ret tt
  | Some save_to =>
      if is_dir W save_to then
        mkdir save_to;;
        let save_to := Join save_to formatted_start_time in
        let save_to := WithSuffix save_to ".csv" in
        to_csv data save_to true
      else
        mkdir (Parent save_to);;
        to_csv data save_to false
  end.

Definition release (handle : Z) : M unit :=
  cleanInterval interval_handle;;
  close handle;;
  print (PStr "Done!").

(** The result is the way the loop was left: [Next] when [range] was
    exhausted, [Break] when the [except] clause broke out of it.  The
    Python function itself returns [None]. *)
Definition read_and_log_thermocouple (channels : list Z)
    (tc_type temp_unit : string) (num_iterations : Z)
    (seconds_between_readings : Q) (print_output_flag : bool)
    (save_to : option path) : M flow :=
  '(handle, channel_names) ←
     configuring channels tc_type temp_unit seconds_between_readings;
  let abcs := map (fun cn => fst (get_read_ABC cn)) channel_names in
  let labels := map (fun cn => snd (get_read_ABC cn)) channel_names in
  let abcs_flattened := concat abcs in
  let labels_flattened := concat labels in
  let labels_flattened := labels_flattened ++ ["time"] in
  let labels_flattened := labels_flattened ++ ["dt"] in
  print (PLabelled "abcs flattened" abcs_flattened);;
  print (PReading channel_names num_iterations);;
  modify reset_lists;;
  start_time ← datetime_now;
  let formatted_start_time := strftime W start_time save_time_format in
  how_left ← sampling_loop (Z.to_nat num_iterations) handle abcs_flattened
           start_time print_output_flag;
  data ← gets data;
  data ← pd_DataFrame data labels_flattened;
  print (PFrame data);;
  let data := setitem data "T unit" (VStr temp_unit) in
  save save_to formatted_start_time data;;
  release handle;;
  ret how_left.

End Program.

(** * Properties *)

(** ** Running the monad *)

Lemma bind_ok {A B} (m : M A) (k : A -> M B) s a s' :
  m s = (Ok a, s') -> bind m k s = k a s'.
Proof. intros H. unfold bind. now rewrite H. Qed.

Lemma bind_raise {A B} (m : M A) (k : A -> M B) s e s' :
  m s = (Raise e, s') -> bind m k s = (Raise e, s').
Proof. intros H. unfold bind. now rewrite H. Qed.

Lemma check_error_ok err s : err = NOERROR -> check_error err s = (Ok tt, s).
Proof. intros ->. reflexivity. Qed.

Lemma check_error_raise err s :
  err <> NOERROR -> check_error err s = (Raise (LJMError err), s).
Proof.
  intros H. unfold check_error.
  destruct (Z.eqb_spec err NOERROR); [contradiction | reflexivity].
Qed.

Ltac run :=
  cbv beta iota delta
    [bind ret raise modify gets print exit load_local unpack2 getitem].

(** One step of a sequence of binds whose first computation returns. *)
Tactic Notation "step" "by" tactic(t) :=
  erewrite bind_ok by t; cbv beta iota.

(** Equality of two states, field by field. *)
Ltac state_eq :=
  cbv [log_call log_print log_fs count_write count_read count_wait count_now
       append_times append_delta_times append_data reset_lists
       ljm_log stdout fs_log n_writes n_reads n_waits n_now times
       delta_times data];
  f_equal; rewrite <- ?app_assoc; try reflexivity; try lia.

(** ** C3: the CJC address *)

(** C3.  For every channel number [c], the address is [600 + 2*c] on a T8
    (per-channel temperature registers) and the constant [60052] on a T7
    (shared device-temperature register), whatever [c] is. *)
Theorem get_cjc_address_by_variant (c : Z) :
  get_cjc_address dtT8 c = 600 + 2 * c /\ get_cjc_address dtT7 c = 60052.
Proof. split; reflexivity. Qed.

Lemma get_cjc_address_not_T8 (device_type c : Z) :
  device_type <> dtT8 -> get_cjc_address device_type c = 60052.
Proof.
  intros H. unfold get_cjc_address.
  destruct (Z.eqb_spec device_type dtT8); [contradiction | reflexivity].
Qed.

(** ** C1: CJC slope and offset *)


Lemma set_cjc_slope_offset_K tc_type s :
  lower tc_type = "k" ->
  set_cjc_slope_offset tc_type s = (Ok (Some (1#1, 0#1)%Q), s).
Proof. intros H. unfold set_cjc_slope_offset. now rewrite H. Qed.


(** ** Opening the device *)

Section Opening.

Variable W : mock.
Hypothesis open_ok : openS_error W = NOERROR.
Hypothesis info_ok : getHandleInfo_error W = NOERROR.

Definition opened (s : state) : state :=
  log_print (POpened (getHandleInfo_result W))
    (log_call (GetHandleInfo (openS_handle W))
       (log_call (OpenS "ANY" "ANY" "ANY") s)).

Lemma get_labjack_handle_ok s :
  get_labjack_handle W s =
  (Ok (openS_handle W, deviceType (getHandleInfo_result W)), opened s).
Proof.
  unfold get_labjack_handle, openS, getHandleInfo. run.
  rewrite open_ok, info_ok. reflexivity.
Qed.

Lemma set_tc_index_ok tc_type i s :
  ef_indices !! lower tc_type = Some i -> set_tc_index tc_type s = (Ok i, s).
Proof. intros H. unfold set_tc_index. run. now rewrite H. Qed.

Lemma get_temp_unit_index_ok temp_unit u s :
  temp_unit_index !! lower temp_unit = Some u ->
  get_temp_unit_index temp_unit s = (Ok u, s).
Proof. intros H. unfold get_temp_unit_index. run. now rewrite H. Qed.



End Opening.


(** ** The negative-channel step, by device type *)

Lemma get_channel_value_register_T7 W handle channel_name s :
  write_error W (n_writes s) = NOERROR ->
  get_channel_value_register W handle dtT7 channel_name s =
  (Ok (GND, channel_name +:+ "_NEGATIVE_CH"),
   count_write
     (log_call (EWriteName handle (channel_name +:+ "_NEGATIVE_CH") (VInt GND))
        s)).
Proof.
  intros H. unfold get_channel_value_register, eWriteName.
  change (dtT7 =? dtT7) with true. run. now rewrite H.
Qed.

Lemma get_channel_value_register_T4 W handle channel_name s :
  get_channel_value_register W handle dtT4 channel_name s =
  (Raise (SystemExit 0), log_print (PStr T4_message) s).
Proof. reflexivity. Qed.

Lemma get_channel_value_register_other W handle device_type channel_name s :
  device_type <> dtT7 -> device_type <> dtT4 ->
  get_channel_value_register W handle device_type channel_name s =
  (Raise (UnboundLocalError "neg_channel_value"), s).
Proof.
  intros H7 H4. unfold get_channel_value_register.
  destruct (Z.eqb_spec device_type dtT7); [contradiction |].
  destruct (Z.eqb_spec device_type dtT4); [contradiction |].
  reflexivity.
Qed.

(** ** Configuration for type K up to the first register access *)

Section Configuring_K.

Variable W : mock.
Hypothesis open_ok : openS_error W = NOERROR.
Hypothesis info_ok : getHandleInfo_error W = NOERROR.

Variables (tc_type temp_unit : string) (u : Z).
Hypothesis type_K : lower tc_type = "k".
Hypothesis unit_known : temp_unit_index !! lower temp_unit = Some u.

Let handle := openS_handle W.
Let device_type := deviceType (getHandleInfo_result W).

Lemma configuring_K channels seconds s :
  configuring W channels tc_type temp_unit seconds s =
  (negs ← for_append (map create_analog_channel channels)
            (get_channel_value_register W handle device_type);
   set_resolution_index_registers W handle
     (map create_analog_channel channels) channels;;
   configure_ain_ef_registers W handle (map create_analog_channel channels)
     22 u (map (get_cjc_address device_type) channels) (1#1) (0#1);;
   set_time_interval_between_readings W interval_handle seconds;;
   ret (handle, map create_analog_channel channels)) (opened W s).
Proof.
  unfold configuring.
  step by now apply get_labjack_handle_ok.
  step by (apply set_tc_index_ok; rewrite type_K; reflexivity).
  step by now apply set_cjc_slope_offset_K.
  step by reflexivity.
  step by (apply get_temp_unit_index_ok; exact unit_known).
  reflexivity.
Qed.

(** On a T4 with at least one channel: the message, then [exit(0)]. *)
Lemma configuring_T4 c channels seconds s :
  device_type = dtT4 ->
  configuring W (c :: channels) tc_type temp_unit seconds s =
  (Raise (SystemExit 0), log_print (PStr T4_message) (opened W s)).
Proof.
  intros Hd. rewrite configuring_K. rewrite Hd. reflexivity.
Qed.

(** On any device that is neither a T7 nor a T4, with at least one
    channel: the [return] of [get_channel_value_register] reads a local
    that was never assigned. *)
Lemma configuring_other c channels seconds s :
  device_type <> dtT7 -> device_type <> dtT4 ->
  configuring W (c :: channels) tc_type temp_unit seconds s =
  (Raise (UnboundLocalError "neg_channel_value"), opened W s).
Proof.
  intros H7 H4. rewrite configuring_K.
  apply bind_raise. simpl for_append. apply bind_raise.
  now apply get_channel_value_register_other.
Qed.

End Configuring_K.

(** ** Register writes that succeed *)

(** The state after the write calls [calls] have been issued in turn. *)
Definition wrote (calls : list ljm_call) (s : state) : state :=
  State (ljm_log s ++ calls) (stdout s) (fs_log s)
        (n_writes s + length calls) (n_reads s) (n_waits s) (n_now s)
        (times s) (delta_times s) (data s).

Lemma wrote_nil s : wrote [] s = s.
Proof.
  destruct s. unfold wrote. simpl. rewrite app_nil_r, Nat.add_0_r. reflexivity.
Qed.

Lemma wrote_cons c calls s :
  wrote calls (count_write (log_call c s)) = wrote (c :: calls) s.
Proof.
  unfold wrote. state_eq. simpl. lia.
Qed.

Lemma wrote_app calls1 calls2 s :
  wrote calls2 (wrote calls1 s) = wrote (calls1 ++ calls2) s.
Proof.
  unfold wrote. simpl. rewrite length_app, <- app_assoc. f_equal. lia.
Qed.

(** The five extended-function registers of a channel and their values. *)
Definition ef_names (channel_name : string) : list string :=
  [channel_name +:+ "_EF_INDEX"; channel_name +:+ "_EF_CONFIG_A";
   channel_name +:+ "_EF_CONFIG_B"; channel_name +:+ "_EF_CONFIG_D";
   channel_name +:+ "_EF_CONFIG_E"].

Definition ef_values (tc_index temp_unit_index : Z) (cjc_slope cjc_offset : Q)
    (cjc_address : Z) : list value :=
  [VInt tc_index; VInt temp_unit_index; VInt cjc_address; VFloat cjc_slope;
   VFloat cjc_offset].

Section Writes.

Variable W : mock.
Hypothesis writes_ok : forall i, write_error W i = NOERROR.

Lemma eWriteName_ok handle name v s :
  eWriteName W handle name v s =
  (Ok tt, count_write (log_call (EWriteName handle name v) s)).
Proof. unfold eWriteName. run. now rewrite writes_ok. Qed.

Lemma eWriteNames_ok handle n aNames aValues s :
  eWriteNames W handle n aNames aValues s =
  (Ok tt, count_write (log_call (EWriteNames handle n aNames aValues) s)).
Proof. unfold eWriteNames. run. now rewrite writes_ok. Qed.

Definition negative_ch_write (handle : Z) (channel_name : string) : ljm_call :=
  EWriteName handle (channel_name +:+ "_NEGATIVE_CH") (VInt GND).

Lemma negative_channels_T7 handle channel_names s :
  for_append channel_names (get_channel_value_register W handle dtT7) s =
  (Ok (map (fun cn => (GND, cn +:+ "_NEGATIVE_CH")) channel_names),
   wrote (map (negative_ch_write handle) channel_names) s).
Proof.
  revert s. induction channel_names as [| cn l IH]; intros s.
  - simpl. now rewrite wrote_nil.
  - simpl for_append.
    step by (apply get_channel_value_register_T7; apply writes_ok).
    step by apply IH.
    simpl map. rewrite wrote_cons. reflexivity.
Qed.

Definition resolution_index_write (handle : Z) (p : string * Z) : ljm_call :=
  EWriteName handle (p.1 +:+ "_RESOLUTION_INDEX") (VInt p.2).

Lemma set_resolution_index_registers_ok handle channel_names channels s :
  set_resolution_index_registers W handle channel_names channels s =
  (Ok tt,
   wrote (map (resolution_index_write handle) (zip channel_names channels)) s).
Proof.
  unfold set_resolution_index_registers.
  generalize (zip channel_names channels) as pairs. intros pairs. revert s.
  induction pairs as [| [cn c] l IH]; intros s.
  - simpl. now rewrite wrote_nil.
  - simpl for_each.
    step by apply eWriteName_ok.
    rewrite IH. simpl map. rewrite wrote_cons. reflexivity.
Qed.

(** The names and values accumulated for a list of (name, address) pairs. *)
Definition plan_names (pairs : list (string * Z)) : list string :=
  concat (map (fun p => ef_names p.1) pairs).

Definition plan_values (tc_index temp_unit_index : Z)
    (cjc_slope cjc_offset : Q) (pairs : list (string * Z)) : list value :=
  concat (map (fun p => ef_values tc_index temp_unit_index cjc_slope
                          cjc_offset p.2) pairs).

(** The batch written at the end of iteration [i] (counted from 1) when
    the loop was entered with [aNames] and [aValues]. *)
Definition ef_batch (handle tc_index temp_unit_index : Z)
    (cjc_slope cjc_offset : Q) (pairs : list (string * Z))
    (aNames : list string) (aValues : list value) (i : nat) : ljm_call :=
  EWriteNames handle (length aNames + 5 * i)
    (aNames ++ plan_names (take i pairs))
    (aValues ++ plan_values tc_index temp_unit_index cjc_slope cjc_offset
                  (take i pairs)).

Lemma configure_ain_ef_loop_ok handle tc_index tu slope offset pairs :
  forall aNames aValues s,
  configure_ain_ef_loop W handle tc_index tu slope offset pairs aNames
    aValues s =
  (Ok (aNames ++ plan_names pairs,
       aValues ++ plan_values tc_index tu slope offset pairs),
   wrote (map (ef_batch handle tc_index tu slope offset pairs aNames aValues)
            (seq 1 (length pairs))) s).
Proof.
  induction pairs as [| [cn addr] l IH]; intros aNames aValues s.
  - simpl. unfold plan_names, plan_values. simpl.
    now rewrite !app_nil_r, wrote_nil.
  - simpl configure_ain_ef_loop.
    step by apply eWriteNames_ok.
    rewrite IH. rewrite wrote_cons. f_equal.
    + unfold plan_names, plan_values, ef_names, ef_values. simpl.
      now rewrite <- !app_assoc.
    + f_equal. cbn [length seq map].
      rewrite <- (seq_shift (length l) 1), map_map. f_equal.
      * unfold ef_batch, plan_names, plan_values, ef_names, ef_values.
        simpl. rewrite !length_app. simpl.
        rewrite <- !app_assoc. simpl. f_equal. lia.
      * apply map_ext. intros i.
        unfold ef_batch, plan_names, plan_values, ef_names, ef_values.
        simpl. rewrite !length_app. simpl.
        rewrite <- !app_assoc. simpl. f_equal. lia.
Qed.

Lemma configure_ain_ef_registers_ok handle channel_names tc_index tu
    cjc_addresses slope offset s :
  configure_ain_ef_registers W handle channel_names tc_index tu cjc_addresses
    slope offset s =
  (Ok tt,
   wrote (map (ef_batch handle tc_index tu slope offset
                 (zip channel_names cjc_addresses) [] [])
            (seq 1 (length (zip channel_names cjc_addresses)))) s).
Proof.
  unfold configure_ain_ef_registers. cbv zeta.
  step by apply configure_ain_ef_loop_ok.
  reflexivity.
Qed.

End Writes.

(** ** A configuration that succeeds: T7, type K, every write accepted *)

Section Configured.

Variable W : mock.
Hypothesis open_ok : openS_error W = NOERROR.
Hypothesis info_ok : getHandleInfo_error W = NOERROR.
Hypothesis is_T7 : deviceType (getHandleInfo_result W) = dtT7.
Hypothesis writes_ok : forall i, write_error W i = NOERROR.
Hypothesis start_ok : startInterval_error W = NOERROR.

Variables (tc_type temp_unit : string) (u : Z).
Hypothesis type_K : lower tc_type = "k".
Hypothesis unit_known : temp_unit_index !! lower temp_unit = Some u.

(** The calls of a configuration of [channels], in the order issued. *)
Definition configuration_writes (channels : list Z) : list ljm_call :=
  let handle := openS_handle W in
  let channel_names := map create_analog_channel channels in
  let pairs := zip channel_names (map (get_cjc_address dtT7) channels) in
  map (negative_ch_write handle) channel_names ++
  map (resolution_index_write handle) (zip channel_names channels) ++
  map (ef_batch handle 22 u (1#1) (0#1) pairs [] []) (seq 1 (length pairs)).

Definition configured (channels : list Z) (seconds : Q) (s : state) : state :=
  log_call
    (StartInterval interval_handle (int_of_float (float_mul seconds (10 ^ 6 # 1))))
    (wrote (configuration_writes channels) (opened W s)).

Lemma set_time_interval_between_readings_ok seconds s :
  set_time_interval_between_readings W interval_handle seconds s =
  (Ok tt,
   log_call
     (StartInterval interval_handle (int_of_float (float_mul seconds (10 ^ 6 # 1))))
     s).
Proof.
  unfold set_time_interval_between_readings, startInterval. run.
  now rewrite start_ok.
Qed.

Lemma configuring_T7 channels seconds s :
  configuring W channels tc_type temp_unit seconds s =
  (Ok (openS_handle W, map create_analog_channel channels),
   configured channels seconds s).
Proof.
  rewrite (configuring_K W open_ok info_ok tc_type temp_unit u type_K
             unit_known).
  rewrite is_T7.
  step by apply (negative_channels_T7 W writes_ok).
  step by apply (set_resolution_index_registers_ok W writes_ok).
  step by apply (configure_ain_ef_registers_ok W writes_ok).
  step by apply set_time_interval_between_readings_ok.
  unfold ret, configured, configuration_writes. cbv zeta.
  now rewrite !wrote_app.
Qed.

End Configured.

(** ** The sampling loop *)

Ltac fields :=
  cbn [log_call log_print log_fs count_write count_read count_wait count_now
       append_times append_delta_times append_data reset_lists wrote id
       ljm_log stdout fs_log n_writes n_reads n_waits n_now times
       delta_times data].

Section Sampling.

Variable W : mock.
Variables (handle : Z) (abcs_flattened : list string) (start_time : Z)
          (print_output_flag : bool).

(** The row appended by the tick that does the read number [i_read] and
    the clock reading number [i_now]. *)
Definition sample_row (i_read i_now : nat) : list value :=
  (map VFloat (map (read_value W i_read) abcs_flattened) ++
   [VStr (strftime W (now W i_now) time_format)]) ++
  [VFloat (total_seconds (now W i_now - start_time))].

(** The state of a tick once its read has been issued. *)
Definition reading (s : state) : state :=
  count_read
    (log_call (EReadNames handle (length abcs_flattened) abcs_flattened)
       (append_delta_times (total_seconds (now W (n_now s) - start_time))
          (append_times (strftime W (now W (n_now s)) time_format)
             (count_now s)))).

(** The state after a tick in which the read succeeded. *)
Definition ticked (s : state) : state :=
  let row := sample_row (n_reads s) (n_now s) in
  count_wait
    (log_call (WaitForNextInterval interval_handle)
       ((if print_output_flag then log_print (PRow row) else id)
          (append_data row (reading s)))).

Fixpoint ticks (n : nat) (s : state) : state :=
  match n with
  | O => s
  | S n' => ticks n' (ticked s)
  end.

Lemma datetime_now_eq s : datetime_now W s = (Ok (now W (n_now s)), count_now s).
Proof. reflexivity. Qed.

Lemma modify_eq f s : modify f s = (Ok tt, f s).
Proof. reflexivity. Qed.

Lemma eReadNames_ok n aNames s :
  read_error W (n_reads s) = NOERROR ->
  eReadNames W handle n aNames s =
  (Ok (map (read_value W (n_reads s)) (take n aNames)),
   count_read (log_call (EReadNames handle n aNames) s)).
Proof. intros H. unfold eReadNames. run. fields. now rewrite H. Qed.

Lemma eReadNames_raise n aNames s :
  read_error W (n_reads s) <> NOERROR ->
  eReadNames W handle n aNames s =
  (Raise (LJMError (read_error W (n_reads s))),
   count_read (log_call (EReadNames handle n aNames) s)).
Proof.
  intros H. unfold eReadNames. run. fields.
  now rewrite check_error_raise by exact H.
Qed.

Lemma waitForNextInterval_ok ih s :
  wait_error W (n_waits s) = NOERROR ->
  waitForNextInterval W ih s =
  (Ok tt, count_wait (log_call (WaitForNextInterval ih) s)).
Proof. intros H. unfold waitForNextInterval. run. fields. now rewrite H. Qed.

Lemma waitForNextInterval_raise ih s :
  wait_error W (n_waits s) <> NOERROR ->
  waitForNextInterval W ih s =
  (Raise (LJMError (wait_error W (n_waits s))),
   count_wait (log_call (WaitForNextInterval ih) s)).
Proof.
  intros H. unfold waitForNextInterval. run. fields.
  now rewrite check_error_raise by exact H.
Qed.

Lemma n_waits_printed (b : bool) p s :
  n_waits ((if b then log_print p else id) s) = n_waits s.
Proof. now destruct b. Qed.

Lemma tick_to_wait s :
  read_error W (n_reads s) = NOERROR ->
  tick W handle abcs_flattened start_time print_output_flag s =
  waitForNextInterval W interval_handle
    ((if print_output_flag
      then log_print (PRow (sample_row (n_reads s) (n_now s))) else id)
       (append_data (sample_row (n_reads s) (n_now s)) (reading s))).
Proof.
  intros Hr. unfold tick.
  step by apply datetime_now_eq.
  step by apply modify_eq.
  step by apply modify_eq.
  step by (apply eReadNames_ok; exact Hr).
  step by apply modify_eq.
  rewrite firstn_all. fields.
  generalize print_output_flag as b. intros [|].
  - step by apply modify_eq. reflexivity.
  - step by reflexivity. reflexivity.
Qed.

Lemma tick_ok s :
  read_error W (n_reads s) = NOERROR ->
  wait_error W (n_waits s) = NOERROR ->
  tick W handle abcs_flattened start_time print_output_flag s =
  (Ok tt, ticked s).
Proof.
  intros Hr Hw. rewrite tick_to_wait by exact Hr.
  apply waitForNextInterval_ok. now rewrite n_waits_printed.
Qed.

Lemma tick_read_fails s :
  read_error W (n_reads s) <> NOERROR ->
  tick W handle abcs_flattened start_time print_output_flag s =
  (Raise (LJMError (read_error W (n_reads s))), reading s).
Proof.
  intros Hr. unfold tick.
  step by apply datetime_now_eq.
  step by apply modify_eq.
  step by apply modify_eq.
  apply bind_raise.
  apply eReadNames_raise. exact Hr.
Qed.

Lemma tick_wait_fails s :
  read_error W (n_reads s) = NOERROR ->
  wait_error W (n_waits s) <> NOERROR ->
  tick W handle abcs_flattened start_time print_output_flag s =
  (Raise (LJMError (wait_error W (n_waits s))), ticked s).
Proof.
  intros Hr Hw. rewrite tick_to_wait by exact Hr.
  rewrite waitForNextInterval_raise by now rewrite n_waits_printed.
  now rewrite n_waits_printed.
Qed.

Lemma ticked_fields s :
  n_reads (ticked s) = S (n_reads s) /\
  n_waits (ticked s) = S (n_waits s) /\
  n_now (ticked s) = S (n_now s) /\
  n_writes (ticked s) = n_writes s /\
  fs_log (ticked s) = fs_log s /\
  data (ticked s) = data s ++ [sample_row (n_reads s) (n_now s)] /\
  ljm_log (ticked s) =
    ljm_log s ++
    [EReadNames handle (length abcs_flattened) abcs_flattened;
     WaitForNextInterval interval_handle].
Proof.
  unfold ticked, reading. generalize print_output_flag as b.
  intros [|]; fields; rewrite <- app_assoc; repeat split; reflexivity.
Qed.

Lemma ticks_unfold n s : ticks (S n) s = ticks n (ticked s).
Proof. reflexivity. Qed.

Lemma ticks_S n s : ticks (S n) s = ticked (ticks n s).
Proof.
  revert s. induction n as [| n IH]; intros s; [reflexivity |].
  rewrite (ticks_unfold (S n) s), (IH (ticked s)), (ticks_unfold n s).
  reflexivity.
Qed.

Lemma ticks_counters n s :
  (n_reads (ticks n s) = n_reads s + n /\
   n_waits (ticks n s) = n_waits s + n /\
   n_now (ticks n s) = n_now s + n)%nat.
Proof.
  induction n as [| n (IH1 & IH2 & IH3)].
  - simpl. lia.
  - rewrite ticks_S.
    destruct (ticked_fields (ticks n s)) as (-> & -> & -> & _). lia.
Qed.

Lemma ticks_unchanged n s :
  n_writes (ticks n s) = n_writes s /\ fs_log (ticks n s) = fs_log s.
Proof.
  induction n as [| n (IH1 & IH2)]; [easy |].
  rewrite ticks_S.
  destruct (ticked_fields (ticks n s)) as (_ & _ & _ & -> & -> & _). easy.
Qed.

(** The rows are appended in the order of the reads. *)
Lemma data_ticks n s :
  data (ticks n s) =
  data s ++
  map (fun i => sample_row (n_reads s + i) (n_now s + i))%nat (seq 0 n).
Proof.
  induction n as [| n IH].
  - simpl. now rewrite app_nil_r.
  - rewrite ticks_S.
    destruct (ticked_fields (ticks n s)) as (_ & _ & _ & _ & _ & -> & _).
    rewrite IH, seq_S, map_app, <- app_assoc.
    destruct (ticks_counters n s) as (-> & _ & ->). reflexivity.
Qed.

(** Each tick issues one batched read and one wait. *)
Lemma ljm_log_ticks n s :
  ljm_log (ticks n s) =
  ljm_log s ++
  concat (replicate n
            [EReadNames handle (length abcs_flattened) abcs_flattened;
             WaitForNextInterval interval_handle]).
Proof.
  induction n as [| n IH].
  - simpl. now rewrite app_nil_r.
  - rewrite ticks_S.
    destruct (ticked_fields (ticks n s)) as (_ & _ & _ & _ & _ & _ & ->).
    rewrite IH, <- app_assoc. f_equal.
    change (S n) with (1 + n)%nat. rewrite Nat.add_comm, replicate_add.
    rewrite concat_app. simpl. reflexivity.
Qed.

Lemma try_except_ok {A} (body : M A) handler s a s' :
  body s = (Ok a, s') -> try_except body handler s = (Ok a, s').
Proof. intros H. unfold try_except. now rewrite H. Qed.

Lemma try_except_caught {A} (body : M A) handler s e s' :
  body s = (Raise e, s') -> is_Exception e = true ->
  try_except body handler s = handler e s'.
Proof. intros H He. unfold try_except. now rewrite H, He. Qed.

(** With no failure the loop runs [n] ticks and leaves through the end of
    [range]. *)
Lemma sampling_loop_completes n :
  forall s,
  (forall i, (i < n)%nat -> read_error W (n_reads s + i)%nat = NOERROR) ->
  (forall i, (i < n)%nat -> wait_error W (n_waits s + i)%nat = NOERROR) ->
  sampling_loop W n handle abcs_flattened start_time print_output_flag s =
  (Ok Next, ticks n s).
Proof.
  induction n as [| n IH]; intros s Hr Hw; [reflexivity |].
  cbn [sampling_loop].
  assert (Ht : tick W handle abcs_flattened start_time print_output_flag s =
               (Ok tt, ticked s)).
  { apply tick_ok.
    - specialize (Hr 0%nat). rewrite Nat.add_0_r in Hr. apply Hr. lia.
    - specialize (Hw 0%nat). rewrite Nat.add_0_r in Hw. apply Hw. lia. }
  assert (Hb : (tick W handle abcs_flattened start_time print_output_flag;;
                ret Next) s = (Ok Next, ticked s))
    by (erewrite bind_ok by exact Ht; reflexivity).
  step by (apply try_except_ok; exact Hb).
  cbn [ticks]. destruct (ticked_fields s) as (Er & Ew & _).
  apply IH.
  - intros i Hi. rewrite Er.
    replace (S (n_reads s) + i)%nat with (n_reads s + S i)%nat by lia.
    apply Hr. lia.
  - intros i Hi. rewrite Ew.
    replace (S (n_waits s) + i)%nat with (n_waits s + S i)%nat by lia.
    apply Hw. lia.
Qed.

(** When the read of tick [k] (counted from 0) is the first call to fail,
    the loop prints the error and breaks; the [k] earlier ticks are
    complete. *)
Lemma sampling_loop_read_aborts n :
  forall k s,
  (k < n)%nat ->
  (forall i, (i < k)%nat -> read_error W (n_reads s + i)%nat = NOERROR) ->
  (forall i, (i < k)%nat -> wait_error W (n_waits s + i)%nat = NOERROR) ->
  read_error W (n_reads s + k)%nat <> NOERROR ->
  sampling_loop W n handle abcs_flattened start_time print_output_flag s =
  (Ok Break,
   log_print (PExc (LJMError (read_error W (n_reads s + k)%nat)))
     (reading (ticks k s))).
Proof.
  induction n as [| n IH]; intros k s Hk Hr Hw He; [lia |].
  cbn [sampling_loop]. destruct k as [| k].
  - rewrite Nat.add_0_r in *. cbn [ticks].
    assert (Ht : try_except
                   (tick W handle abcs_flattened start_time
                      print_output_flag;; ret Next)
                   (fun e => print (PExc e);; ret Break) s =
                 (Ok Break,
                  log_print (PExc (LJMError (read_error W (n_reads s))))
                    (reading s))).
    { erewrite try_except_caught;
        [| apply bind_raise; apply tick_read_fails; exact He | reflexivity].
      reflexivity. }
    step by exact Ht. reflexivity.
  - assert (Ht : tick W handle abcs_flattened start_time print_output_flag s =
                 (Ok tt, ticked s)).
    { apply tick_ok.
      - specialize (Hr 0%nat). rewrite Nat.add_0_r in Hr. apply Hr. lia.
      - specialize (Hw 0%nat). rewrite Nat.add_0_r in Hw. apply Hw. lia. }
    assert (Hb : (tick W handle abcs_flattened start_time print_output_flag;;
                ret Next) s = (Ok Next, ticked s))
    by (erewrite bind_ok by exact Ht; reflexivity).
  step by (apply try_except_ok; exact Hb).
    cbn [ticks]. destruct (ticked_fields s) as (Er & Ew & _).
    replace (n_reads s + S k)%nat with (n_reads (ticked s) + k)%nat
      in * by (rewrite Er; lia).
    apply IH; [lia | | | exact He].
    + intros i Hi. rewrite Er.
      replace (S (n_reads s) + i)%nat with (n_reads s + S i)%nat by lia.
      apply Hr. lia.
    + intros i Hi. rewrite Ew.
      replace (S (n_waits s) + i)%nat with (n_waits s + S i)%nat by lia.
      apply Hw. lia.
Qed.

Lemma length_sample_row i j :
  length (sample_row i j) = (length abcs_flattened + 2)%nat.
Proof. unfold sample_row. rewrite !length_app, !length_map. simpl. lia. Qed.

(** The rows of the frame all have the width of a sample. *)
Definition rows_ok (s : state) : Prop :=
  Forall (fun row => length row = (length abcs_flattened + 2)%nat) (data s).

Lemma rows_ok_ticked s : rows_ok s -> rows_ok (ticked s).
Proof.
  unfold rows_ok.
  destruct (ticked_fields s) as (_ & _ & _ & _ & _ & -> & _).
  intros H. apply Forall_app. split; [exact H |].
  constructor; [apply length_sample_row | constructor].
Qed.

Lemma rows_ok_ticks n s : rows_ok s -> rows_ok (ticks n s).
Proof.
  intros H. induction n as [| n IH]; [exact H |].
  rewrite ticks_S. now apply rows_ok_ticked.
Qed.

(** The loop never raises: whatever the reads and waits do, it returns,
    and the rows collected so far are kept. *)
Lemma sampling_loop_returns n :
  forall s, rows_ok s ->
  exists how_left s',
    sampling_loop W n handle abcs_flattened start_time print_output_flag s =
    (Ok how_left, s') /\ rows_ok s' /\ fs_log s' = fs_log s.
Proof.
  induction n as [| n IH]; intros s Hs.
  - exists Next, s. now repeat split.
  - cbn [sampling_loop].
    destruct (Z.eq_dec (read_error W (n_reads s)) NOERROR) as [Hr | Hr].
    + destruct (Z.eq_dec (wait_error W (n_waits s)) NOERROR) as [Hw | Hw].
      * assert (Hb : (tick W handle abcs_flattened start_time
                        print_output_flag;; ret Next) s =
                     (Ok Next, ticked s))
          by (erewrite bind_ok by (apply tick_ok; assumption); reflexivity).
        step by (apply try_except_ok; exact Hb).
        destruct (IH (ticked s) (rows_ok_ticked s Hs))
          as (f & s' & E & Hrows & Hfs).
        exists f, s'. repeat split; [exact E | exact Hrows |].
        rewrite Hfs. now destruct (ticked_fields s) as (_ & _ & _ & _ & -> & _).
      * assert (Hb : try_except
                       (tick W handle abcs_flattened start_time
                          print_output_flag;; ret Next)
                       (fun e => print (PExc e);; ret Break) s =
                     (Ok Break,
                      log_print (PExc (LJMError (wait_error W (n_waits s))))
                        (ticked s))).
        { erewrite try_except_caught;
            [| apply bind_raise; apply tick_wait_fails; assumption
             | reflexivity].
          reflexivity. }
        step by exact Hb.
        eexists _, _. split; [reflexivity |]. split.
        -- apply (rows_ok_ticked s Hs).
        -- destruct (ticked_fields s) as (_ & _ & _ & _ & E & _). exact E.
    + assert (Hb : try_except
                     (tick W handle abcs_flattened start_time
                        print_output_flag;; ret Next)
                     (fun e => print (PExc e);; ret Break) s =
                   (Ok Break,
                    log_print (PExc (LJMError (read_error W (n_reads s))))
                      (reading s))).
      { erewrite try_except_caught;
          [| apply bind_raise; apply tick_read_fails; assumption
           | reflexivity].
        reflexivity. }
      step by exact Hb.
      eexists _, _. split; [reflexivity |]. split; [exact Hs | reflexivity].
Qed.

End Sampling.

(** ** What a computation may add to the log of LJM calls *)

(** [extends P s s']: the log of [s'] is the log of [s] followed by calls
    that all satisfy [P]. *)
Definition extends (P : ljm_call -> bool) (s s' : state) : Prop :=
  exists calls,
    ljm_log s' = ljm_log s ++ calls /\ Forall (fun c => P c = true) calls.

(** [m] only ever adds calls satisfying [P], whether it returns or raises. *)
Definition adds_only {A} (P : ljm_call -> bool) (m : M A) : Prop :=
  forall s r s', m s = (r, s') -> extends P s s'.

Lemma extends_refl P s : extends P s s.
Proof. exists []. split; [now rewrite app_nil_r | constructor]. Qed.

Lemma extends_trans P s1 s2 s3 :
  extends P s1 s2 -> extends P s2 s3 -> extends P s1 s3.
Proof.
  intros (c1 & E1 & F1) (c2 & E2 & F2). exists (c1 ++ c2). split.
  - now rewrite E2, E1, app_assoc.
  - apply Forall_app. now split.
Qed.

Lemma extends_same_log P s s' : ljm_log s' = ljm_log s -> extends P s s'.
Proof. intros E. exists []. split; [now rewrite app_nil_r | constructor]. Qed.

Lemma extends_log_call P c s : P c = true -> extends P s (log_call c s).
Proof. intros H. exists [c]. split; [reflexivity | now repeat constructor]. Qed.

Section Adds_only.

Variable P : ljm_call -> bool.

Lemma adds_only_ret {A} (a : A) : adds_only P (ret a).
Proof. intros s r s' [= _ <-]. apply extends_refl. Qed.

Lemma adds_only_raise {A} e : adds_only P (@raise A e).
Proof. intros s r s' [= _ <-]. apply extends_refl. Qed.

Lemma adds_only_gets {A} (f : state -> A) : adds_only P (gets f).
Proof. intros s r s' [= _ <-]. apply extends_refl. Qed.

Lemma adds_only_modify f :
  (forall s, extends P s (f s)) -> adds_only P (modify f).
Proof. intros H s r s' [= _ <-]. apply H. Qed.

Lemma adds_only_bind {A B} (m : M A) (k : A -> M B) :
  adds_only P m -> (forall a, adds_only P (k a)) -> adds_only P (bind m k).
Proof.
  intros Hm Hk s r s'. unfold bind.
  destruct (m s) as [[a | e] s1] eqn:E; intros H.
  - eapply extends_trans; [eapply Hm, E | eapply Hk, H].
  - injection H as _ <-. eapply Hm, E.
Qed.

Lemma adds_only_if {A} (b : bool) (m1 m2 : M A) :
  adds_only P m1 -> adds_only P m2 -> adds_only P (if b then m1 else m2).
Proof. now destruct b. Qed.

Lemma adds_only_print p : adds_only P (print p).
Proof. apply adds_only_modify. intros s. now apply extends_same_log. Qed.

Lemma adds_only_check_error err : adds_only P (check_error err).
Proof. apply adds_only_if; [apply adds_only_ret | apply adds_only_raise]. Qed.

Lemma adds_only_getitem {V} (d : gmap string V) k : adds_only P (getitem d k).
Proof.
  unfold getitem. destruct (d !! k);
    [apply adds_only_ret | apply adds_only_raise].
Qed.

Lemma adds_only_for_each {A} (l : list A) body :
  (forall x, adds_only P (body x)) -> adds_only P (for_each l body).
Proof.
  intros H. induction l as [| x l IH]; simpl.
  - apply adds_only_ret.
  - apply adds_only_bind; [apply H | intros _; exact IH].
Qed.

Lemma adds_only_for_append {A B} (l : list A) (f : A -> M B) :
  (forall x, adds_only P (f x)) -> adds_only P (for_append l f).
Proof.
  intros H. induction l as [| x l IH]; simpl.
  - apply adds_only_ret.
  - apply adds_only_bind; [apply H | intros y].
    apply adds_only_bind; [exact IH | intros ys; apply adds_only_ret].
Qed.

Lemma adds_only_try_except {A} (body : M A) handler :
  adds_only P body -> (forall e, adds_only P (handler e)) ->
  adds_only P (try_except body handler).
Proof.
  intros Hb Hh s r s'. unfold try_except.
  destruct (body s) as [[a | e] s1] eqn:E; intros H.
  - injection H as _ <-. eapply Hb, E.
  - destruct (is_Exception e).
    + eapply extends_trans; [eapply Hb, E | eapply Hh, H].
    + injection H as _ <-. eapply Hb, E.
Qed.

End Adds_only.

Create HintDb adds.

#[local] Hint Resolve adds_only_ret adds_only_raise adds_only_gets
  adds_only_print adds_only_check_error adds_only_getitem
  extends_same_log extends_log_call : adds.

Ltac prims :=
  unfold openS, getHandleInfo, eWriteName, eWriteNames, eReadNames,
    startInterval, waitForNextInterval, cleanInterval, close, datetime_now,
    mkdir, to_csv, pd_DataFrame, exit, load_local, unpack2;
  repeat first
    [ apply adds_only_bind; [| intros ?]
    | apply adds_only_modify; intros ?
    | apply adds_only_if
    | match goal with
      | |- adds_only _ (match ?x with _ => _ end) => destruct x
      end
    | progress auto with adds ].

(** ** Nothing before the end of the routine releases a handle *)

Definition not_release (c : ljm_call) : bool := negb (is_release c).

Section Never_releases.

Variable W : mock.

Lemma get_labjack_handle_never_releases :
  adds_only not_release (get_labjack_handle W).
Proof. unfold get_labjack_handle. prims. Qed.

Lemma get_channel_value_register_never_releases handle device_type cn :
  adds_only not_release (get_channel_value_register W handle device_type cn).
Proof. unfold get_channel_value_register. prims. Qed.

Lemma set_resolution_index_registers_never_releases handle cns channels :
  adds_only not_release (set_resolution_index_registers W handle cns channels).
Proof.
  unfold set_resolution_index_registers.
  apply adds_only_for_each. intros [cn c]. prims.
Qed.

Lemma configure_ain_ef_registers_never_releases handle cns i tu addrs sl off :
  adds_only not_release
    (configure_ain_ef_registers W handle cns i tu addrs sl off).
Proof.
  unfold configure_ain_ef_registers. cbv zeta.
  apply adds_only_bind; [| intros ?; apply adds_only_ret].
  generalize (@nil string) as aNames, (@nil value) as aValues.
  induction (zip cns addrs) as [| [cn addr] l IH]; intros aNames aValues;
    simpl.
  - apply adds_only_ret.
  - apply adds_only_bind; [prims | intros _; apply IH].
Qed.

Lemma configuring_never_releases channels tc_type temp_unit seconds :
  adds_only not_release (configuring W channels tc_type temp_unit seconds).
Proof.
  unfold configuring.
  apply adds_only_bind; [apply get_labjack_handle_never_releases |].
  intros [handle device_type].
  apply adds_only_bind; [apply adds_only_getitem | intros tc_index].
  apply adds_only_bind; [unfold set_cjc_slope_offset; prims | intros r].
  apply adds_only_bind; [prims | intros [slope offset]].
  apply adds_only_bind; [apply adds_only_getitem | intros tu].
  apply adds_only_bind;
    [apply adds_only_for_append; intros cn;
     apply get_channel_value_register_never_releases | intros negs].
  apply adds_only_bind;
    [apply set_resolution_index_registers_never_releases | intros _].
  apply adds_only_bind;
    [apply configure_ain_ef_registers_never_releases | intros _].
  apply adds_only_bind; [| intros _; apply adds_only_ret].
  unfold set_time_interval_between_readings. prims.
Qed.

Lemma sampling_loop_never_releases n handle abcs start_time flag :
  adds_only not_release (sampling_loop W n handle abcs start_time flag).
Proof.
  induction n as [| n IH]; simpl.
  - apply adds_only_ret.
  - apply adds_only_bind.
    + apply adds_only_try_except; [| intros e; prims].
      unfold tick. prims.
    + intros [|]; [exact IH | apply adds_only_ret].
Qed.

End Never_releases.

(** ** A whole session on a T7 *)

(** The register names read at every tick and the column labels. *)
Definition abcs_of (channels : list Z) : list string :=
  concat (map (fun cn => fst (get_read_ABC cn))
            (map create_analog_channel channels)).

Definition labels_of (channels : list Z) : list string :=
  (concat (map (fun cn => snd (get_read_ABC cn))
             (map create_analog_channel channels)) ++ ["time"]) ++ ["dt"].

Lemma length_abcs_of channels :
  length (abcs_of channels) = (3 * length channels)%nat.
Proof.
  unfold abcs_of. induction channels as [| c l IH]; [reflexivity |].
  cbn [map concat]. rewrite length_app, IH. cbn [get_read_ABC fst length]. lia.
Qed.

Lemma length_labels_of channels :
  length (labels_of channels) = (length (abcs_of channels) + 2)%nat.
Proof.
  unfold labels_of. rewrite !length_app, length_abcs_of. cbn [length].
  enough (length (concat (map (fun cn => snd (get_read_ABC cn))
                            (map create_analog_channel channels))) =
          (3 * length channels)%nat) by lia.
  induction channels as [| c l IH]; [reflexivity |].
  cbn [map concat]. rewrite length_app, IH.
  cbn [get_read_ABC snd length map]. lia.
Qed.





Section Session.

Variable W : mock.
Hypothesis open_ok : openS_error W = NOERROR.
Hypothesis info_ok : getHandleInfo_error W = NOERROR.
Hypothesis is_T7 : deviceType (getHandleInfo_result W) = dtT7.
Hypothesis writes_ok : forall i, write_error W i = NOERROR.
Hypothesis start_ok : startInterval_error W = NOERROR.

Variables (channels : list Z) (tc_type temp_unit : string) (u : Z)
          (num_iterations : Z) (seconds : Q) (print_output_flag : bool)
          (save_to : option path).
Hypothesis type_K : lower tc_type = "k".
Hypothesis unit_known : temp_unit_index !! lower temp_unit = Some u.

(** The state in which the loop is entered. *)
Definition started (s : state) : state :=
  count_now
    (reset_lists
       (log_print
          (PReading (map create_analog_channel channels) num_iterations)
          (log_print (PLabelled "abcs flattened" (abcs_of channels))
             (configured W u channels seconds s)))).

(** What the routine does once the loop is left. *)
Definition finishing (start_time : Z) (how_left : flow) : M flow :=
  data ← gets data;
  data ← pd_DataFrame data (labels_of channels);
  print (PFrame data);;
  save W save_to (strftime W start_time save_time_format)
    (setitem data "T unit" (VStr temp_unit));;
  release W (openS_handle W);;
  ret how_left.

Lemma started_counters s :
  n_now (started s) = S (n_now s) /\ n_reads (started s) = n_reads s /\
  n_waits (started s) = n_waits s /\ data (started s) = [] /\
  fs_log (started s) = fs_log s.
Proof. repeat split; reflexivity. Qed.

Lemma read_and_log_thermocouple_T7 s :
  read_and_log_thermocouple W channels tc_type temp_unit num_iterations
    seconds print_output_flag save_to s =
  bind (sampling_loop W (Z.to_nat num_iterations) (openS_handle W)
          (abcs_of channels) (now W (n_now s)) print_output_flag)
       (finishing (now W (n_now s))) (started s).
Proof.
  unfold read_and_log_thermocouple.
  step by apply (configuring_T7 W open_ok info_ok is_T7 writes_ok start_ok
                   tc_type temp_unit u type_K unit_known).
  cbv zeta.
  step by apply modify_eq.
  step by apply modify_eq.
  step by apply modify_eq.
  step by apply datetime_now_eq.
  reflexivity.
Qed.

Hypothesis mkdir_always : forall p, mkdir_ok W p = true.
Hypothesis to_csv_always : forall p, to_csv_ok W p = true.
Hypothesis clean_ok : cleanInterval_error W = NOERROR.
Hypothesis close_ok : close_error W = NOERROR.

Definition saved (start_time : Z) (df : DataFrame) (s : state) : state :=
  match save_to with
  | None => s
  | Some p =>
      if is_dir W p then
        log_fs
          (ToCsv (WithSuffix (Join p (strftime W start_time save_time_format))
                    ".csv") true df)
          (log_fs (Mkdir p) s)
      else log_fs (ToCsv p false df) (log_fs (Mkdir (Parent p)) s)
  end.

(** The frame built from the rows collected by the loop. *)
Definition frame_of (s : state) : DataFrame :=
  mkDataFrame (labels_of channels) (data s).

Definition finished (start_time : Z) (s : state) : state :=
  log_print (PStr "Done!")
    (log_call (Close (openS_handle W))
       (log_call (CleanInterval interval_handle)
          (saved start_time (setitem (frame_of s) "T unit" (VStr temp_unit))
             (log_print (PFrame (frame_of s)) s)))).

Lemma mkdir_eq p s : mkdir W p s = (Ok tt, log_fs (Mkdir p) s).
Proof. unfold mkdir. run. now rewrite mkdir_always. Qed.

Lemma to_csv_eq df p index s :
  to_csv W df p index s = (Ok tt, log_fs (ToCsv p index df) s).
Proof. unfold to_csv. run. now rewrite to_csv_always. Qed.

Lemma save_eq start_time df s :
  save W save_to (strftime W start_time save_time_format) df s =
  (Ok tt, saved start_time df s).
Proof.
  unfold save, saved. destruct save_to as [p |]; [| reflexivity].
  destruct (is_dir W p).
  - step by apply mkdir_eq. apply to_csv_eq.
  - step by apply mkdir_eq. apply to_csv_eq.
Qed.

Lemma release_eq handle s :
  release W handle s =
  (Ok tt,
   log_print (PStr "Done!")
     (log_call (Close handle) (log_call (CleanInterval interval_handle) s))).
Proof.
  unfold release, cleanInterval, close. run. now rewrite clean_ok, close_ok.
Qed.

Lemma pd_DataFrame_ok s :
  rows_ok (abcs_of channels) s ->
  pd_DataFrame (data s) (labels_of channels) s = (Ok (frame_of s), s).
Proof.
  intros H. unfold pd_DataFrame.
  replace (forallb _ (data s)) with true; [reflexivity |].
  symmetry. apply forallb_forall. intros row Hin.
  unfold rows_ok in H. rewrite Forall_forall in H.
  rewrite length_labels_of. apply Nat.eqb_eq. apply H.
  now apply list_elem_of_In.
Qed.

Lemma finishing_ok start_time how_left s :
  rows_ok (abcs_of channels) s ->
  finishing start_time how_left s = (Ok how_left, finished start_time s).
Proof.
  intros H. unfold finishing.
  step by reflexivity.
  step by (apply pd_DataFrame_ok; exact H).
  step by apply modify_eq.
  step by apply save_eq.
  step by apply release_eq.
  reflexivity.
Qed.

Lemma ljm_log_finished start_time s :
  ljm_log (finished start_time s) =
  ljm_log s ++ [CleanInterval interval_handle; Close (openS_handle W)].
Proof.
  unfold finished, saved. destruct save_to as [p |].
  - destruct (is_dir W p); fields; now rewrite <- app_assoc.
  - fields. now rewrite <- app_assoc.
Qed.

Lemma finished_fields start_time s :
  data (finished start_time s) = data s /\
  n_reads (finished start_time s) = n_reads s /\
  stdout (finished start_time s) =
    stdout s ++ [PFrame (frame_of s); PStr "Done!"] /\
  fs_log (finished start_time s) =
    fs_log s ++
    match save_to with
    | None => []
    | Some p =>
        let df := setitem (frame_of s) "T unit" (VStr temp_unit) in
        if is_dir W p then
          [Mkdir p;
           ToCsv (WithSuffix
                    (Join p (strftime W start_time save_time_format)) ".csv")
             true df]
        else [Mkdir (Parent p); ToCsv p false df]
    end.
Proof.
  unfold finished, saved. destruct save_to as [p |].
  - destruct (is_dir W p); fields; rewrite <- !app_assoc;
      repeat split; reflexivity.
  - fields. rewrite <- !app_assoc, app_nil_r. repeat split; reflexivity.
Qed.

Lemma rows_ok_started s : rows_ok (abcs_of channels) (started s).
Proof. constructor. Qed.

(** The rows of a session whose first [n] reads succeeded: row [i] holds
    the values of read [i] and the clock reading [i + 1], the reading 0
    being the start time. *)
Definition records (n : nat) : list (list value) :=
  map (fun i => sample_row W (abcs_of channels) (now W 0) i (S i)) (seq 0 n).

Lemma data_ticks_started n :
  data (ticks W (openS_handle W) (abcs_of channels) (now W 0)
          print_output_flag n (started initial_state)) = records n.
Proof.
  rewrite data_ticks. unfold records.
  destruct (started_counters initial_state) as (-> & -> & _ & -> & _).
  reflexivity.
Qed.



(** C2.  When the read of tick [k] (counted from 1) is the first call to
    fail in a session bounded by [num_iterations >= k], the [except]
    clause prints the error and breaks out of the loop; the frame that is
    then printed and saved holds exactly the [k - 1] rows of the earlier
    ticks, in order, and the routine runs to its end. *)
Theorem read_failure_aborts_keeping_records (k : nat) :
  (1 <= k <= Z.to_nat num_iterations)%nat ->
  (forall i, (i < k - 1)%nat -> read_error W i = NOERROR) ->
  (forall i, (i < k - 1)%nat -> wait_error W i = NOERROR) ->
  read_error W (k - 1) <> NOERROR ->
  exists s' printed_before,
    read_and_log_thermocouple W channels tc_type temp_unit num_iterations
      seconds print_output_flag save_to initial_state = (Ok Break, s') /\
    data s' = records (k - 1) /\
    length (data s') = (k - 1)%nat /\
    n_reads s' = k /\
    stdout s' =
      printed_before ++
      [PExc (LJMError (read_error W (k - 1)));
       PFrame (mkDataFrame (labels_of channels) (records (k - 1)));
       PStr "Done!"] /\
    (forall p index df, In (ToCsv p index df) (fs_log s') ->
       df = setitem (mkDataFrame (labels_of channels) (records (k - 1)))
              "T unit" (VStr temp_unit)).
Proof.
  intros Hk Hr Hw He.
  rewrite read_and_log_thermocouple_T7.
  set (s0 := started initial_state).
  set (h := openS_handle W). set (abcs := abcs_of channels).
  set (t0 := now W (n_now initial_state)).
  erewrite bind_ok;
    [| apply sampling_loop_read_aborts with (k := (k - 1)%nat);
       [lia | exact Hr | exact Hw | exact He]].
  set (s1 := ticks W h abcs t0 print_output_flag (k - 1) s0).
  assert (Hdata : data s1 = records (k - 1)) by apply data_ticks_started.
  assert (Hrows : rows_ok abcs s1)
    by (apply rows_ok_ticks, rows_ok_started).
  rewrite finishing_ok by exact Hrows.
  eexists _, _. split; [reflexivity |].
  match goal with
  | |- context [finished ?st ?s] =>
      destruct (finished_fields st s) as (-> & -> & -> & ->)
  end.
  assert (Hframe : forall p, frame_of (log_print p (reading W h abcs t0 s1)) =
                             mkDataFrame (labels_of channels) (records (k - 1))).
  { intros p. unfold frame_of. f_equal. exact Hdata. }
  rewrite Hframe.
  split; [exact Hdata |].
  split; [change (length (data s1) = (k - 1)%nat); rewrite Hdata;
          unfold records; now rewrite length_map, length_seq |].
  split.
  { change (S (n_reads s1) = k).
    destruct (ticks_counters W h abcs t0 print_output_flag (k - 1) s0)
      as (E & _). fold s1 in E. rewrite E.
    change (n_reads s0) with 0%nat. lia. }
  split.
  { cbn [stdout log_print]. rewrite <- app_assoc. reflexivity. }
  intros p index df Hin.
  destruct (ticks_unchanged W h abcs t0 print_output_flag (k - 1) s0)
    as (_ & Hfs).
  match type of Hin with
  | In _ (fs_log ?x ++ _) => change (fs_log x) with (fs_log s1) in Hin
  end.
  fold s1 in Hfs. rewrite Hfs in Hin. change (fs_log s0) with (@nil fs_op) in Hin.
  cbn [app] in Hin.
  destruct save_to as [q |]; [| destruct Hin].
  destruct (is_dir W q); cbn in Hin;
    destruct Hin as [Hin | [Hin | []]]; try discriminate;
    now injection Hin as _ _ <-.
Qed.


End Session.

(** ** On a T4 nothing is ever written *)

Definition not_write (c : ljm_call) : bool := negb (is_write c).

(** A computation that does not return leaves the rest of a sequence
    unexecuted. *)
Lemma adds_only_bind_raises {A B} P (m : M A) (k : A -> M B) :
  (forall s, exists e s', m s = (Raise e, s')) ->
  adds_only P m -> adds_only P (bind m k).
Proof.
  intros Hr Hm s r s' H. destruct (Hr s) as (e & s1 & E).
  rewrite (bind_raise _ _ _ _ _ E) in H. injection H as _ <-.
  eapply Hm, E.
Qed.

(** What follows a computation may rely on what it returned. *)
Lemma adds_only_bind_returned {A B} P (Q : A -> Prop) (m : M A)
    (k : A -> M B) :
  (forall s a s', m s = (Ok a, s') -> Q a) ->
  adds_only P m -> (forall a, Q a -> adds_only P (k a)) ->
  adds_only P (bind m k).
Proof.
  intros HQ Hm Hk s r s'. unfold bind.
  destruct (m s) as [[a | e] s1] eqn:E; intros H.
  - eapply extends_trans; [eapply Hm, E | eapply Hk, H]. eapply HQ, E.
  - injection H as _ <-. eapply Hm, E.
Qed.

Section Never_writes_T4.

Variable W : mock.
Hypothesis is_T4 : deviceType (getHandleInfo_result W) = dtT4.

Lemma get_labjack_handle_returns s a s' :
  get_labjack_handle W s = (Ok a, s') ->
  a = (openS_handle W, deviceType (getHandleInfo_result W)).
Proof.
  unfold get_labjack_handle, openS, getHandleInfo, check_error. run.
  destruct (openS_error W =? NOERROR); [| discriminate].
  destruct (getHandleInfo_error W =? NOERROR); [| discriminate].
  now intros [= <- _].
Qed.

Lemma sampling_loop_never_writes n handle abcs start_time flag :
  adds_only not_write (sampling_loop W n handle abcs start_time flag).
Proof.
  induction n as [| n IH]; cbn [sampling_loop].
  - apply adds_only_ret.
  - apply adds_only_bind.
    + apply adds_only_try_except; [| intros e; prims].
      unfold tick. prims.
    + intros [|]; [exact IH | apply adds_only_ret].
Qed.

Lemma configuring_T4_never_writes channels tc_type temp_unit seconds :
  adds_only not_write (configuring W channels tc_type temp_unit seconds).
Proof.
  unfold configuring.
  apply adds_only_bind_returned
    with (Q := fun a => a = (openS_handle W, dtT4)).
  { intros s a s' E. rewrite <- is_T4. exact (get_labjack_handle_returns _ _ _ E). }
  { unfold get_labjack_handle. prims. }
  intros a ->.
  apply adds_only_bind; [apply adds_only_getitem | intros tc_index].
  apply adds_only_bind; [unfold set_cjc_slope_offset; prims | intros r].
  apply adds_only_bind; [prims | intros [slope offset]].
  apply adds_only_bind; [apply adds_only_getitem | intros tu].
  destruct channels as [| c l].
  - cbn [map for_append zip zip_with].
    unfold set_resolution_index_registers, configure_ain_ef_registers,
      set_time_interval_between_readings.
    cbn [zip zip_with map for_each configure_ain_ef_loop]. prims.
  - apply adds_only_bind_raises.
    + intros s. eexists _, _. reflexivity.
    + cbn [map for_append]. apply adds_only_bind_raises.
      * intros s. eexists _, _. reflexivity.
      * unfold get_channel_value_register.
        change (dtT4 =? dtT7) with false. change (dtT4 =? dtT4) with true.
        cbv iota. prims.
Qed.

(** Whatever its arguments, the routine issues no register write on a
    T4. *)
Lemma read_and_log_thermocouple_T4_never_writes channels tc_type temp_unit
    num_iterations seconds flag save_to :
  adds_only not_write
    (read_and_log_thermocouple W channels tc_type temp_unit num_iterations
       seconds flag save_to).
Proof.
  unfold read_and_log_thermocouple.
  apply adds_only_bind; [apply configuring_T4_never_writes |].
  intros [handle channel_names]. cbv zeta.
  apply adds_only_bind; [prims | intros _].
  apply adds_only_bind; [prims | intros _].
  apply adds_only_bind; [prims | intros _].
  apply adds_only_bind; [prims | intros start_time].
  apply adds_only_bind; [apply sampling_loop_never_writes | intros how_left].
  apply adds_only_bind; [prims | intros rows].
  apply adds_only_bind; [prims | intros df].
  apply adds_only_bind; [prims | intros _].
  apply adds_only_bind; [| intros _].
  { unfold save. destruct save_to as [p |]; [| prims].
    destruct (is_dir W p); prims. }
  apply adds_only_bind; [unfold release; prims | intros _; prims].
Qed.

End Never_writes_T4.

(** ** Test doubles *)

(** A device of the given type on which every call succeeds, except the
    reads, whose error codes are given; the clock advances by one second
    per reading. *)
Definition mock_device (device_type : Z) (read_errors : nat -> Z) : mock :=
  Mock NOERROR 1 NOERROR (HandleInfo device_type 1 470010000 0 0 64)
       (fun _ => NOERROR) read_errors (fun i _ => inject_Z (Z.of_nat i))
       NOERROR (fun _ => NOERROR) NOERROR NOERROR
       (fun i => 1000000 * Z.of_nat i) (fun t _ => pretty t)
       (fun _ => false) (fun _ => true) (fun _ => true).

Definition no_read_error : nat -> Z := fun _ => NOERROR.

(** The third read fails with LJME_RECONNECT_FAILED. *)
Definition third_read_fails : nat -> Z :=
  fun i => if Nat.eqb i 2 then 1239 else NOERROR.

(** A device as [mock_device], with given error codes for the writes and
    the waits as well, and a file system on which [to_csv] works or not. *)
Definition mock_faulty (device_type : Z)
    (write_errors read_errors wait_errors : nat -> Z) (csv_ok : bool) : mock :=
  Mock NOERROR 1 NOERROR (HandleInfo device_type 1 470010000 0 0 64)
       write_errors read_errors (fun i _ => inject_Z (Z.of_nat i))
       NOERROR wait_errors NOERROR NOERROR
       (fun i => 1000000 * Z.of_nat i) (fun t _ => pretty t)
       (fun _ => false) (fun _ => true) (fun _ => csv_ok).

(** The call number 1 (the second one) fails. *)
Definition second_fails : nat -> Z :=
  fun i => if Nat.eqb i 1 then 1239 else NOERROR.


(** ** C5: a T4 is turned away before anything is written *)

Lemma filter_is_write_nil calls :
  Forall (fun c => not_write c = true) calls -> filter is_write calls = [].
Proof.
  induction 1 as [| c l Hc _ IH]; [reflexivity |].
  rewrite filter_cons, IH. unfold not_write in Hc.
  destruct (is_write c); [discriminate | reflexivity].
Qed.

(** C5.  On a T4, a device without the thermocouple extended function,
    [get_channel_value_register] prints that the T4 is not supported and
    exits.  In [read_and_log_thermocouple], called for type K with a known
    unit and at least one channel, this happens at the first channel, when
    the only calls issued are the opening of the device and the query of
    its type.  Whatever the arguments and however the routine ends, no
    register write is issued on a T4. *)
Theorem unsupported_device_before_any_write (W : mock) :
  openS_error W = NOERROR ->
  getHandleInfo_error W = NOERROR ->
  deviceType (getHandleInfo_result W) = dtT4 ->
  (forall handle channel_name s,
     get_channel_value_register W handle dtT4 channel_name s =
     (Raise (SystemExit 0), log_print (PStr T4_message) s)) /\
  (forall c channels tc_type temp_unit u num_iterations seconds flag save_to,
     lower tc_type = "k" ->
     temp_unit_index !! lower temp_unit = Some u ->
     exists s',
       read_and_log_thermocouple W (c :: channels) tc_type temp_unit
         num_iterations seconds flag save_to initial_state =
       (Raise (SystemExit 0), s') /\
       ljm_log s' = [OpenS "ANY" "ANY" "ANY"; GetHandleInfo (openS_handle W)] /\
       n_writes s' = 0%nat /\
       last (stdout s') = Some (PStr T4_message)) /\
  (forall channels tc_type temp_unit num_iterations seconds flag save_to r s',
     read_and_log_thermocouple W channels tc_type temp_unit num_iterations
       seconds flag save_to initial_state = (r, s') ->
     filter is_write (ljm_log s') = []).
Proof.
  intros Ho Hi Hd. split; [| split].
  - intros handle channel_name s. apply get_channel_value_register_T4.
  - intros c channels tc_type temp_unit u n seconds flag save_to Hk Hu.
    eexists. split.
    + unfold read_and_log_thermocouple. apply bind_raise.
      now apply (configuring_T4 W Ho Hi tc_type temp_unit u Hk Hu).
    + repeat split; reflexivity.
  - intros channels tc_type temp_unit n seconds flag save_to r s' E.
    destruct (read_and_log_thermocouple_T4_never_writes W Hd _ _ _ _ _ _ _
                _ _ _ E) as (calls & -> & F).
    apply filter_is_write_nil. exact F.
Qed.

Lemma unsupported_device_before_any_write_witness :
  exists s',
    read_and_log_thermocouple (mock_device dtT4 no_read_error) [0; 2] "k" "C"
      5 (1#1) true None initial_state = (Raise (SystemExit 0), s') /\
    filter is_write (ljm_log s') = [].
Proof.
  destruct (unsupported_device_before_any_write
              (mock_device dtT4 no_read_error) eq_refl eq_refl eq_refl)
    as (_ & H & Hw).
  destruct (H 0 [2] "k" "C" 1 5 (1#1) true None eq_refl eq_refl)
    as (s' & E & _).
  exists s'. split; [exact E | exact (Hw _ _ _ _ _ _ _ _ _ E)].
Defined.

(** ** C9: a T8 never gets past the negative-channel step *)

(** C9.  On a T8 neither branch of [get_channel_value_register] is taken,
    and its [return] reads [neg_channel_value], which was never assigned:
    the function raises [UnboundLocalError] without touching the device,
    and so does the configuration in [read_and_log_thermocouple] at its
    first channel, although the T8 supports the thermocouple extended
    function. *)
Theorem T8_configuration_unbound_local (W : mock) (c : Z)
    (channels : list Z) (tc_type temp_unit : string) (u : Z)
    (num_iterations : Z) (seconds : Q) (flag : bool) (save_to : option path) :
  openS_error W = NOERROR ->
  getHandleInfo_error W = NOERROR ->
  deviceType (getHandleInfo_result W) = dtT8 ->
  lower tc_type = "k" ->
  temp_unit_index !! lower temp_unit = Some u ->
  (forall handle channel_name s,
     get_channel_value_register W handle dtT8 channel_name s =
     (Raise (UnboundLocalError "neg_channel_value"), s)) /\
  exists s',
    read_and_log_thermocouple W (c :: channels) tc_type temp_unit
      num_iterations seconds flag save_to initial_state =
    (Raise (UnboundLocalError "neg_channel_value"), s') /\
    ljm_log s' = [OpenS "ANY" "ANY" "ANY"; GetHandleInfo (openS_handle W)].
Proof.
  intros Ho Hi Hd Hk Hu. split.
  - intros handle channel_name s.
    apply get_channel_value_register_other; discriminate.
  - eexists. split.
    + unfold read_and_log_thermocouple. apply bind_raise.
      apply (configuring_other W Ho Hi tc_type temp_unit u Hk Hu);
        rewrite Hd; discriminate.
    + reflexivity.
Qed.

Lemma T8_configuration_unbound_local_witness :
  exists s',
    read_and_log_thermocouple (mock_device dtT8 no_read_error) [0; 2] "k" "C"
      5 (1#1) true None initial_state =
    (Raise (UnboundLocalError "neg_channel_value"), s').
Proof.
  destruct (T8_configuration_unbound_local
              (mock_device dtT8 no_read_error) 0 [2] "k" "C" 1 5 (1#1) true
              None eq_refl eq_refl eq_refl eq_refl eq_refl)
    as (_ & s' & E & _).
  exists s'. exact E.
Defined.

(** ** C8: the resolution index of a channel is its own number *)

Lemma string_app_assoc (s1 s2 s3 : string) :
  (s1 +:+ s2) +:+ s3 = s1 +:+ (s2 +:+ s3).
Proof.
  induction s1 as [| a s1 IH]; [reflexivity |].
  change (String a ((s1 +:+ s2) +:+ s3) = String a (s1 +:+ (s2 +:+ s3))).
  now rewrite IH.
Qed.

(** C8.  For the channels of a session, [set_resolution_index_registers]
    writes, for each channel [n] in turn, the value [n] itself to the
    register [AIN<n>_RESOLUTION_INDEX], and nothing else; the function has
    no parameter by which a caller could give another value. *)
Theorem resolution_index_is_channel_number (W : mock) (handle : Z)
    (channels : list Z) (s : state) :
  (forall i, write_error W i = NOERROR) ->
  set_resolution_index_registers W handle
    (map create_analog_channel channels) channels s =
  (Ok tt,
   wrote (map (fun n => EWriteName handle
                          ("AIN" +:+ pretty n +:+ "_RESOLUTION_INDEX")
                          (VInt n)) channels) s).
Proof.
  intros Hw. rewrite (set_resolution_index_registers_ok W Hw). do 2 f_equal.
  induction channels as [| n l IH]; [reflexivity |].
  cbn [map zip zip_with]. rewrite IH.
  unfold resolution_index_write, create_analog_channel. cbn [fst snd].
  now rewrite string_app_assoc.
Qed.

Lemma resolution_index_is_channel_number_witness :
  ljm_log
    (snd (set_resolution_index_registers (mock_device dtT7 no_read_error) 1
            (map create_analog_channel [0; 2]) [0; 2] initial_state)) =
  [EWriteName 1 "AIN0_RESOLUTION_INDEX" (VInt 0);
   EWriteName 1 "AIN2_RESOLUTION_INDEX" (VInt 2)].
Proof.
  rewrite (resolution_index_is_channel_number
             (mock_device dtT7 no_read_error) 1 [0; 2] initial_state
             (fun _ => eq_refl)).
  reflexivity.
Defined.

(** ** C6 and C10: the extended-function registers *)

Lemma length_plan_names pairs : length (plan_names pairs) = (5 * length pairs)%nat.
Proof.
  unfold plan_names. induction pairs as [| p l IH]; [reflexivity |].
  cbn [map concat]. rewrite length_app, IH. cbn [ef_names length]. lia.
Qed.

Lemma length_plan_values i tu sl off pairs :
  length (plan_values i tu sl off pairs) = (5 * length pairs)%nat.
Proof.
  unfold plan_values. induction pairs as [| p l IH]; [reflexivity |].
  cbn [map concat]. rewrite length_app, IH. cbn [ef_values length]. lia.
Qed.

Lemma plan_names_app l1 l2 :
  plan_names (l1 ++ l2) = plan_names l1 ++ plan_names l2.
Proof. unfold plan_names. now rewrite map_app, concat_app. Qed.

Lemma plan_values_app i tu sl off l1 l2 :
  plan_values i tu sl off (l1 ++ l2) =
  plan_values i tu sl off l1 ++ plan_values i tu sl off l2.
Proof. unfold plan_values. now rewrite map_app, concat_app. Qed.

(** The block of the pair at position [j0] sits at offset [5 * j0]. *)
Lemma plan_block (pairs : list (string * Z)) (j0 : nat) (p : string * Z)
    i tu sl off :
  pairs !! j0 = Some p ->
  take 5 (drop (5 * j0) (plan_names pairs)) = ef_names p.1 /\
  take 5 (drop (5 * j0) (plan_values i tu sl off pairs)) =
    ef_values i tu sl off p.2.
Proof.
  intros Hp. pose proof (lookup_lt_Some _ _ _ Hp) as Hlt.
  rewrite <- (take_drop_middle pairs j0 p Hp).
  rewrite plan_names_app, plan_values_app.
  assert (Hn : length (plan_names (take j0 pairs)) = (5 * j0)%nat)
    by (rewrite length_plan_names, length_take; lia).
  assert (Hv : length (plan_values i tu sl off (take j0 pairs)) = (5 * j0)%nat)
    by (rewrite length_plan_values, length_take; lia).
  split.
  - rewrite <- Hn at 1. rewrite drop_app_length. reflexivity.
  - rewrite <- Hv at 1. rewrite drop_app_length. reflexivity.
Qed.

Lemma count_from (j : nat) n :
  forall a,
  length (filter (fun i => (j <= i)%nat) (seq a n)) = (a + n - Nat.max a j)%nat.
Proof.
  induction n as [| n IH]; intros a.
  - cbn. lia.
  - cbn [seq]. rewrite filter_cons. destruct (decide (j <= a)%nat).
    + cbn [length]. rewrite IH. lia.
    + rewrite IH. lia.
Qed.

(** C6.  For channels 0 and 2, type K and unit C on a T8 the plan of the
    claim is never built.  [configure_ain_ef_registers], with what the
    routine computes for these arguments (the names AIN0 and AIN2, the
    type index 22, the unit index 1, the addresses 600 and 604, slope 1.0
    and offset 0.0), writes the five entries of AIN0 and then the ten
    entries that the claim lists, all of them registers of AIN0 or AIN2.
    But the routine does not get there: on a T8 it raises
    [UnboundLocalError] at the first channel, the device having been
    opened and asked its type and nothing else. *)
Theorem ef_plan_not_built_on_T8 (W : mock) (num_iterations : Z) (seconds : Q)
    (flag : bool) (save_to : option path) (s : state) :
  openS_error W = NOERROR ->
  getHandleInfo_error W = NOERROR ->
  deviceType (getHandleInfo_result W) = dtT8 ->
  (forall i, write_error W i = NOERROR) ->
  let channels := [0; 2] in
  let handle := openS_handle W in
  let names :=
    ["AIN0_EF_INDEX"; "AIN0_EF_CONFIG_A"; "AIN0_EF_CONFIG_B";
     "AIN0_EF_CONFIG_D"; "AIN0_EF_CONFIG_E";
     "AIN2_EF_INDEX"; "AIN2_EF_CONFIG_A"; "AIN2_EF_CONFIG_B";
     "AIN2_EF_CONFIG_D"; "AIN2_EF_CONFIG_E"] in
  let values :=
    [VInt 22; VInt 1; VInt 600; VFloat (1#1); VFloat (0#1);
     VInt 22; VInt 1; VInt 604; VFloat (1#1); VFloat (0#1)] in
  set_tc_index "K" s = (Ok 22, s) /\
  get_temp_unit_index "C" s = (Ok 1, s) /\
  set_cjc_slope_offset "K" s = (Ok (Some (1#1, 0#1)%Q), s) /\
  map (get_cjc_address dtT8) channels = [600; 604] /\
  configure_ain_ef_registers W handle (map create_analog_channel channels)
    22 1 (map (get_cjc_address dtT8) channels) (1#1) (0#1) s =
  (Ok tt,
   wrote [EWriteNames handle 5 (take 5 names) (take 5 values);
          EWriteNames handle 10 names values] s) /\
  length names = 10%nat /\ length values = 10%nat /\
  forallb (fun name => String.prefix "AIN0_" name || String.prefix "AIN2_" name)
    names = true /\
  read_and_log_thermocouple W channels "K" "C" num_iterations seconds flag
    save_to s =
  (Raise (UnboundLocalError "neg_channel_value"), opened W s) /\
  ljm_log (opened W s) =
    ljm_log s ++ [OpenS "ANY" "ANY" "ANY"; GetHandleInfo handle].
Proof.
  intros Ho Hi Hd Hw channels handle names values.
  split; [reflexivity |]. split; [reflexivity |]. split; [reflexivity |].
  split; [reflexivity |].
  split; [rewrite (configure_ain_ef_registers_ok W Hw); reflexivity |].
  split; [reflexivity |]. split; [reflexivity |]. split; [reflexivity |].
  split.
  - unfold read_and_log_thermocouple. apply bind_raise.
    apply (configuring_other W Ho Hi "K" "C" 1 eq_refl eq_refl);
      rewrite Hd; discriminate.
  - unfold opened. cbn [ljm_log log_print log_call].
    now rewrite <- app_assoc.
Qed.

Lemma ef_plan_not_built_on_T8_witness :
  read_and_log_thermocouple (mock_device dtT8 no_read_error) [0; 2] "K" "C" 5
    (1#1) true None initial_state =
  (Raise (UnboundLocalError "neg_channel_value"),
   opened (mock_device dtT8 no_read_error) initial_state) /\
  ljm_log (opened (mock_device dtT8 no_read_error) initial_state) =
    [OpenS "ANY" "ANY" "ANY"; GetHandleInfo 1].
Proof.
  exact (proj2 (proj2 (proj2 (proj2 (proj2 (proj2 (proj2 (proj2
           (ef_plan_not_built_on_T8 (mock_device dtT8 no_read_error) 5 (1#1)
              true None initial_state eq_refl eq_refl eq_refl
              (fun _ => eq_refl)))))))))).
Defined.

(** C10.  [configure_ain_ef_registers] writes one batch per channel, from
    inside its loop, and each batch holds everything accumulated so far.
    With [m] channels, batch [i] (from 1) writes the [5 * i] entries of the
    first [i] channels; the five entries of channel [j] are in batch [i],
    at offset [5 * (j - 1)] and with the same values, exactly when
    [j <= i]: they are written [m - j + 1] times, not once. *)
Theorem ef_batches_rewrite_earlier_channels (W : mock) (handle : Z)
    (channel_names : list string) (tc_index tu : Z) (cjc_addresses : list Z)
    (slope offset : Q) (s : state) :
  (forall i, write_error W i = NOERROR) ->
  let pairs := zip channel_names cjc_addresses in
  let m := length pairs in
  let batch_names i := plan_names (take i pairs) in
  let batch_values i := plan_values tc_index tu slope offset (take i pairs) in
  configure_ain_ef_registers W handle channel_names tc_index tu cjc_addresses
    slope offset s =
  (Ok tt,
   wrote (map (fun i => EWriteNames handle (5 * i) (batch_names i)
                          (batch_values i)) (seq 1 m)) s) /\
  (forall i, (1 <= i <= m)%nat ->
     length (batch_names i) = (5 * i)%nat /\
     length (batch_values i) = (5 * i)%nat) /\
  (forall j p, (1 <= j)%nat -> pairs !! (j - 1)%nat = Some p ->
     (forall i, (j <= i)%nat ->
        take 5 (drop (5 * (j - 1)) (batch_names i)) = ef_names p.1 /\
        take 5 (drop (5 * (j - 1)) (batch_values i)) =
          ef_values tc_index tu slope offset p.2) /\
     (forall i, (i < j)%nat -> (length (batch_names i) <= 5 * (j - 1))%nat) /\
     length (filter (fun i => (j <= i)%nat) (seq 1 m)) = (m - j + 1)%nat).
Proof.
  intros Hw pairs m batch_names batch_values. split; [| split].
  - rewrite (configure_ain_ef_registers_ok W Hw). reflexivity.
  - intros i Hi. unfold batch_names, batch_values.
    rewrite length_plan_names, length_plan_values, length_take.
    fold m. lia.
  - intros j p Hj Hp. pose proof (lookup_lt_Some _ _ _ Hp) as Hlt. fold m in Hlt.
    split; [| split].
    + intros i Hi. apply plan_block.
      rewrite lookup_take_lt by lia. exact Hp.
    + intros i Hi. unfold batch_names.
      rewrite length_plan_names, length_take. lia.
    + rewrite count_from. lia.
Qed.

Lemma ef_batches_rewrite_earlier_channels_witness :
  ljm_log
    (snd (configure_ain_ef_registers (mock_device dtT7 no_read_error) 1
            ["AIN0"; "AIN2"] 22 1 [60052; 60052] (1#1) (0#1) initial_state)) =
  [EWriteNames 1 5 (ef_names "AIN0") (ef_values 22 1 (1#1) (0#1) 60052);
   EWriteNames 1 10 (ef_names "AIN0" ++ ef_names "AIN2")
     (ef_values 22 1 (1#1) (0#1) 60052 ++ ef_values 22 1 (1#1) (0#1) 60052)].
Proof.
  rewrite (proj1 (ef_batches_rewrite_earlier_channels
                    (mock_device dtT7 no_read_error) 1 ["AIN0"; "AIN2"] 22 1
                    [60052; 60052] (1#1) (0#1) initial_state
                    (fun _ => eq_refl))).
  reflexivity.
Defined.

(** ** C4: where the handles are released *)

(** C4 as stated fails.  The routine has no [try]/[finally]:
    [cleanInterval] and [close] are its last statements.  On a T7 with type "J" the unpacking of the slope
    and offset raises after the device was opened, and the routine is left
    with the handle open: no release call was issued. *)
Lemma release_skipped_on_configuration_error :
  exists s',
    read_and_log_thermocouple (mock_device dtT7 no_read_error) [0; 2] "J" "C"
      5 (1#1) true None initial_state =
    (Raise (TypeError "cannot unpack non-iterable NoneType object"), s') /\
    ljm_log s' = [OpenS "ANY" "ANY" "ANY"; GetHandleInfo 1] /\
    ~ In (Close 1) (ljm_log s') /\
    ~ In (CleanInterval interval_handle) (ljm_log s').
Proof.
  eexists. split; [vm_compute; reflexivity |].
  split; [reflexivity |].
  split; intros [H | [H | []]]; discriminate H.
Qed.

(** C4, amended.  On a T7 configured for type K, whatever the reads and
    waits of the loop do (all succeed, or one fails and the loop is
    broken), the routine returns, and its last two LJM calls are
    [cleanInterval] and [close], the only release calls it issues.  When
    the configuration raises, the routine raises the same exception in the
    same state, and no release call has been issued. *)
Theorem released_at_end_not_on_configuration_error (W : mock)
    (channels : list Z) (tc_type temp_unit : string) (u : Z)
    (num_iterations : Z) (seconds : Q) (flag : bool) (save_to : option path) :
  (openS_error W = NOERROR ->
   getHandleInfo_error W = NOERROR ->
   deviceType (getHandleInfo_result W) = dtT7 ->
   (forall i, write_error W i = NOERROR) ->
   startInterval_error W = NOERROR ->
   lower tc_type = "k" ->
   temp_unit_index !! lower temp_unit = Some u ->
   (forall p, mkdir_ok W p = true) ->
   (forall p, to_csv_ok W p = true) ->
   cleanInterval_error W = NOERROR ->
   close_error W = NOERROR ->
   exists how_left s' before,
     read_and_log_thermocouple W channels tc_type temp_unit num_iterations
       seconds flag save_to initial_state = (Ok how_left, s') /\
     ljm_log s' =
       before ++ [CleanInterval interval_handle; Close (openS_handle W)] /\
     Forall (fun c => not_release c = true) before) /\
  (forall e s1,
     configuring W channels tc_type temp_unit seconds initial_state =
       (Raise e, s1) ->
     read_and_log_thermocouple W channels tc_type temp_unit num_iterations
       seconds flag save_to initial_state = (Raise e, s1) /\
     Forall (fun c => not_release c = true) (ljm_log s1)).
Proof.
  split.
  - intros Ho Hi H7 Hw Hs Hk Hu Hmk Hcsv Hclean Hclose.
    rewrite (read_and_log_thermocouple_T7 W Ho Hi H7 Hw Hs channels tc_type
               temp_unit u num_iterations seconds flag save_to Hk Hu).
    pose proof (configuring_never_releases W channels tc_type temp_unit
                  seconds initial_state _ _
                  (configuring_T7 W Ho Hi H7 Hw Hs tc_type temp_unit u Hk Hu
                     channels seconds initial_state)) as (c1 & E1 & F1).
    set (s0 := started W channels u num_iterations seconds initial_state).
    destruct (sampling_loop_returns W (openS_handle W) (abcs_of channels)
                (now W (n_now initial_state)) flag (Z.to_nat num_iterations)
                s0 (rows_ok_started W channels u num_iterations seconds
                      initial_state))
      as (how_left & s2 & E2 & Hrows & _).
    pose proof (sampling_loop_never_releases W _ _ _ _ _ _ _ _ E2)
      as (c2 & E3 & F2).
    erewrite bind_ok by exact E2.
    rewrite (finishing_ok W channels temp_unit save_to Hmk Hcsv Hclean Hclose)
      by exact Hrows.
    eexists _, _, _. split; [reflexivity |].
    split; [apply ljm_log_finished |].
    rewrite E3. change (ljm_log s0)
      with (ljm_log (configured W u channels seconds initial_state)).
    rewrite E1. apply Forall_app. split; [| exact F2].
    apply Forall_app. split; [constructor | exact F1].
  - intros e s1 E. split.
    + unfold read_and_log_thermocouple. apply bind_raise. exact E.
    + destruct (configuring_never_releases W channels tc_type temp_unit
                  seconds initial_state _ _ E) as (c1 & E1 & F1).
      rewrite E1. exact F1.
Qed.

Lemma released_at_end_not_on_configuration_error_witness :
  exists how_left s' before,
    read_and_log_thermocouple (mock_device dtT7 third_read_fails) [0; 2] "k"
      "C" 5 (1#1) true None initial_state = (Ok how_left, s') /\
    ljm_log s' = before ++ [CleanInterval interval_handle; Close 1] /\
    Forall (fun c => not_release c = true) before.
Proof.
  apply (proj1 (released_at_end_not_on_configuration_error
                  (mock_device dtT7 third_read_fails) [0; 2] "k" "C" 1 5
                  (1#1) true None));
    first [reflexivity | intros; reflexivity].
Defined.

(** ** Instances on the test doubles *)


Lemma read_failure_aborts_keeping_records_witness :
  exists s',
    read_and_log_thermocouple (mock_device dtT7 third_read_fails) [0; 2] "k"
      "C" 5 (1#1) true None initial_state = (Ok Break, s') /\
    length (data s') = 2%nat.
Proof.
  destruct (read_failure_aborts_keeping_records
              (mock_device dtT7 third_read_fails) eq_refl eq_refl eq_refl
              (fun _ => eq_refl) eq_refl [0; 2] "k" "C" 1 5 (1#1) true None
              eq_refl eq_refl (fun _ => eq_refl) (fun _ => eq_refl) eq_refl
              eq_refl 3%nat)
    as (s' & _ & E & _ & Hlen & _).
  - cbn. lia.
  - intros [| [| i]] Hi; [reflexivity | reflexivity | cbn in Hi; lia].
  - intros i _. reflexivity.
  - discriminate.
  - exists s'. split; [exact E | exact Hlen].
Defined.



(** * Further properties of the scripts *)

(** ** Thermocouple types and units *)

Lemma lower_ascii_idempotent a : lower_ascii (lower_ascii a) = lower_ascii a.
Proof. destruct a as [[] [] [] [] [] [] [] []]; reflexivity. Qed.

Lemma lower_idempotent s : lower (lower s) = lower s.
Proof.
  induction s as [| a s IH]; [reflexivity |].
  cbn [lower]. now rewrite lower_ascii_idempotent, IH.
Qed.

Lemma set_tc_index_lower tc_type : set_tc_index (lower tc_type) = set_tc_index tc_type.
Proof. unfold set_tc_index. cbv zeta. now rewrite lower_idempotent. Qed.

Lemma set_cjc_slope_offset_lower tc_type :
  set_cjc_slope_offset (lower tc_type) = set_cjc_slope_offset tc_type.
Proof. unfold set_cjc_slope_offset. now rewrite lower_idempotent. Qed.

(** X1.  The thermocouple type is only ever used in lower case: calling
    [read_and_log_thermocouple] with a type or with its lower-case form
    gives the same result and the same effects, whatever the device does. *)
Theorem tc_type_case_insensitive (W : mock) (channels : list Z)
    (tc_type temp_unit : string) (num_iterations : Z) (seconds : Q)
    (flag : bool) (save_to : option path) (s : state) :
  read_and_log_thermocouple W channels (lower tc_type) temp_unit
    num_iterations seconds flag save_to s =
  read_and_log_thermocouple W channels tc_type temp_unit num_iterations
    seconds flag save_to s.
Proof.
  unfold read_and_log_thermocouple, configuring.
  now rewrite set_tc_index_lower, set_cjc_slope_offset_lower.
Qed.

Definition ef_index_table : list (string * Z) :=
  [("e", 20); ("j", 21); ("k", 22); ("r", 23); ("t", 24); ("s", 25);
   ("n", 27); ("b", 28); ("c", 30)].

Lemma ef_indices_lookup k i :
  ef_indices !! k = Some i <-> (k, i) ∈ ef_index_table.
Proof.
  unfold ef_indices. fold ef_index_table.
  symmetry. apply elem_of_list_to_map. compute_done.
Qed.

Lemma set_tc_index_inv tc_type s r s' :
  set_tc_index tc_type s = (r, s') ->
  s' = s /\
  match r with
  | Ok i => ef_indices !! lower tc_type = Some i
  | Raise e => e = KeyError (lower tc_type) /\ ef_indices !! lower tc_type = None
  end.
Proof.
  unfold set_tc_index, getitem. cbv zeta.
  destruct (ef_indices !! lower tc_type) as [i |]; intros [= <- <-]; auto.
Qed.

(** X2.  [set_tc_index] tells the thermocouple types apart: when it returns
    the same index for two type strings, the two are the same type up to
    case; and the index it returns is between 20 and 30 and is neither 26
    nor 29. *)
Theorem set_tc_index_identifies_type (t1 t2 : string) (i : Z)
    (s1 s1' s2 s2' : state) :
  set_tc_index t1 s1 = (Ok i, s1') ->
  set_tc_index t2 s2 = (Ok i, s2') ->
  lower t1 = lower t2 /\ 20 <= i <= 30 /\ i <> 26 /\ i <> 29.
Proof.
  intros H1 H2.
  apply set_tc_index_inv in H1 as (_ & H1).
  apply set_tc_index_inv in H2 as (_ & H2).
  apply ef_indices_lookup in H1. apply ef_indices_lookup in H2.
  unfold ef_index_table in *.
  repeat (apply elem_of_cons in H1 as [H1 | H1]);
    try (apply elem_of_nil in H1; contradiction);
    injection H1 as E1 ->; rewrite E1;
    repeat (apply elem_of_cons in H2 as [H2 | H2]);
    try (apply elem_of_nil in H2; contradiction);
    try discriminate H2;
    injection H2 as ->; repeat split; try reflexivity; lia.
Qed.

Lemma set_tc_index_identifies_type_witness :
  lower "K" = lower "k" /\ 20 <= 22 <= 30 /\ 22 <> 26 /\ 22 <> 29.
Proof.
  apply (set_tc_index_identifies_type "K" "k" 22 initial_state initial_state
           initial_state initial_state); reflexivity.
Defined.

(** X3.  A thermocouple type of ASCII characters that is not in the table
    makes the routine raise [KeyError] with the lower-cased type as soon as
    the device has been opened and asked its type: whatever the device, the
    channels and the unit, nothing is written and the handle is not
    closed. *)
Theorem unknown_tc_type_KeyError (W : mock) (channels : list Z)
    (tc_type temp_unit : string) (num_iterations : Z) (seconds : Q)
    (flag : bool) (save_to : option path) (s : state) :
  openS_error W = NOERROR ->
  getHandleInfo_error W = NOERROR ->
  isascii tc_type = true ->
  ef_indices !! lower tc_type = None ->
  read_and_log_thermocouple W channels tc_type temp_unit num_iterations
    seconds flag save_to s =
  (Raise (KeyError (lower tc_type)), opened W s).
Proof.
  intros Ho Hi _ Hk. unfold read_and_log_thermocouple. apply bind_raise.
  unfold configuring.
  step by now apply get_labjack_handle_ok.
  apply bind_raise. unfold set_tc_index, getitem. cbv zeta. now rewrite Hk.
Qed.

Lemma unknown_tc_type_KeyError_witness :
  read_and_log_thermocouple (mock_device dtT7 no_read_error) [0; 2] "Q" "C" 5
    (1#1) true None initial_state =
  (Raise (KeyError "q"),
   opened (mock_device dtT7 no_read_error) initial_state).
Proof.
  apply (unknown_tc_type_KeyError (mock_device dtT7 no_read_error) [0; 2] "Q"
           "C" 5 (1#1) true None initial_state); reflexivity.
Defined.

(** X4.  With type K, a temperature unit of ASCII characters other than K,
    C or F (in either case) makes the routine raise [KeyError] with the
    lower-cased unit, again before anything is written and without closing
    the handle. *)
Theorem unknown_temp_unit_KeyError (W : mock) (channels : list Z)
    (tc_type temp_unit : string) (num_iterations : Z) (seconds : Q)
    (flag : bool) (save_to : option path) (s : state) :
  openS_error W = NOERROR ->
  getHandleInfo_error W = NOERROR ->
  lower tc_type = "k" ->
  isascii temp_unit = true ->
  temp_unit_index !! lower temp_unit = None ->
  read_and_log_thermocouple W channels tc_type temp_unit num_iterations
    seconds flag save_to s =
  (Raise (KeyError (lower temp_unit)), opened W s).
Proof.
  intros Ho Hi Hk _ Hu. unfold read_and_log_thermocouple. apply bind_raise.
  unfold configuring.
  step by now apply get_labjack_handle_ok.
  step by (apply set_tc_index_ok; rewrite Hk; reflexivity).
  step by now apply set_cjc_slope_offset_K.
  step by reflexivity.
  apply bind_raise. unfold get_temp_unit_index, getitem. cbv zeta.
  now rewrite Hu.
Qed.

Lemma unknown_temp_unit_KeyError_witness :
  read_and_log_thermocouple (mock_device dtT7 no_read_error) [0; 2] "k" "R" 5
    (1#1) true None initial_state =
  (Raise (KeyError "r"),
   opened (mock_device dtT7 no_read_error) initial_state).
Proof.
  apply (unknown_temp_unit_KeyError (mock_device dtT7 no_read_error) [0; 2]
           "k" "R" 5 (1#1) true None initial_state); reflexivity.
Defined.

(** ** Names of channels, registers and columns *)

Lemma create_analog_channel_inj c1 c2 :
  create_analog_channel c1 = create_analog_channel c2 -> c1 = c2.
Proof.
  unfold create_analog_channel. intros H.
  apply String.app_inj in H. now apply pretty_Z_inj in H.
Qed.

Lemma string_length_app (s1 s2 : string) :
  String.length (s1 +:+ s2) = (String.length s1 + String.length s2)%nat.
Proof.
  induction s1 as [| a s1 IH]; [reflexivity |].
  change (S (String.length (s1 +:+ s2)) =
          S (String.length s1 + String.length s2)).
  now rewrite IH.
Qed.

(** Two strings that end in suffixes of one length are equal only if both
    parts are. *)
Lemma string_app_inj_suffix (s1 s2 t1 t2 : string) :
  String.length t1 = String.length t2 ->
  s1 +:+ t1 = s2 +:+ t2 -> s1 = s2 /\ t1 = t2.
Proof.
  intros Hlen. revert s2. induction s1 as [| a s1 IH]; intros [| b s2] H.
  - now split.
  - exfalso. change (t1 = String b (s2 +:+ t2)) in H.
    apply (f_equal String.length) in H. cbn [String.length] in H.
    rewrite string_length_app in H. lia.
  - exfalso. change (String a (s1 +:+ t1) = t2) in H.
    apply (f_equal String.length) in H. cbn [String.length] in H.
    rewrite string_length_app in H. lia.
  - change (String a (s1 +:+ t1) = String b (s2 +:+ t2)) in H.
    injection H as -> H. destruct (IH _ H) as [-> ->]. now split.
Qed.

Definition read_suffixes : list string :=
  ["_EF_READ_A"; "_EF_READ_B"; "_EF_READ_C"].

Definition label_prefixes : list string :=
  ["T_thermocouple"; "V_thermocouple"; "T_cold_junction"].

Lemma elem_of_abcs_of x channels :
  x ∈ abcs_of channels ->
  exists c sfx,
    c ∈ channels /\ sfx ∈ read_suffixes /\ x = create_analog_channel c +:+ sfx.
Proof.
  unfold abcs_of. induction channels as [| c l IH]; cbn [map concat].
  - intros H. now apply elem_of_nil in H.
  - intros H. apply elem_of_app in H as [H | H].
    + exists c. cbn [get_read_ABC fst] in H.
      repeat (apply elem_of_cons in H as [-> | H]);
        [eexists; split; [left | split; [| reflexivity]]; compute_done ..
        | now apply elem_of_nil in H].
    + destruct (IH H) as (c' & sfx & Hc & Hs & ->).
      exists c', sfx. split; [now right | now split].
Qed.

Lemma read_register_inj c1 c2 sfx1 sfx2 :
  sfx1 ∈ read_suffixes -> sfx2 ∈ read_suffixes ->
  create_analog_channel c1 +:+ sfx1 = create_analog_channel c2 +:+ sfx2 ->
  c1 = c2 /\ sfx1 = sfx2.
Proof.
  intros H1 H2 E.
  assert (Hlen : String.length sfx1 = String.length sfx2).
  { unfold read_suffixes in *.
    repeat (apply elem_of_cons in H1 as [-> | H1]);
      try (now apply elem_of_nil in H1);
      repeat (apply elem_of_cons in H2 as [-> | H2]);
      try (now apply elem_of_nil in H2); reflexivity. }
  destruct (string_app_inj_suffix _ _ _ _ Hlen E) as [Hc Hs].
  split; [now apply create_analog_channel_inj | exact Hs].
Qed.

(** X5.  For pairwise distinct channels, the registers read at every tick
    are pairwise distinct, three per channel: no register is read twice in
    a batch. *)
Theorem read_registers_distinct (channels : list Z) :
  NoDup channels ->
  NoDup (abcs_of channels) /\
  length (abcs_of channels) = (3 * length channels)%nat.
Proof.
  intros Hnd. split; [| apply length_abcs_of].
  induction Hnd as [| c l Hc Hl IH]; [constructor |].
  change (abcs_of (c :: l))
    with (fst (get_read_ABC (create_analog_channel c)) ++ abcs_of l).
  apply NoDup_app. split; [| split; [| exact IH]].
  - cbn [get_read_ABC fst].
    repeat (apply NoDup_cons; split;
            [intros H; repeat (apply elem_of_cons in H as [H | H]);
             [apply String.app_inj in H; discriminate H ..
             | now apply elem_of_nil in H] |]).
    constructor.
  - intros x Hx Hx'.
    destruct (elem_of_abcs_of x l Hx') as (c' & sfx' & Hc' & Hs' & E).
    assert (exists sfx, sfx ∈ read_suffixes /\
                        x = create_analog_channel c +:+ sfx) as (sfx & Hs & E').
    { cbn [get_read_ABC fst] in Hx.
      repeat (apply elem_of_cons in Hx as [-> | Hx]);
        [eexists; split; [| reflexivity]; compute_done ..
        | now apply elem_of_nil in Hx]. }
    rewrite E' in E.
    destruct (read_register_inj _ _ _ _ Hs Hs' E) as [-> _]. contradiction.
Qed.

Lemma read_registers_distinct_witness :
  NoDup (abcs_of [0; 2]) /\ length (abcs_of [0; 2]) = 6%nat.
Proof. apply (read_registers_distinct [0; 2]). compute_done. Defined.

Definition channel_labels (channels : list Z) : list string :=
  concat (map (fun cn => snd (get_read_ABC cn))
            (map create_analog_channel channels)).

Lemma elem_of_channel_labels x channels :
  x ∈ channel_labels channels ->
  exists c p,
    c ∈ channels /\ p ∈ label_prefixes /\
    x = p +:+ ("_" +:+ create_analog_channel c).
Proof.
  unfold channel_labels. induction channels as [| c l IH]; cbn [map concat].
  - intros H. now apply elem_of_nil in H.
  - intros H. apply elem_of_app in H as [H | H].
    + exists c. cbn [get_read_ABC snd map] in H.
      repeat (apply elem_of_cons in H as [-> | H]);
        [eexists; split; [left | split; [| reflexivity]]; compute_done ..
        | now apply elem_of_nil in H].
    + destruct (IH H) as (c' & p & Hc & Hp & ->).
      exists c', p. split; [now right | now split].
Qed.

Lemma label_inj p1 p2 n1 n2 :
  p1 ∈ label_prefixes -> p2 ∈ label_prefixes ->
  p1 +:+ ("_" +:+ n1) = p2 +:+ ("_" +:+ n2) -> p1 = p2 /\ n1 = n2.
Proof.
  intros H1 H2 E. unfold label_prefixes in *.
  repeat (apply elem_of_cons in H1 as [-> | H1]);
    try (now apply elem_of_nil in H1);
    repeat (apply elem_of_cons in H2 as [-> | H2]);
    try (now apply elem_of_nil in H2);
    try (apply String.app_inj in E; apply String.app_inj in E; now split);
    exfalso;
    first [ apply (f_equal (String.get 0)) in E; lazy in E; discriminate E
          | apply (f_equal (String.get 2)) in E; lazy in E; discriminate E ].
Qed.

Lemma label_not_literal p n x :
  p ∈ label_prefixes -> x ∈ ["time"; "dt"; "T unit"] ->
  p +:+ ("_" +:+ n) <> x.
Proof.
  intros Hp Hx E. unfold label_prefixes in *.
  repeat (apply elem_of_cons in Hp as [-> | Hp]);
    try (now apply elem_of_nil in Hp);
    repeat (apply elem_of_cons in Hx as [-> | Hx]);
    try (now apply elem_of_nil in Hx);
    first [ apply (f_equal (String.get 0)) in E; lazy in E; discriminate E
          | apply (f_equal (String.get 1)) in E; lazy in E; discriminate E ].
Qed.

Lemma NoDup_channel_labels channels :
  NoDup channels -> NoDup (channel_labels channels).
Proof.
  intros Hnd. induction Hnd as [| c l Hc Hl IH]; [constructor |].
  change (channel_labels (c :: l))
    with (snd (get_read_ABC (create_analog_channel c)) ++ channel_labels l).
  apply NoDup_app. split; [| split; [| exact IH]].
  - cbn [get_read_ABC snd map].
    repeat (apply NoDup_cons; split;
            [intros H; repeat (apply elem_of_cons in H as [H | H]);
             [apply label_inj in H as [H _]; [discriminate H | compute_done ..] ..
             | now apply elem_of_nil in H] |]).
    constructor.
  - intros x Hx Hx'.
    destruct (elem_of_channel_labels x l Hx') as (c' & p' & Hc' & Hp' & E).
    destruct (elem_of_channel_labels x [c]) as (c0 & p & Hc0 & Hp & E').
    { unfold channel_labels. cbn [map concat]. now rewrite app_nil_r. }
    apply list_elem_of_singleton in Hc0 as ->.
    rewrite E' in E. destruct (label_inj _ _ _ _ Hp Hp' E) as [_ En].
    apply create_analog_channel_inj in En as ->. contradiction.
Qed.

(** X6.  For pairwise distinct channels the frame has pairwise distinct
    column labels: three per channel, then [time] and [dt]; and [T unit],
    the column added after the loop, is never one of them. *)
Theorem column_labels_distinct (channels : list Z) :
  NoDup channels ->
  NoDup (labels_of channels ++ ["T unit"]) /\
  length (labels_of channels) = (3 * length channels + 2)%nat.
Proof.
  intros Hnd. split.
  - unfold labels_of. fold (channel_labels channels).
    rewrite <- !app_assoc. cbn [app].
    apply NoDup_app. split; [now apply NoDup_channel_labels |].
    split; [| compute_done].
    intros x Hx Hlit.
    destruct (elem_of_channel_labels x channels Hx) as (c & p & _ & Hp & ->).
    now apply (label_not_literal p (create_analog_channel c) _ Hp Hlit).
  - rewrite length_labels_of, length_abcs_of. reflexivity.
Qed.

Lemma column_labels_distinct_witness :
  NoDup (labels_of [0; 2] ++ ["T unit"]) /\ length (labels_of [0; 2]) = 8%nat.
Proof. apply (column_labels_distinct [0; 2]). compute_done. Defined.

(** ** More on the sampling loop *)

Section Sampling_more.

Variable W : mock.
Variables (handle : Z) (abcs : list string) (start_time : Z) (flag : bool).

Notation loop n := (sampling_loop W n handle abcs start_time flag).
Notation ticks_ n := (ticks W handle abcs start_time flag n).
Notation ticked_ := (ticked W handle abcs start_time flag).

Lemma try_tick_ok s :
  read_error W (n_reads s) = NOERROR ->
  wait_error W (n_waits s) = NOERROR ->
  try_except (tick W handle abcs start_time flag;; ret Next)
    (fun e => print (PExc e);; ret Break) s = (Ok Next, ticked_ s).
Proof.
  intros Hr Hw. apply try_except_ok.
  erewrite bind_ok by (apply tick_ok; assumption). reflexivity.
Qed.

Lemma try_tick_wait_fails s :
  read_error W (n_reads s) = NOERROR ->
  wait_error W (n_waits s) <> NOERROR ->
  try_except (tick W handle abcs start_time flag;; ret Next)
    (fun e => print (PExc e);; ret Break) s =
  (Ok Break,
   log_print (PExc (LJMError (wait_error W (n_waits s)))) (ticked_ s)).
Proof.
  intros Hr Hw.
  erewrite try_except_caught;
    [| apply bind_raise; apply tick_wait_fails; assumption | reflexivity].
  reflexivity.
Qed.

Lemma try_tick_read_fails s :
  read_error W (n_reads s) <> NOERROR ->
  try_except (tick W handle abcs start_time flag;; ret Next)
    (fun e => print (PExc e);; ret Break) s =
  (Ok Break,
   log_print (PExc (LJMError (read_error W (n_reads s))))
     (reading W handle abcs start_time s)).
Proof.
  intros Hr.
  erewrite try_except_caught;
    [| apply bind_raise; apply tick_read_fails; assumption | reflexivity].
  reflexivity.
Qed.

(** When the wait of tick [k] (counted from 0) is the first call to fail,
    the row of that tick has already been appended. *)
Lemma sampling_loop_wait_aborts n :
  forall k s,
  (k < n)%nat ->
  (forall i, (i <= k)%nat -> read_error W (n_reads s + i)%nat = NOERROR) ->
  (forall i, (i < k)%nat -> wait_error W (n_waits s + i)%nat = NOERROR) ->
  wait_error W (n_waits s + k)%nat <> NOERROR ->
  loop n s =
  (Ok Break,
   log_print (PExc (LJMError (wait_error W (n_waits s + k)%nat)))
     (ticks_ (S k) s)).
Proof.
  induction n as [| n IH]; intros k s Hk Hr Hw He; [lia |].
  cbn [sampling_loop].
  assert (Hr0 : read_error W (n_reads s) = NOERROR).
  { specialize (Hr 0%nat). rewrite Nat.add_0_r in Hr. apply Hr. lia. }
  destruct k as [| k].
  - rewrite Nat.add_0_r in *.
    step by (apply try_tick_wait_fails; assumption). reflexivity.
  - assert (Hw0 : wait_error W (n_waits s) = NOERROR).
    { specialize (Hw 0%nat). rewrite Nat.add_0_r in Hw. apply Hw. lia. }
    step by (apply try_tick_ok; assumption).
    destruct (ticked_fields W handle abcs start_time flag s) as (Er & Ew & _).
    replace (n_waits s + S k)%nat with (n_waits (ticked_ s) + k)%nat
      in * by (rewrite Ew; lia).
    rewrite (ticks_unfold W handle abcs start_time flag (S k) s).
    apply IH; [lia | | | exact He].
    + intros i Hi. rewrite Er.
      replace (S (n_reads s) + i)%nat with (n_reads s + S i)%nat by lia.
      apply Hr. lia.
    + intros i Hi. rewrite Ew.
      replace (S (n_waits s) + i)%nat with (n_waits s + S i)%nat by lia.
      apply Hw. lia.
Qed.

(** X7.  The sampling loop never raises.  Whatever the reads and waits do,
    it returns; it has appended at most [n] rows, exactly [n] when it was
    not broken, each of the width of a sample (one cell per register read,
    then the time and the elapsed seconds); and it has issued at most [n]
    reads. *)
Theorem sampling_loop_never_raises (n : nat) (s : state) :
  exists how_left s' rows,
    loop n s = (Ok how_left, s') /\
    data s' = data s ++ rows /\
    (length rows <= n)%nat /\
    (how_left = Next -> length rows = n) /\
    Forall (fun row => length row = (length abcs + 2)%nat) rows /\
    (n_reads s' <= n_reads s + n)%nat.
Proof.
  revert s. induction n as [| n IH]; intros s.
  - exists Next, s, []. rewrite app_nil_r. repeat split; auto. lia.
  - cbn [sampling_loop].
    destruct (ticked_fields W handle abcs start_time flag s)
      as (Er & _ & _ & _ & _ & Ed & _).
    destruct (Z.eq_dec (read_error W (n_reads s)) NOERROR) as [Hr | Hr].
    + destruct (Z.eq_dec (wait_error W (n_waits s)) NOERROR) as [Hw | Hw].
      * step by (apply try_tick_ok; assumption).
        destruct (IH (ticked_ s)) as (how & s' & rows & E & Hd & Hl & Hn & Hf & Hc).
        exists how, s', (sample_row W abcs start_time (n_reads s) (n_now s) :: rows).
        split; [exact E |]. rewrite Hd, Ed, <- app_assoc.
        split; [reflexivity |]. cbn [length].
        split; [lia |]. split; [intros Hh; now rewrite Hn |].
        split; [constructor; [apply length_sample_row | exact Hf] | lia].
      * step by (apply try_tick_wait_fails; assumption).
        exists Break, (log_print (PExc (LJMError (wait_error W (n_waits s))))
                         (ticked_ s)),
          [sample_row W abcs start_time (n_reads s) (n_now s)].
        split; [reflexivity |].
        split; [exact Ed |]. cbn [length].
        split; [lia |]. split; [discriminate |].
        split; [repeat constructor; apply length_sample_row |].
        change (n_reads (ticked_ s) <= n_reads s + S n)%nat. lia.
    + step by (apply try_tick_read_fails; assumption).
      exists Break, (log_print (PExc (LJMError (read_error W (n_reads s))))
                       (reading W handle abcs start_time s)), [].
      split; [reflexivity |]. rewrite app_nil_r.
      split; [reflexivity |]. cbn [length].
      split; [lia |]. split; [discriminate |].
      split; [constructor |].
      change (S (n_reads s) <= n_reads s + S n)%nat. lia.
Qed.

End Sampling_more.

(** ** More on a session on a T7 *)

Section Session_more.

Variable W : mock.
Hypothesis open_ok : openS_error W = NOERROR.
Hypothesis info_ok : getHandleInfo_error W = NOERROR.
Hypothesis is_T7 : deviceType (getHandleInfo_result W) = dtT7.
Hypothesis writes_ok : forall i, write_error W i = NOERROR.
Hypothesis start_ok : startInterval_error W = NOERROR.

Variables (channels : list Z) (tc_type temp_unit : string) (u : Z)
          (num_iterations : Z) (seconds : Q) (flag : bool)
          (save_to : option path).
Hypothesis type_K : lower tc_type = "k".
Hypothesis unit_known : temp_unit_index !! lower temp_unit = Some u.

Notation routine :=
  (read_and_log_thermocouple W channels tc_type temp_unit num_iterations
     seconds flag save_to).
Notation s0 := (started W channels u num_iterations seconds initial_state).
Notation h := (openS_handle W).
Notation the_loop :=
  (sampling_loop W (Z.to_nat num_iterations) h (abcs_of channels) (now W 0)
     flag).

(** The routine from the loop on. *)
Lemma routine_from_loop :
  routine initial_state =
  bind the_loop (finishing W channels temp_unit save_to (now W 0)) s0.
Proof.
  exact (read_and_log_thermocouple_T7 W open_ok info_ok is_T7 writes_ok
           start_ok channels tc_type temp_unit u num_iterations seconds flag
           save_to type_K unit_known initial_state).
Qed.

Lemma ljm_log_started :
  ljm_log s0 =
  [OpenS "ANY" "ANY" "ANY"; GetHandleInfo h] ++
  configuration_writes W u channels ++
  [StartInterval interval_handle (int_of_float (float_mul seconds (10 ^ 6 # 1)))].
Proof.
  unfold started, configured, opened.
  cbn [ljm_log count_now reset_lists log_print log_call wrote app].
  now rewrite <- !app_assoc.
Qed.

Section Saving_works.

Hypothesis mkdir_always : forall p, mkdir_ok W p = true.
Hypothesis to_csv_always : forall p, to_csv_ok W p = true.
Hypothesis clean_ok : cleanInterval_error W = NOERROR.
Hypothesis close_ok : close_error W = NOERROR.

Lemma routine_outcome how_left s2 :
  the_loop s0 = (Ok how_left, s2) ->
  rows_ok (abcs_of channels) s2 ->
  routine initial_state =
  (Ok how_left, finished W channels temp_unit save_to (now W 0) s2).
Proof.
  intros E Hrows. rewrite routine_from_loop.
  erewrite bind_ok by exact E.
  now apply finishing_ok.
Qed.

(** X8.  When the wait of tick [k] (counted from 1) is the first call to
    fail, the loop is broken after the row of that tick was appended: the
    frame holds [k] rows, one more than when the read of tick [k] fails,
    and the routine still runs to its end. *)
Theorem wait_failure_keeps_current_row (k : nat) :
  (1 <= k <= Z.to_nat num_iterations)%nat ->
  (forall i, (i < k)%nat -> read_error W i = NOERROR) ->
  (forall i, (i < k - 1)%nat -> wait_error W i = NOERROR) ->
  wait_error W (k - 1) <> NOERROR ->
  exists s' printed_before,
    routine initial_state = (Ok Break, s') /\
    data s' = records W channels k /\
    stdout s' =
      printed_before ++
      [PExc (LJMError (wait_error W (k - 1)));
       PFrame (mkDataFrame (labels_of channels) (records W channels k));
       PStr "Done!"] /\
    ljm_log s' =
      ljm_log s0 ++
      concat (replicate k
                [EReadNames h (length (abcs_of channels)) (abcs_of channels);
                 WaitForNextInterval interval_handle]) ++
      [CleanInterval interval_handle; Close h].
Proof.
  intros Hk Hr Hw He.
  assert (E : the_loop s0 =
              (Ok Break,
               log_print (PExc (LJMError (wait_error W (k - 1))))
                 (ticks W h (abcs_of channels) (now W 0) flag k s0))).
  { replace k with (S (k - 1)) at 2 by lia.
    apply (sampling_loop_wait_aborts W h (abcs_of channels) (now W 0) flag
             (Z.to_nat num_iterations) (k - 1) s0); [lia | | exact Hw | exact He].
    intros i Hi. apply (Hr i). lia. }
  set (s1 := ticks W h (abcs_of channels) (now W 0) flag k s0) in *.
  assert (Hdata : data s1 = records W channels k)
    by apply data_ticks_started.
  assert (Hrows : rows_ok (abcs_of channels) s1)
    by (apply rows_ok_ticks, rows_ok_started).
  rewrite (routine_outcome _ _ E Hrows).
  eexists _, _. split; [reflexivity |].
  match goal with
  | |- context [finished ?a ?b ?c ?d ?st ?s] =>
      destruct (finished_fields a b c d st s) as (-> & _ & -> & _);
      rewrite (ljm_log_finished a b c d st s)
  end.
  unfold frame_of. cbn [data stdout ljm_log log_print]. rewrite Hdata.
  split; [reflexivity |].
  split; [rewrite <- app_assoc; reflexivity |].
  unfold s1. rewrite ljm_log_ticks, <- app_assoc. reflexivity.
Qed.

(** X9.  With [num_iterations] zero or negative the loop body never runs:
    no read is issued, an empty frame with all its columns is printed, and
    the handles are released right after the configuration. *)
Theorem no_iterations_empty_frame :
  num_iterations <= 0 ->
  exists s' printed_before,
    routine initial_state = (Ok Next, s') /\
    data s' = [] /\
    n_reads s' = 0%nat /\
    stdout s' =
      printed_before ++
      [PFrame (mkDataFrame (labels_of channels) []); PStr "Done!"] /\
    ljm_log s' =
      ljm_log s0 ++ [CleanInterval interval_handle; Close h].
Proof.
  intros Hn.
  assert (E : the_loop s0 = (Ok Next, s0)).
  { rewrite (Z2Nat.nonpos _ Hn). reflexivity. }
  rewrite (routine_outcome _ _ E (rows_ok_started W channels u num_iterations
                                    seconds initial_state)).
  eexists _, _. split; [reflexivity |].
  match goal with
  | |- context [finished ?a ?b ?c ?d ?st ?s] =>
      destruct (finished_fields a b c d st s) as (-> & -> & -> & _);
      rewrite (ljm_log_finished a b c d st s)
  end.
  repeat split; reflexivity.
Qed.

End Saving_works.

Lemma started_never_released :
  Forall (fun c => not_release c = true) (ljm_log s0).
Proof.
  pose proof (configuring_never_releases W channels tc_type temp_unit
                seconds initial_state _ _
                (configuring_T7 W open_ok info_ok is_T7 writes_ok start_ok
                   tc_type temp_unit u type_K unit_known channels seconds
                   initial_state)) as (calls & E & F).
  change (ljm_log s0)
    with (ljm_log (configured W u channels seconds initial_state)).
  rewrite E. exact F.
Qed.

(** X10.  When the CSV file cannot be written, the routine raises out of
    [to_csv], after the frame was printed and whatever the loop did; the
    two release calls that follow in the source are not reached, so the
    handle and the timer stay open. *)
Theorem save_failure_skips_release (p : path) :
  save_to = Some p ->
  is_dir W p = false ->
  mkdir_ok W (Parent p) = true ->
  to_csv_ok W p = false ->
  exists s' df printed_before fs_before,
    routine initial_state = (Raise (OSError "to_csv"), s') /\
    Forall (fun c => not_release c = true) (ljm_log s') /\
    stdout s' = printed_before ++ [PFrame df] /\
    fs_log s' =
      fs_before ++
      [Mkdir (Parent p);
       ToCsv p false (setitem df "T unit" (VStr temp_unit))].
Proof.
  intros Hs Hdir Hmk Hcsv.
  destruct (sampling_loop_returns W h (abcs_of channels) (now W 0) flag
              (Z.to_nat num_iterations) s0
              (rows_ok_started W channels u num_iterations seconds
                 initial_state))
    as (how_left & s2 & E & Hrows & _).
  pose proof (sampling_loop_never_releases W _ _ _ _ _ _ _ _ E)
    as (calls & Elog & F).
  rewrite routine_from_loop. erewrite bind_ok by exact E.
  unfold finishing.
  step by reflexivity.
  step by (apply pd_DataFrame_ok; exact Hrows).
  step by apply modify_eq.
  eexists _, (frame_of channels s2), (stdout s2), (fs_log s2).
  split.
  - apply bind_raise. unfold save. rewrite Hs, Hdir.
    erewrite bind_ok by (unfold mkdir; run; rewrite Hmk; reflexivity).
    unfold to_csv. run. rewrite Hcsv. reflexivity.
  - cbn [ljm_log stdout fs_log log_fs log_print].
    split; [| split; [reflexivity | now rewrite <- app_assoc]].
    rewrite Elog. apply Forall_app. split; [apply started_never_released | exact F].
Qed.

End Session_more.

(** ** An empty list of channels *)

Section Empty_channels.

Variable W : mock.
Hypothesis open_ok : openS_error W = NOERROR.
Hypothesis info_ok : getHandleInfo_error W = NOERROR.
Hypothesis start_ok : startInterval_error W = NOERROR.

Variables (tc_type temp_unit : string) (u : Z) (num_iterations : Z)
          (seconds : Q) (flag : bool) (save_to : option path).
Hypothesis type_K : lower tc_type = "k".
Hypothesis unit_known : temp_unit_index !! lower temp_unit = Some u.

Lemma configuring_no_channels s :
  configuring W [] tc_type temp_unit seconds s =
  (Ok (openS_handle W, []), configured W u [] seconds s).
Proof.
  rewrite (configuring_K W open_ok info_ok tc_type temp_unit u type_K
             unit_known).
  cbn [map for_append].
  step by reflexivity.
  step by reflexivity.
  step by reflexivity.
  step by (apply set_time_interval_between_readings_ok; exact start_ok).
  unfold configured, configuration_writes. cbn [map zip zip_with length seq app].
  now rewrite wrote_nil.
Qed.

Lemma routine_no_channels s :
  read_and_log_thermocouple W [] tc_type temp_unit num_iterations seconds
    flag save_to s =
  bind (sampling_loop W (Z.to_nat num_iterations) (openS_handle W) []
          (now W (n_now s)) flag)
       (finishing W [] temp_unit save_to (now W (n_now s)))
       (started W [] u num_iterations seconds s).
Proof.
  unfold read_and_log_thermocouple.
  step by apply configuring_no_channels.
  cbv zeta.
  step by apply modify_eq.
  step by apply modify_eq.
  step by apply modify_eq.
  step by apply datetime_now_eq.
  reflexivity.
Qed.

Hypothesis mkdir_always : forall p, mkdir_ok W p = true.
Hypothesis to_csv_always : forall p, to_csv_ok W p = true.
Hypothesis clean_ok : cleanInterval_error W = NOERROR.
Hypothesis close_ok : close_error W = NOERROR.

(** X11.  With an empty list of channels the type of the device is never
    looked at: on any device, a T4 or a T8 included, the configuration
    writes nothing and only starts the timer; every tick then reads zero
    registers, and the frame has the two columns [time] and [dt]. *)
Theorem no_channels_any_device :
  let n := Z.to_nat num_iterations in
  (forall i, (i < n)%nat -> read_error W i = NOERROR) ->
  (forall i, (i < n)%nat -> wait_error W i = NOERROR) ->
  exists s',
    read_and_log_thermocouple W [] tc_type temp_unit num_iterations seconds
      flag save_to initial_state = (Ok Next, s') /\
    labels_of [] = ["time"; "dt"] /\
    data s' =
      map (fun i => [VStr (strftime W (now W (S i)) time_format);
                     VFloat (total_seconds (now W (S i) - now W 0))])
          (seq 0 n) /\
    ljm_log s' =
      [OpenS "ANY" "ANY" "ANY"; GetHandleInfo (openS_handle W);
       StartInterval interval_handle (int_of_float (float_mul seconds (10 ^ 6 # 1)))] ++
      concat (replicate n [EReadNames (openS_handle W) 0 [];
                           WaitForNextInterval interval_handle]) ++
      [CleanInterval interval_handle; Close (openS_handle W)].
Proof.
  intros n Hr Hw. rewrite routine_no_channels.
  set (s0 := started W [] u num_iterations seconds initial_state).
  erewrite bind_ok;
    [| apply sampling_loop_completes; [exact Hr | exact Hw]].
  fold n.
  set (s1 := ticks W (openS_handle W) [] (now W (n_now initial_state)) flag n s0).
  assert (Hrows : rows_ok (abcs_of []) s1)
    by (apply rows_ok_ticks;
        exact (rows_ok_started W [] u num_iterations seconds initial_state)).
  rewrite (finishing_ok W [] temp_unit save_to mkdir_always to_csv_always
             clean_ok close_ok) by exact Hrows.
  eexists. split; [reflexivity |]. split; [reflexivity |].
  match goal with
  | |- context [finished ?a ?b ?c ?d ?st ?s] =>
      destruct (finished_fields a b c d st s) as (-> & _);
      rewrite (ljm_log_finished a b c d st s)
  end.
  split.
  - unfold s1. rewrite data_ticks. reflexivity.
  - unfold s1. rewrite ljm_log_ticks, <- app_assoc. reflexivity.
Qed.

End Empty_channels.

(** ** A register write that fails during the configuration *)

Lemma for_each_app {A} (l1 l2 : list A) (body : A -> M unit) s :
  for_each (l1 ++ l2) body s = (for_each l1 body;; for_each l2 body) s.
Proof.
  revert s. induction l1 as [| x l1 IH]; intros s; [reflexivity |].
  cbn [app for_each]. unfold bind at 1 2 3.
  destruct (body x s) as [[[] | e] s1]; [apply IH | reflexivity].
Qed.

Lemma ef_batches_cons handle tc_index tu slope offset cn addr l aNames aValues :
  map (ef_batch handle tc_index tu slope offset ((cn, addr) :: l) aNames aValues)
    (seq 1 (S (length l))) =
  EWriteNames handle (length (aNames ++ ef_names cn))
    (aNames ++ ef_names cn)
    (aValues ++ ef_values tc_index tu slope offset addr)
  :: map (ef_batch handle tc_index tu slope offset l (aNames ++ ef_names cn)
            (aValues ++ ef_values tc_index tu slope offset addr))
       (seq 1 (length l)).
Proof.
  cbn [seq map]. rewrite <- (seq_shift (length l) 1), map_map. f_equal.
  - unfold ef_batch, plan_names, plan_values. cbn [take map concat fst snd].
    rewrite !app_nil_r, length_app. cbn [ef_names length]. f_equal; lia.
  - apply map_ext. intros i.
    unfold ef_batch, plan_names, plan_values. cbn [take map concat fst snd].
    rewrite length_app, <- !app_assoc. cbn [ef_names length]. f_equal; lia.
Qed.

Section Failing_write.

Variable W : mock.

(** What [eWriteName] and [eWriteNames] have in common: the call is logged
    and counted, then its error code is checked. *)
Definition issue (c : ljm_call) : M unit :=
  i ← gets n_writes;
  modify (log_call c);;
  modify count_write;;
  check_error (write_error W i).

Definition issue_all (calls : list ljm_call) : M unit := for_each calls issue.

(** [m] behaves as [m'] followed by returning [a]. *)
Definition runs_as {A} (m : M A) (m' : M unit) (a : A) : Prop :=
  forall s,
    m s = match m' s with
          | (Ok _, s') => (Ok a, s')
          | (Raise e, s') => (Raise e, s')
          end.

Lemma issue_ok c s :
  write_error W (n_writes s) = NOERROR ->
  issue c s = (Ok tt, count_write (log_call c s)).
Proof. intros H. unfold issue. run. fields. now rewrite H. Qed.

Lemma issue_raise c s :
  write_error W (n_writes s) <> NOERROR ->
  issue c s =
  (Raise (LJMError (write_error W (n_writes s))), count_write (log_call c s)).
Proof.
  intros H. unfold issue. run. fields. now rewrite check_error_raise by exact H.
Qed.

Lemma issue_all_ok calls :
  forall s,
  (forall i, (i < length calls)%nat ->
             write_error W (n_writes s + i)%nat = NOERROR) ->
  issue_all calls s = (Ok tt, wrote calls s).
Proof.
  unfold issue_all. induction calls as [| c l IH]; intros s H.
  - cbn [for_each]. now rewrite wrote_nil.
  - cbn [for_each].
    step by (apply issue_ok; specialize (H 0%nat); rewrite Nat.add_0_r in H;
             apply H; cbn [length]; lia).
    rewrite IH; [now rewrite wrote_cons |].
    intros i Hi. cbn [n_writes count_write log_call].
    replace (S (n_writes s) + i)%nat with (n_writes s + S i)%nat by lia.
    apply H. cbn [length]. lia.
Qed.

Lemma issue_all_fails calls :
  forall j s,
  (j < length calls)%nat ->
  (forall i, (i < j)%nat -> write_error W (n_writes s + i)%nat = NOERROR) ->
  write_error W (n_writes s + j)%nat <> NOERROR ->
  issue_all calls s =
  (Raise (LJMError (write_error W (n_writes s + j)%nat)),
   wrote (take (S j) calls) s).
Proof.
  unfold issue_all. induction calls as [| c l IH]; intros j s Hj H He.
  - cbn [length] in Hj. lia.
  - cbn [for_each]. destruct j as [| j].
    + rewrite Nat.add_0_r in *. apply bind_raise.
      rewrite issue_raise by exact He. cbn [take]. rewrite take_0.
      now rewrite <- (wrote_cons c [] s), wrote_nil.
    + step by (apply issue_ok; specialize (H 0%nat); rewrite Nat.add_0_r in H;
               apply H; lia).
      rewrite (IH j).
      * cbn [n_writes count_write log_call].
        replace (S (n_writes s) + j)%nat with (n_writes s + S j)%nat by lia.
        cbn [take]. now rewrite wrote_cons.
      * cbn [length] in Hj. lia.
      * intros i Hi. cbn [n_writes count_write log_call].
        replace (S (n_writes s) + i)%nat with (n_writes s + S i)%nat by lia.
        apply H. lia.
      * cbn [n_writes count_write log_call].
        replace (S (n_writes s) + j)%nat with (n_writes s + S j)%nat by lia.
        exact He.
Qed.

Lemma issue_all_app calls1 calls2 s :
  issue_all (calls1 ++ calls2) s =
  match issue_all calls1 s with
  | (Ok _, s') => issue_all calls2 s'
  | (Raise e, s') => (Raise e, s')
  end.
Proof.
  unfold issue_all. rewrite for_each_app. unfold bind.
  now destruct (for_each calls1 issue s) as [[[] | e] s'].
Qed.

Lemma runs_as_bind {A B} (m : M A) m' a (k : A -> M B) s :
  runs_as m m' a ->
  bind m k s = match m' s with
               | (Ok _, s') => k a s'
               | (Raise e, s') => (Raise e, s')
               end.
Proof. intros H. unfold bind. rewrite H. now destruct (m' s) as [[[] | e] s']. Qed.

Lemma get_channel_value_register_T7_issue handle cn :
  runs_as (get_channel_value_register W handle dtT7 cn)
    (issue (negative_ch_write handle cn)) (GND, cn +:+ "_NEGATIVE_CH").
Proof.
  intros s. unfold get_channel_value_register.
  change (dtT7 =? dtT7) with true. cbv iota.
  change (eWriteName W handle (cn +:+ "_NEGATIVE_CH") (VInt GND))
    with (issue (negative_ch_write handle cn)).
  unfold bind. now destruct (issue _ s) as [[[] | e] s'].
Qed.

Lemma negative_channels_issue handle channel_names :
  runs_as (for_append channel_names (get_channel_value_register W handle dtT7))
    (issue_all (map (negative_ch_write handle) channel_names))
    (map (fun cn => (GND, cn +:+ "_NEGATIVE_CH")) channel_names).
Proof.
  unfold issue_all. induction channel_names as [| cn l IH]; intros s;
    [reflexivity |].
  cbn [for_append map for_each].
  rewrite (runs_as_bind _ _ _ _ _ (get_channel_value_register_T7_issue handle cn)).
  unfold bind at 2. destruct (issue _ s) as [[[] | e] s1]; [| reflexivity].
  rewrite (runs_as_bind _ _ _ _ _ IH).
  now destruct (for_each _ _ s1) as [[[] | e] s2].
Qed.

Lemma set_resolution_index_registers_issue handle channel_names channels s :
  set_resolution_index_registers W handle channel_names channels s =
  issue_all (map (resolution_index_write handle) (zip channel_names channels)) s.
Proof.
  unfold set_resolution_index_registers, issue_all.
  generalize (zip channel_names channels) as pairs. intros pairs. revert s.
  induction pairs as [| [cn c] l IH]; intros s; [reflexivity |].
  cbn [for_each map].
  change (eWriteName W handle (cn +:+ "_RESOLUTION_INDEX") (VInt c))
    with (issue (resolution_index_write handle (cn, c))).
  unfold bind. destruct (issue _ s) as [[[] | e] s1]; [apply IH | reflexivity].
Qed.

Lemma configure_ain_ef_loop_issue handle tc_index tu slope offset pairs :
  forall aNames aValues,
  runs_as (configure_ain_ef_loop W handle tc_index tu slope offset pairs
             aNames aValues)
    (issue_all (map (ef_batch handle tc_index tu slope offset pairs aNames
                       aValues) (seq 1 (length pairs))))
    (aNames ++ plan_names pairs,
     aValues ++ plan_values tc_index tu slope offset pairs).
Proof.
  unfold issue_all.
  induction pairs as [| [cn addr] l IH]; intros aNames aValues s.
  - cbn. unfold plan_names, plan_values. cbn. now rewrite !app_nil_r.
  - cbn [length]. rewrite ef_batches_cons. cbn [configure_ain_ef_loop for_each].
    match goal with
    | |- bind (eWriteNames W ?h ?n ?ns ?vs) _ _ = _ =>
        change (eWriteNames W h n ns vs) with (issue (EWriteNames h n ns vs));
        replace ns with (aNames ++ ef_names cn)
          by (unfold ef_names; now rewrite <- !app_assoc);
        replace vs with (aValues ++ ef_values tc_index tu slope offset addr)
          by (unfold ef_values; now rewrite <- !app_assoc)
    end.
    unfold bind at 1 2. destruct (issue _ s) as [[[] | e] s1]; [| reflexivity].
    rewrite IH. unfold plan_names, plan_values. cbn [map concat fst snd].
    now rewrite <- !app_assoc.
Qed.

End Failing_write.

Section Failing_write_session.

Variable W : mock.
Hypothesis open_ok : openS_error W = NOERROR.
Hypothesis info_ok : getHandleInfo_error W = NOERROR.
Hypothesis is_T7 : deviceType (getHandleInfo_result W) = dtT7.

Variables (channels : list Z) (tc_type temp_unit : string) (u : Z)
          (num_iterations : Z) (seconds : Q) (flag : bool)
          (save_to : option path).
Hypothesis type_K : lower tc_type = "k".
Hypothesis unit_known : temp_unit_index !! lower temp_unit = Some u.

(** On a T7 the configuration is the issuing, in turn, of the calls of
    [configuration_writes], followed by the start of the timer. *)
Lemma configuring_T7_issue s :
  configuring W channels tc_type temp_unit seconds s =
  match issue_all W (configuration_writes W u channels) (opened W s) with
  | (Ok _, s') =>
      (set_time_interval_between_readings W interval_handle seconds;;
       ret (openS_handle W, map create_analog_channel channels)) s'
  | (Raise e, s') => (Raise e, s')
  end.
Proof.
  rewrite (configuring_K W open_ok info_ok tc_type temp_unit u type_K
             unit_known), is_T7.
  unfold configuration_writes. cbv zeta.
  rewrite issue_all_app.
  rewrite (runs_as_bind _ _ _ _ _
             (negative_channels_issue W (openS_handle W)
                (map create_analog_channel channels))).
  destruct (issue_all W _ (opened W s)) as [[[] | e] s1]; [| reflexivity].
  rewrite issue_all_app. unfold bind at 1.
  rewrite set_resolution_index_registers_issue.
  destruct (issue_all W _ s1) as [[[] | e] s2]; [| reflexivity].
  unfold configure_ain_ef_registers. cbv zeta. unfold bind at 1.
  rewrite (runs_as_bind _ _ _ _ _
             (configure_ain_ef_loop_issue W (openS_handle W) 22 u (1#1) (0#1)
                (zip (map create_analog_channel channels)
                   (map (get_cjc_address dtT7) channels)) [] [])).
  destruct (issue_all W _ s2) as [[[] | e] s3]; reflexivity.
Qed.

Lemma length_configuration_writes :
  length (configuration_writes W u channels) = (3 * length channels)%nat.
Proof.
  unfold configuration_writes. cbv zeta.
  rewrite !length_app, !length_map, length_seq, !length_zip_with, !length_map.
  lia.
Qed.

Lemma configuration_writes_are_writes :
  Forall (fun c => is_write c = true) (configuration_writes W u channels).
Proof.
  unfold configuration_writes. cbv zeta.
  repeat (apply Forall_app; split); apply Forall_forall; intros c Hc;
    apply list_elem_of_fmap in Hc as (x & -> & _); reflexivity.
Qed.

(** X12.  On a T7, when write number [j] (counted from 0) of the
    configuration is the first to fail, the routine raises its [LJMError]
    at once: the calls issued after the opening are exactly the first
    [j + 1] writes of the configuration, the failing one last; the timer is
    not started, nothing is read and nothing is released. *)
Theorem failing_write_aborts_configuration (j : nat) :
  (j < 3 * length channels)%nat ->
  (forall i, (i < j)%nat -> write_error W i = NOERROR) ->
  write_error W j <> NOERROR ->
  exists s',
    read_and_log_thermocouple W channels tc_type temp_unit num_iterations
      seconds flag save_to initial_state =
    (Raise (LJMError (write_error W j)), s') /\
    ljm_log s' =
      [OpenS "ANY" "ANY" "ANY"; GetHandleInfo (openS_handle W)] ++
      take (S j) (configuration_writes W u channels) /\
    n_writes s' = S j /\
    n_reads s' = 0%nat /\
    Forall (fun c => is_write c = true)
      (take (S j) (configuration_writes W u channels)).
Proof.
  intros Hj Hok He.
  eexists. split.
  - unfold read_and_log_thermocouple. apply bind_raise.
    rewrite configuring_T7_issue.
    rewrite (issue_all_fails W (configuration_writes W u channels) j
               (opened W initial_state));
      [reflexivity | rewrite length_configuration_writes; exact Hj
      | exact Hok | exact He].
  - cbn [ljm_log n_writes n_reads wrote opened log_print log_call
         initial_state app].
    split; [reflexivity |].
    split; [rewrite length_take, length_configuration_writes; lia |].
    split; [reflexivity |].
    apply Forall_take, configuration_writes_are_writes.
Qed.

End Failing_write_session.

(** ** Instances of the further properties on test doubles *)

Lemma sampling_loop_never_raises_witness :
  exists how_left s' rows,
    sampling_loop (mock_device dtT7 third_read_fails) 5 1 (abcs_of [0; 2]) 0
      true initial_state = (Ok how_left, s') /\
    data s' = rows /\ (length rows <= 5)%nat.
Proof.
  destruct (sampling_loop_never_raises (mock_device dtT7 third_read_fails) 1
              (abcs_of [0; 2]) 0 true 5 initial_state)
    as (how & s' & rows & E & Hd & Hl & _).
  exists how, s', rows. split; [exact E |]. split; [exact Hd | exact Hl].
Defined.

Lemma wait_failure_keeps_current_row_witness :
  exists s',
    read_and_log_thermocouple
      (mock_faulty dtT7 no_read_error no_read_error second_fails true)
      [0; 2] "k" "C" 5 (1#1) true None initial_state = (Ok Break, s') /\
    length (data s') = 2%nat.
Proof.
  destruct (wait_failure_keeps_current_row
              (mock_faulty dtT7 no_read_error no_read_error second_fails true)
              eq_refl eq_refl eq_refl (fun _ => eq_refl) eq_refl [0; 2] "k"
              "C" 1 5 (1#1) true None eq_refl eq_refl (fun _ => eq_refl)
              (fun _ => eq_refl) eq_refl eq_refl 2%nat)
    as (s' & _ & E & Hd & _).
  - cbn. lia.
  - intros i _. reflexivity.
  - intros [| i] Hi; [reflexivity | cbn in Hi; lia].
  - discriminate.
  - exists s'. split; [exact E | now rewrite Hd].
Defined.

Lemma no_iterations_empty_frame_witness :
  exists s',
    read_and_log_thermocouple (mock_device dtT7 no_read_error) [0; 2] "k" "C"
      (-3) (1#1) true None initial_state = (Ok Next, s') /\
    data s' = [] /\ n_reads s' = 0%nat.
Proof.
  destruct (no_iterations_empty_frame (mock_device dtT7 no_read_error)
              eq_refl eq_refl eq_refl (fun _ => eq_refl) eq_refl [0; 2] "k"
              "C" 1 (-3) (1#1) true None eq_refl eq_refl (fun _ => eq_refl)
              (fun _ => eq_refl) eq_refl eq_refl)
    as (s' & _ & E & Hd & Hr & _).
  - lia.
  - exists s'. split; [exact E |]. split; [exact Hd | exact Hr].
Defined.

Lemma save_failure_skips_release_witness :
  exists s',
    read_and_log_thermocouple
      (mock_faulty dtT7 no_read_error no_read_error no_read_error false)
      [0; 2] "k" "C" 5 (1#1) true (Some (Path "data2.csv")) initial_state =
    (Raise (OSError "to_csv"), s') /\
    Forall (fun c => not_release c = true) (ljm_log s').
Proof.
  destruct (save_failure_skips_release
              (mock_faulty dtT7 no_read_error no_read_error no_read_error false)
              eq_refl eq_refl eq_refl (fun _ => eq_refl) eq_refl [0; 2] "k"
              "C" 1 5 (1#1) true (Some (Path "data2.csv")) eq_refl eq_refl
              (Path "data2.csv") eq_refl eq_refl eq_refl eq_refl)
    as (s' & df & pb & fb & E & F & _).
  exists s'. split; [exact E | exact F].
Defined.

Lemma no_channels_any_device_witness :
  exists s',
    read_and_log_thermocouple (mock_device dtT4 no_read_error) [] "k" "C" 2
      (1#1) true None initial_state = (Ok Next, s') /\
    data s' = [[VStr "1000000"; VFloat (1000000 # 1000000)];
               [VStr "2000000"; VFloat (2000000 # 1000000)]].
Proof.
  destruct (no_channels_any_device (mock_device dtT4 no_read_error) eq_refl
              eq_refl eq_refl "k" "C" 1 2 (1#1) true None eq_refl eq_refl
              (fun _ => eq_refl) (fun _ => eq_refl) eq_refl eq_refl
              (fun _ _ => eq_refl) (fun _ _ => eq_refl))
    as (s' & E & _ & Hd & _).
  exists s'. split; [exact E | exact Hd].
Defined.

Lemma failing_write_aborts_configuration_witness :
  exists s',
    read_and_log_thermocouple
      (mock_faulty dtT7 second_fails no_read_error no_read_error true)
      [0; 2] "k" "C" 5 (1#1) true None initial_state =
    (Raise (LJMError 1239), s') /\
    ljm_log s' =
      [OpenS "ANY" "ANY" "ANY"; GetHandleInfo 1;
       EWriteName 1 "AIN0_NEGATIVE_CH" (VInt 199);
       EWriteName 1 "AIN2_NEGATIVE_CH" (VInt 199)].
Proof.
  destruct (failing_write_aborts_configuration
              (mock_faulty dtT7 second_fails no_read_error no_read_error true)
              eq_refl eq_refl eq_refl [0; 2] "k" "C" 1 5 (1#1) true None
              eq_refl eq_refl 1%nat)
    as (s' & E & Hlog & _).
  - cbn. lia.
  - intros [| i] Hi; [reflexivity | lia].
  - discriminate.
  - exists s'. split; [exact E | exact Hlog].
Defined.

(** ** Columns and the registers they hold *)

Lemma lookup_concat_blocks {A B} (f : B -> list A) (n : nat) (l : list B)
    (q k : nat) (b : B) :
  (forall b', length (f b') = n) ->
  l !! q = Some b -> (k < n)%nat ->
  concat (map f l) !! (n * q + k)%nat = f b !! k.
Proof.
  intros Hlen. revert q. induction l as [| b' l IH]; intros q Hq Hk.
  - discriminate Hq.
  - cbn [map concat]. destruct q as [| q].
    + injection Hq as ->. rewrite Nat.mul_0_r. cbn [Nat.add].
      apply lookup_app_l. rewrite Hlen. exact Hk.
    + rewrite lookup_app_r by (rewrite Hlen; lia).
      rewrite Hlen. replace (n * S q + k - n)%nat with (n * q + k)%nat by lia.
      now apply IH.
Qed.

(** X13.  Columns and values line up.  For the channel at position [q] of
    the list, the cells [3q], [3q+1] and [3q+2] of the row of a tick hold
    what that tick read from the channel's EF_READ_A, EF_READ_B and
    EF_READ_C, and the labels at these positions are its T_thermocouple,
    V_thermocouple and T_cold_junction labels. *)
Theorem columns_match_registers (W : mock) (channels : list Z) (q : nat)
    (c : Z) (start_time : Z) (i_read i_now : nat) :
  channels !! q = Some c ->
  let cn := create_analog_channel c in
  let row := sample_row W (abcs_of channels) start_time i_read i_now in
  (labels_of channels !! (3 * q)%nat = Some ("T_thermocouple_" +:+ cn) /\
   row !! (3 * q)%nat = Some (VFloat (read_value W i_read (cn +:+ "_EF_READ_A")))) /\
  (labels_of channels !! (3 * q + 1)%nat = Some ("V_thermocouple_" +:+ cn) /\
   row !! (3 * q + 1)%nat =
     Some (VFloat (read_value W i_read (cn +:+ "_EF_READ_B")))) /\
  (labels_of channels !! (3 * q + 2)%nat = Some ("T_cold_junction_" +:+ cn) /\
   row !! (3 * q + 2)%nat =
     Some (VFloat (read_value W i_read (cn +:+ "_EF_READ_C")))).
Proof.
  intros Hq cn row.
  pose proof (lookup_lt_Some _ _ _ Hq) as Hlt.
  assert (Hl : forall k, (k < 3)%nat ->
            labels_of channels !! (3 * q + k)%nat =
            snd (get_read_ABC cn) !! k).
  { intros k Hk. unfold labels_of.
    rewrite !lookup_app_l;
      [| rewrite ?length_app; fold (channel_labels channels);
         pose proof (length_labels_of channels) as E; unfold labels_of in E;
         fold (channel_labels channels) in E;
         rewrite !length_app, length_abcs_of in E; cbn [length] in E; lia ..].
    rewrite map_map.
    apply (lookup_concat_blocks
             (fun c => snd (get_read_ABC (create_analog_channel c))) 3
             channels q k c); [reflexivity | exact Hq | exact Hk]. }
  assert (Hr : forall k, (k < 3)%nat ->
            row !! (3 * q + k)%nat =
            (VFloat ∘ read_value W i_read) <$> (fst (get_read_ABC cn) !! k)).
  { intros k Hk. unfold row, sample_row.
    rewrite !lookup_app_l
      by (rewrite ?length_app, !length_map, length_abcs_of; cbn [length]; lia).
    rewrite map_map, list_lookup_fmap. f_equal.
    unfold abcs_of. rewrite map_map.
    apply (lookup_concat_blocks
             (fun c => fst (get_read_ABC (create_analog_channel c))) 3
             channels q k c); [reflexivity | exact Hq | exact Hk]. }
  rewrite <- (Nat.add_0_r (3 * q)) at 1 2.
  rewrite !Hl, !Hr by lia.
  repeat split; reflexivity.
Qed.

Lemma columns_match_registers_witness :
  labels_of [0; 2] !! 3%nat = Some "T_thermocouple_AIN2" /\
  sample_row (mock_device dtT7 no_read_error) (abcs_of [0; 2]) 0 4 5 !! 3%nat =
    Some (VFloat (inject_Z 4)).
Proof.
  exact (proj1 (columns_match_registers (mock_device dtT7 no_read_error)
                  [0; 2] 1 2 0 4 5 eq_refl)).
Defined.

(** ** A device that cannot be opened *)

Lemma openS_ok W d c i s :
  openS_error W = NOERROR ->
  openS W d c i s = (Ok (openS_handle W), log_call (OpenS d c i) s).
Proof. intros H. unfold openS. run. now rewrite H. Qed.

(** X14.  When [openS] fails, the routine raises its [LJMError] having
    issued no other call; when the device opens but [getHandleInfo] fails,
    the routine raises that error with the device open and never closed.
    In both cases the arguments of the routine are not even looked at. *)
Theorem open_failure_propagates (W : mock) (channels : list Z)
    (tc_type temp_unit : string) (num_iterations : Z) (seconds : Q)
    (flag : bool) (save_to : option path) (s : state) :
  (openS_error W <> NOERROR ->
   read_and_log_thermocouple W channels tc_type temp_unit num_iterations
     seconds flag save_to s =
   (Raise (LJMError (openS_error W)), log_call (OpenS "ANY" "ANY" "ANY") s)) /\
  (openS_error W = NOERROR -> getHandleInfo_error W <> NOERROR ->
   read_and_log_thermocouple W channels tc_type temp_unit num_iterations
     seconds flag save_to s =
   (Raise (LJMError (getHandleInfo_error W)),
    log_call (GetHandleInfo (openS_handle W))
      (log_call (OpenS "ANY" "ANY" "ANY") s))).
Proof.
  split.
  - intros Ho. unfold read_and_log_thermocouple, configuring.
    do 2 apply bind_raise. unfold get_labjack_handle. apply bind_raise.
    unfold openS. step by apply modify_eq. apply bind_raise.
    now apply check_error_raise.
  - intros Ho Hi. unfold read_and_log_thermocouple, configuring.
    do 2 apply bind_raise. unfold get_labjack_handle.
    step by (apply openS_ok; exact Ho).
    apply bind_raise. unfold getHandleInfo. step by apply modify_eq.
    apply bind_raise. now apply check_error_raise.
Qed.

(** No device answers: [openS] fails with LJME_DEVICE_NOT_FOUND. *)
Definition mock_no_device : mock :=
  Mock 1227 0 NOERROR (HandleInfo 0 0 0 0 0 0) no_read_error no_read_error
       (fun _ _ => 0%Q) NOERROR no_read_error NOERROR NOERROR (fun _ => 0)
       (fun t _ => pretty t) (fun _ => false) (fun _ => true) (fun _ => true).

Lemma open_failure_propagates_witness :
  read_and_log_thermocouple mock_no_device [0; 2] "k" "C" 5 (1#1) true None
    initial_state =
  (Raise (LJMError 1227), log_call (OpenS "ANY" "ANY" "ANY") initial_state).
Proof.
  apply (proj1 (open_failure_propagates mock_no_device [0; 2] "k" "C" 5 (1#1)
                  true None initial_state)).
  discriminate.
Defined.

(** * The live plot of [04_read_plot_thermocouples.py]

    [read_and_log_thermocouples] configures the device with the same
    statements as [read_and_log_thermocouple] and then hands the nested
    function [animate] to matplotlib, which calls it once per frame.  What
    is embedded here is [animate] and the variables of the enclosing
    function it works on; the event loop that calls it is the environment.
    The calls into matplotlib are logged with the values they are given;
    of matplotlib itself the model has what decides how [animate] is left:
    [set_data] stores a copy of the two lists without comparing them, and
    [relim] fails on a line whose lists cannot be stacked. *)

Inductive plot_call :=
| SetData (channel_name : string) (xdata ydata : list Q)
| Relim
| AutoscaleView
| Legend.

(** The variables of [read_and_log_thermocouples] that [animate] mutates,
    with the state of the environment. *)
Record closure := Closure {
  world : state;
  plot_times : list Q;
  thermocouple_temps : gmap string (list Q);
  all_data : list (list value);
  plot_calls : list plot_call
}.

Inductive exn04 :=
| Exn (e : exn)
| IndexError (msg : string).

Inductive result04 (A : Type) :=
| Ok04 (a : A)
| Raise04 (e : exn04).
Arguments Ok04 {A} a.
Arguments Raise04 {A} e.

Definition PM (A : Type) : Type := closure -> result04 A * closure.

Definition ret04 {A} (a : A) : PM A := fun c => (Ok04 a, c).

Definition bind04 {A B} (m : PM A) (k : A -> PM B) : PM B :=
  fun c =>
    match m c with
    | (Ok04 a, c') => k a c'
    | (Raise04 e, c') => (Raise04 e, c')
    end.

Definition raise04 {A} (e : exn04) : PM A := fun c => (Raise04 e, c).

Definition with_world (s : state) (c : closure) : closure :=
  Closure s (plot_times c) (thermocouple_temps c) (all_data c) (plot_calls c).

(** A computation on the environment, run inside [animate]. *)
Definition lift {A} (m : M A) : PM A :=
  fun c =>
    match m (world c) with
    | (Ok a, s') => (Ok04 a, with_world s' c)
    | (Raise e, s') => (Raise04 (Exn e), with_world s' c)
    end.

Declare Scope PM_scope.
Delimit Scope PM_scope with PM.
Bind Scope PM_scope with PM.
Notation "x ← y ; z" := (bind04 y (fun x => z))
  (at level 20, y at level 100, z at level 200, only parsing) : PM_scope.
Notation "' x ← y ; z" := (bind04 y (fun x => z))
  (at level 20, x pattern, y at level 100, z at level 200, only parsing)
  : PM_scope.
Notation "x ;; z" := (bind04 x (fun _ => z))
  (at level 100, z at level 200, only parsing, right associativity)
  : PM_scope.

Definition modify04 (f : closure -> closure) : PM unit :=
  fun c => (Ok04 tt, f c).

Definition gets04 {A} (f : closure -> A) : PM A := fun c => (Ok04 (f c), c).

Definition append_all_data (row : list value) (c : closure) : closure :=
  Closure (world c) (plot_times c) (thermocouple_temps c)
          (all_data c ++ [row]) (plot_calls c).
Definition append_plot_times (t : Q) (c : closure) : closure :=
  Closure (world c) (plot_times c ++ [t]) (thermocouple_temps c)
          (all_data c) (plot_calls c).
Definition set_temps (channel_name : string) (temps : list Q) (c : closure)
    : closure :=
  Closure (world c) (plot_times c)
          (<[channel_name := temps]> (thermocouple_temps c))
          (all_data c) (plot_calls c).
Definition log_plot (p : plot_call) (c : closure) : closure :=
  Closure (world c) (plot_times c) (thermocouple_temps c) (all_data c)
          (plot_calls c ++ [p]).

(** [l[i]] for a non-negative index *)
Definition list_getitem {A} (l : list A) (i : nat) : PM A :=
  match l !! i with
  | Some x => ret04 x
  | None => raise04 (IndexError "list index out of range")
  end.

(** [thermocouple_temps[k]] *)
Definition temps_getitem (k : string) : PM (list Q) :=
  fun c =>
    match thermocouple_temps c !! k with
    | Some l => (Ok04 l, c)
    | None => (Raise04 (Exn (KeyError k)), c)
    end.

Fixpoint for_each04 {A} (l : list A) (body : A -> PM unit) : PM unit :=
  match l with
  | [] => ret04 tt
  | x :: l' => bind04 (body x) (fun _ => for_each04 l' body)
  end.

Fixpoint for_append04 {A B} (l : list A) (f : A -> PM B) : PM (list B) :=
  match l with
  | [] => ret04 []
  | x :: l' =>
      bind04 (f x) (fun y =>
      bind04 (for_append04 l' f) (fun ys => ret04 (y :: ys)))
  end.

(** [enumerate(l)] *)
Definition enumerate {A} (l : list A) : list (nat * A) :=
  zip (seq 0 (length l)) l.

(** The data every line holds: what its last [set_data] was given.  (The
    lines are made with empty data, and [lines] has one line per name.) *)
Definition line_data (calls : list plot_call)
    : gmap string (list Q * list Q) :=
  foldl (fun m p =>
           match p with
           | SetData cn x y => <[cn := (x, y)]> m
           | _ => m
           end) ∅ calls.

(** [set_data(x, y)] was given as many abscissae as ordinates. *)
Definition aligned (p : plot_call) : Prop :=
  match p with
  | SetData _ x y => length x = length y
  | _ => True
  end.

(** Two one-dimensional arrays can be broadcast to one shape when they
    are of one length or one of them has a single entry. *)
Definition broadcastable (x y : list Q) : bool :=
  (length x =? length y)%nat || (length x =? 1)%nat || (length y =? 1)%nat.

(** [ax.relim()] recomputes the path of every line whose data was set,
    stacking its x and y after broadcasting them: numpy raises
    [ValueError] when it cannot. *)
Definition relim : PM unit :=
  bind04 (modify04 (log_plot Relim)) (fun _ =>
  bind04 (gets04 plot_calls) (fun calls =>
  if forallb (fun l => broadcastable l.2.1 l.2.2)
       (map_to_list (line_data calls))
  then ret04 tt
  else raise04 (Exn (ValueError "shape mismatch: objects cannot be broadcast to a single shape")))).

Section Live_plot.

Local Open Scope PM_scope.

Variable W : mock.
(** [matplotlib.dates.date2num] *)
Variable date2num : Z -> Q.

(** Variables of the enclosing function that [animate] only reads. *)
Variables (handle : Z) (channel_names abcs_flattened : list string)
          (thermocouple_index : list nat) (start_time : Z)
          (print_output_flag : bool).

Definition animate (i : Z) : PM unit :=
  current_time ← lift (datetime_now W);
  let formatted_time := strftime W current_time time_format in
  let dt := total_seconds (current_time - start_time) in
  data_in ← lift (eReadNames W handle (length abcs_flattened) abcs_flattened);
  temperatures ← for_append04 thermocouple_index
                   (fun i => list_getitem data_in i);
  let data_entry := map VFloat data_in ++ [VStr formatted_time; VFloat dt] in
  modify04 (append_all_data data_entry);;
  modify04 (append_plot_times (date2num current_time));;
  for_each04 (enumerate temperatures) (fun '(j, temp) =>
    channel_name ← list_getitem channel_names j;
    temps ← temps_getitem channel_name;
    modify04 (set_temps channel_name (temps ++ [temp])));;
  for_each04 channel_names (fun channel_name =>
    times ← gets04 plot_times;
    temps ← temps_getitem channel_name;
    modify04 (log_plot (SetData channel_name times temps)));;
  relim;;
  modify04 (log_plot AutoscaleView);;
  modify04 (log_plot Legend);;
  if print_output_flag then lift (print (PRow data_entry)) else ret04 tt.

End Live_plot.

(** What the enclosing function sets up for [channels] before the first
    frame (lines 186-207). *)
Definition thermocouple_index_of (channels : list Z) : list nat :=
  map (fun i => 3 * i)%nat (seq 0 (length channels)).

Definition initial_temps (channel_names : list string) : gmap string (list Q) :=
  list_to_map (map (fun cn => (cn, [])) channel_names).

Definition initial_closure (s : state) (channel_names : list string) : closure :=
  Closure s [] (initial_temps channel_names) [] [].

(** ** Running [animate] *)

Lemma bind04_ok {A B} (m : PM A) (k : A -> PM B) c a c' :
  m c = (Ok04 a, c') -> bind04 m k c = k a c'.
Proof. intros H. unfold bind04. now rewrite H. Qed.

Lemma bind04_raise {A B} (m : PM A) (k : A -> PM B) c e c' :
  m c = (Raise04 e, c') -> bind04 m k c = (Raise04 e, c').
Proof. intros H. unfold bind04. now rewrite H. Qed.

Tactic Notation "step04" "by" tactic(t) :=
  erewrite bind04_ok by t; cbv beta iota.

Lemma lift_ok {A} (m : M A) c a s' :
  m (world c) = (Ok a, s') -> lift m c = (Ok04 a, with_world s' c).
Proof. intros H. unfold lift. now rewrite H. Qed.

Lemma lift_raise {A} (m : M A) c e s' :
  m (world c) = (Raise e, s') -> lift m c = (Raise04 (Exn e), with_world s' c).
Proof. intros H. unfold lift. now rewrite H. Qed.

Lemma modify04_eq f c : modify04 f c = (Ok04 tt, f c).
Proof. reflexivity. Qed.

(** Positions and elements of a list. *)
Lemma Forall2_seq_lookup {A} (pre l : list A) :
  Forall2 (fun i x => (pre ++ l) !! i = Some x) (seq (length pre) (length l)) l.
Proof.
  revert pre. induction l as [| x l IH]; intros pre; cbn [length seq].
  - constructor.
  - constructor.
    + now rewrite list_lookup_middle.
    + specialize (IH (pre ++ [x])).
      rewrite length_app, Nat.add_1_r, <- app_assoc in IH. exact IH.
Qed.

Lemma for_append04_getitem {A} (d : list A) idxs vals c :
  Forall2 (fun i v => d !! i = Some v) idxs vals ->
  for_append04 idxs (fun i => list_getitem d i) c = (Ok04 vals, c).
Proof.
  induction 1 as [| i v idxs vals Hi _ IH]; [reflexivity |].
  cbn [for_append04].
  step04 by (unfold list_getitem; rewrite Hi; reflexivity).
  step04 by exact IH. reflexivity.
Qed.

(** The temperatures picked out of a batch are the EF_READ_A values of the
    channels, in order; no index is out of range. *)
Lemma temperatures_of_batch (f : string -> Q) (channels : list Z) c :
  for_append04 (thermocouple_index_of channels)
    (fun i => list_getitem (map f (abcs_of channels)) i) c =
  (Ok04 (map (fun ch => f (create_analog_channel ch +:+ "_EF_READ_A")) channels),
   c).
Proof.
  apply for_append04_getitem. unfold thermocouple_index_of.
  apply Forall2_fmap.
  eapply Forall2_impl; [apply (Forall2_seq_lookup [] channels) |].
  cbn [app]. intros q ch Hq. rewrite list_lookup_fmap.
  unfold abcs_of. rewrite map_map.
  pose proof (lookup_concat_blocks
                (fun ch => fst (get_read_ABC (create_analog_channel ch))) 3
                channels q 0 ch (fun _ => eq_refl) Hq ltac:(lia)) as E.
  rewrite Nat.add_0_r in E. rewrite E. reflexivity.
Qed.

(** The dictionary of temperatures after [thermocouple_temps[cn].append(t)]
    for each pair of a list. *)
Definition append_temp (d : gmap string (list Q)) (p : string * Q)
    : gmap string (list Q) :=
  alter (fun l => l ++ [p.2]) p.1 d.

Definition with_temps (d : gmap string (list Q)) (c : closure) : closure :=
  Closure (world c) (plot_times c) d (all_data c) (plot_calls c).

Definition has_keys (names : list string) (d : gmap string (list Q)) : Prop :=
  forall cn, cn ∈ names -> is_Some (d !! cn).

(** The bodies of the two loops of [animate]. *)
Definition store_temp (channel_names : list string) (p : nat * Q) : PM unit :=
  let '(j, temp) := p in
  bind04 (list_getitem channel_names j) (fun channel_name =>
  bind04 (temps_getitem channel_name) (fun temps =>
  modify04 (set_temps channel_name (temps ++ [temp])))).

Definition draw_line (channel_name : string) : PM unit :=
  bind04 (gets04 plot_times) (fun times =>
  bind04 (temps_getitem channel_name) (fun temps =>
  modify04 (log_plot (SetData channel_name times temps)))).

Lemma insert_append_temp (d : gmap string (list Q)) cn l t :
  d !! cn = Some l -> <[cn := l ++ [t]]> d = append_temp d (cn, t).
Proof.
  intros H. unfold append_temp. cbn [fst snd]. apply map_eq. intros k.
  rewrite lookup_insert, lookup_alter.
  case_decide; [subst; now rewrite H | reflexivity].
Qed.

Lemma has_keys_append_temp names d p :
  has_keys names d -> has_keys names (append_temp d p).
Proof.
  intros H cn Hcn. unfold append_temp. rewrite lookup_alter.
  case_decide; [subst; destruct (H _ Hcn) as [l ->]; now eexists | now apply H].
Qed.

Lemma has_keys_foldl names d l :
  has_keys names d -> has_keys names (foldl append_temp d l).
Proof.
  revert d. induction l as [| p l IH]; intros d H; [exact H |].
  cbn [foldl]. now apply IH, has_keys_append_temp.
Qed.

Lemma with_temps_same c : with_temps (thermocouple_temps c) c = c.
Proof. now destruct c. Qed.

Lemma store_temps_ok (temps : list Q) :
  forall (pre rest : list string) c,
  length rest = length temps ->
  has_keys rest (thermocouple_temps c) ->
  for_each04 (zip (seq (length pre) (length temps)) temps)
    (store_temp (pre ++ rest)) c =
  (Ok04 tt,
   with_temps (foldl append_temp (thermocouple_temps c) (zip rest temps)) c).
Proof.
  induction temps as [| t temps IH]; intros pre rest c Hlen Hkeys.
  - destruct rest; [| discriminate Hlen]. cbn. now rewrite with_temps_same.
  - destruct rest as [| cn rest]; [discriminate Hlen |].
    cbn [length seq zip_with for_each04 foldl].
    destruct (Hkeys cn) as [l Hl]; [now left |].
    assert (Hs : store_temp (pre ++ cn :: rest) (length pre, t) c =
                 (Ok04 tt, set_temps cn (l ++ [t]) c)).
    { unfold store_temp.
      step04 by (unfold list_getitem; rewrite list_lookup_middle by reflexivity;
                 reflexivity).
      step04 by (unfold temps_getitem; rewrite Hl; reflexivity).
      reflexivity. }
    step04 by exact Hs.
    specialize (IH (pre ++ [cn]) rest (set_temps cn (l ++ [t]) c)).
    rewrite length_app, Nat.add_1_r, <- app_assoc in IH. cbn [app] in IH.
    rewrite IH.
    + cbn [thermocouple_temps set_temps].
      rewrite (insert_append_temp _ _ _ _ Hl). reflexivity.
    + cbn [length] in Hlen. lia.
    + cbn [thermocouple_temps set_temps].
      rewrite (insert_append_temp _ _ _ _ Hl).
      apply has_keys_append_temp. intros k Hk. apply Hkeys. now right.
Qed.

Lemma draw_lines_ok (names : list string) :
  forall c,
  has_keys names (thermocouple_temps c) ->
  for_each04 names draw_line c =
  (Ok04 tt,
   Closure (world c) (plot_times c) (thermocouple_temps c) (all_data c)
     (plot_calls c ++
      map (fun cn => SetData cn (plot_times c)
                       (default [] (thermocouple_temps c !! cn))) names)).
Proof.
  induction names as [| cn names IH]; intros c Hkeys.
  - cbn. rewrite app_nil_r. now destruct c.
  - cbn [for_each04 map].
    destruct (Hkeys cn) as [l Hl]; [now left |].
    assert (Hd : draw_line cn c =
                 (Ok04 tt, log_plot (SetData cn (plot_times c) l) c)).
    { unfold draw_line. step04 by reflexivity.
      step04 by (unfold temps_getitem; rewrite Hl; reflexivity).
      reflexivity. }
    step04 by exact Hd.
    rewrite IH by (intros k Hk; apply Hkeys; now right).
    cbn [world plot_times thermocouple_temps all_data plot_calls log_plot].
    rewrite Hl, <- app_assoc. reflexivity.
Qed.

Lemma line_data_aligned (calls : list plot_call) :
  Forall aligned calls ->
  map_Forall (fun _ l => length l.1 = length l.2) (line_data calls).
Proof.
  unfold line_data.
  assert (H : forall m : gmap string (list Q * list Q),
            map_Forall (fun _ l => length l.1 = length l.2) m ->
            Forall aligned calls ->
            map_Forall (fun _ l => length l.1 = length l.2)
              (foldl (fun m p =>
                        match p with
                        | SetData cn x y => <[cn := (x, y)]> m
                        | _ => m
                        end) m calls)).
  { induction calls as [| p calls IH]; intros m Hm Hal; [exact Hm |].
    cbn [foldl]. inversion Hal as [| ? ? Hp Hal']; subst.
    apply IH; [| exact Hal'].
    destruct p as [cn x y | | |]; try exact Hm.
    apply map_Forall_insert_2; [exact Hp | exact Hm]. }
  intros Hal. apply H; [apply map_Forall_empty | exact Hal].
Qed.

Lemma relim_ok c :
  Forall aligned (plot_calls c) -> relim c = (Ok04 tt, log_plot Relim c).
Proof.
  intros Hal. unfold relim.
  step04 by apply modify04_eq.
  step04 by reflexivity.
  replace (forallb _ _) with true; [reflexivity |].
  symmetry. apply forallb_forall. intros [cn [x y]] Hin.
  apply list_elem_of_In, elem_of_map_to_list in Hin.
  assert (Hal' : Forall aligned (plot_calls (log_plot Relim c))).
  { cbn [plot_calls log_plot]. apply Forall_app. split; [exact Hal |].
    repeat constructor. }
  apply (line_data_aligned _ Hal') in Hin. cbn [fst snd] in Hin |- *.
  unfold broadcastable. rewrite Hin, Nat.eqb_refl. reflexivity.
Qed.

Section Animate_frame.

Variable W : mock.
Variable date2num : Z -> Q.
Variables (handle : Z) (channels : list Z) (start_time : Z).

Let names := map create_analog_channel channels.
Let abcs := abcs_of channels.

(** The temperatures [animate] picks out of the batch of read [r]. *)
Definition temperatures_of (r : nat) : list Q :=
  map (fun ch => read_value W r (create_analog_channel ch +:+ "_EF_READ_A"))
      channels.

(** The closure after a frame whose read succeeded. *)
Definition animated (flag : bool) (c : closure) : closure :=
  let s := world c in
  let row := sample_row W abcs start_time (n_reads s) (n_now s) in
  let times := plot_times c ++ [date2num (now W (n_now s))] in
  let temps :=
    foldl append_temp (thermocouple_temps c)
      (zip names (temperatures_of (n_reads s))) in
  Closure
    ((if flag then log_print (PRow row) else id)
       (count_read
          (log_call (EReadNames handle (length abcs) abcs) (count_now s))))
    times temps (all_data c ++ [row])
    (plot_calls c ++
     map (fun cn => SetData cn times (default [] (temps !! cn))) names ++
     [Relim; AutoscaleView; Legend]).

Lemma animate_ok flag i c :
  read_error W (n_reads (world c)) = NOERROR ->
  has_keys names (thermocouple_temps c) ->
  Forall aligned (plot_calls (animated flag c)) ->
  animate W date2num handle names abcs (thermocouple_index_of channels)
    start_time flag i c =
  (Ok04 tt, animated flag c).
Proof.
  intros Hr Hkeys Hal. unfold animate.
  assert (Hdrawn :
    Forall aligned
      (plot_calls c ++
       map (fun cn =>
              SetData cn (plot_times c ++ [date2num (now W (n_now (world c)))])
                (default []
                   (foldl append_temp (thermocouple_temps c)
                      (zip names (temperatures_of (n_reads (world c))))
                    !! cn))) names)).
  { unfold animated in Hal. cbn [plot_calls] in Hal.
    apply Forall_app in Hal as [H1 H2]. apply Forall_app in H2 as [H2 _].
    apply Forall_app. now split. }
  step04 by (apply lift_ok; apply datetime_now_eq).
  cbv zeta.
  step04 by (apply lift_ok; apply eReadNames_ok; exact Hr).
  rewrite firstn_all.
  step04 by (apply (temperatures_of_batch
                      (read_value W (n_reads (world c))) channels)).
  step04 by apply modify04_eq.
  step04 by apply modify04_eq.
  fold (temperatures_of (n_reads (world c))).
  assert (Hlen : length names = length (temperatures_of (n_reads (world c))))
    by (unfold names, temperatures_of; now rewrite !length_map).
  step04 by (apply (store_temps_ok (temperatures_of (n_reads (world c))) []
                      names); [exact Hlen | exact Hkeys]).
  step04 by (apply (draw_lines_ok names); apply has_keys_foldl; exact Hkeys).
  step04 by (apply relim_ok; exact Hdrawn).
  step04 by apply modify04_eq.
  step04 by apply modify04_eq.
  unfold animated. cbv zeta.
  assert (Happ : forall (l : list value) a b, (l ++ [a]) ++ [b] = l ++ [a; b])
    by (intros; now rewrite <- app_assoc).
  destruct c as [s pt d ad pc]. destruct flag.
  - erewrite lift_ok by reflexivity. unfold sample_row.
    cbv [world plot_times thermocouple_temps all_data plot_calls with_world
         with_temps append_all_data append_plot_times log_plot].
    rewrite Happ, <- !app_assoc. reflexivity.
  - unfold ret04, sample_row.
    cbv [world plot_times thermocouple_temps all_data plot_calls with_world
         with_temps append_all_data append_plot_times log_plot id].
    rewrite Happ, <- !app_assoc. reflexivity.
Qed.

(** When the read fails nothing of the closure has been touched yet. *)
Lemma animate_read_fails flag i c :
  read_error W (n_reads (world c)) <> NOERROR ->
  animate W date2num handle names abcs (thermocouple_index_of channels)
    start_time flag i c =
  (Raise04 (Exn (LJMError (read_error W (n_reads (world c))))),
   with_world
     (count_read
        (log_call (EReadNames handle (length abcs) abcs) (count_now (world c))))
     c).
Proof.
  intros Hr. unfold animate.
  step04 by (apply lift_ok; apply datetime_now_eq).
  cbv zeta. apply bind04_raise.
  erewrite lift_raise by (apply eReadNames_raise; exact Hr).
  reflexivity.
Qed.

End Animate_frame.

(** ** What a frame stores *)

Lemma lookup_foldl_append_temp (l : list (string * Q)) :
  forall (d : gmap string (list Q)) (k : string),
  foldl append_temp d l !! k =
  (fun old => old ++ map snd (filter (fun p => p.1 = k) l)) <$> d !! k.
Proof.
  induction l as [| p l IH]; intros d k.
  - cbn. destruct (d !! k); cbn; [now rewrite app_nil_r | reflexivity].
  - cbn [foldl]. rewrite IH. rewrite filter_cons.
    destruct (decide (p.1 = k)) as [E | E].
    + unfold append_temp at 1. rewrite E, lookup_alter_eq.
      destruct (d !! k); cbn; [| reflexivity].
      now rewrite <- app_assoc.
    + unfold append_temp at 1. rewrite lookup_alter_ne by exact E.
      reflexivity.
Qed.

Lemma picked_absent (channels : list Z) (h : Z -> Q) ch :
  ch ∉ channels ->
  filter (fun p : string * Q => p.1 = create_analog_channel ch)
    (zip (map create_analog_channel channels) (map h channels)) = [].
Proof.
  induction channels as [| c l IH]; intros Hnot; [reflexivity |].
  cbn [map zip_with]. rewrite filter_cons. cbn [fst].
  apply not_elem_of_cons in Hnot as [Hne Hnot].
  destruct (decide (create_analog_channel c = create_analog_channel ch))
    as [E | E].
  - apply create_analog_channel_inj in E. congruence.
  - now apply IH.
Qed.

Lemma picked_once (channels : list Z) (h : Z -> Q) ch :
  NoDup channels -> ch ∈ channels ->
  map snd
    (filter (fun p : string * Q => p.1 = create_analog_channel ch)
       (zip (map create_analog_channel channels) (map h channels))) = [h ch].
Proof.
  induction 1 as [| c l Hc Hl IH]; intros Hin.
  - now apply elem_of_nil in Hin.
  - cbn [map zip_with]. rewrite filter_cons. cbn [fst].
    destruct (decide (create_analog_channel c = create_analog_channel ch))
      as [E | E].
    + apply create_analog_channel_inj in E. subst c.
      rewrite (picked_absent l h ch Hc). reflexivity.
    + apply elem_of_cons in Hin as [-> | Hin]; [contradiction |].
      now apply IH.
Qed.

Lemma initial_temps_lookup (names : list string) cn :
  cn ∈ names -> initial_temps names !! cn = Some [].
Proof.
  intros H. unfold initial_temps.
  apply elem_of_list_to_map_1'.
  - intros y Hy. apply list_elem_of_fmap in Hy as (x & [= _ ->] & _).
    reflexivity.
  - apply list_elem_of_fmap. now exists cn.
Qed.

Section Animate_properties.

Variable W : mock.
Variable date2num : Z -> Q.
Variables (handle : Z) (channels : list Z) (start_time : Z) (flag : bool).

Notation names := (map create_analog_channel channels).
Notation abcs := (abcs_of channels).
Notation the_animate :=
  (animate W date2num handle names abcs (thermocouple_index_of channels)
     start_time flag).
Notation read_A r ch :=
  (read_value W r (create_analog_channel ch +:+ "_EF_READ_A")).

Lemma animated_aligned (c : closure) :
  NoDup channels ->
  Forall aligned (plot_calls c) ->
  (forall ch, ch ∈ channels ->
     exists l, thermocouple_temps c !! create_analog_channel ch = Some l /\
               length l = length (plot_times c)) ->
  Forall aligned
    (plot_calls (animated W date2num handle channels start_time flag c)).
Proof.
  intros Hnd Hal Hlines. unfold animated. cbn [plot_calls].
  apply Forall_app. split; [exact Hal |]. apply Forall_app. split.
  - apply Forall_forall. intros p Hp.
    apply list_elem_of_fmap in Hp as (cn & -> & Hcn).
    apply list_elem_of_fmap in Hcn as (ch & -> & Hch).
    cbn [aligned]. rewrite lookup_foldl_append_temp.
    destruct (Hlines ch Hch) as (l & -> & Hlen). unfold temperatures_of.
    rewrite (picked_once channels
               (fun ch => read_A (n_reads (world c)) ch) ch Hnd Hch).
    cbn [fmap option_fmap option_map from_option id].
    rewrite !length_app, Hlen. reflexivity.
  - repeat constructor.
Qed.

(** X15.  A frame whose read succeeds, on pairwise distinct channels and
    with lines that hold as many temperatures as time stamps, raises
    nothing (no [IndexError], no [KeyError], and [relim] finds every line
    stackable): it appends to [all_data] the row that the script without
    plot appends for the same read, one time stamp to [times], and to the
    list of every channel the temperature read from the channel's
    EF_READ_A; the lines again hold as many temperatures as time
    stamps. *)
Theorem animate_stores_a_frame (i : Z) (c : closure) :
  read_error W (n_reads (world c)) = NOERROR ->
  NoDup channels ->
  Forall aligned (plot_calls c) ->
  (forall ch, ch ∈ channels ->
     exists l, thermocouple_temps c !! create_analog_channel ch = Some l /\
               length l = length (plot_times c)) ->
  exists c',
    the_animate i c = (Ok04 tt, c') /\
    all_data c' =
      all_data c ++
      [sample_row W abcs start_time (n_reads (world c)) (n_now (world c))] /\
    plot_times c' = plot_times c ++ [date2num (now W (n_now (world c)))] /\
    (forall ch, ch ∈ channels ->
       thermocouple_temps c' !! create_analog_channel ch =
       (fun old => old ++ [read_A (n_reads (world c)) ch]) <$>
         thermocouple_temps c !! create_analog_channel ch) /\
    Forall aligned (plot_calls c').
Proof.
  intros Hr Hnd Hal Hlines.
  assert (Hkeys : has_keys names (thermocouple_temps c)).
  { intros cn Hcn. apply list_elem_of_fmap in Hcn as (ch & -> & Hch).
    destruct (Hlines ch Hch) as (l & -> & _). eauto. }
  pose proof (animated_aligned c Hnd Hal Hlines) as Hal'.
  eexists. split; [now apply animate_ok |].
  split; [reflexivity |]. split; [reflexivity |]. split; [| exact Hal'].
  intros ch Hch. unfold animated. cbn [thermocouple_temps].
  rewrite lookup_foldl_append_temp. unfold temperatures_of.
  now rewrite (picked_once channels
                 (fun ch => read_A (n_reads (world c)) ch) ch Hnd Hch).
Qed.

(** X16.  A frame whose read fails raises the [LJMError] out of [animate]
    (there is no [try] in it) before anything was appended: [all_data],
    [times], the lists of temperatures and the plot are as they were. *)
Theorem animate_failed_read_changes_nothing (i : Z) (c : closure) :
  read_error W (n_reads (world c)) <> NOERROR ->
  exists c',
    the_animate i c =
      (Raise04 (Exn (LJMError (read_error W (n_reads (world c))))), c') /\
    all_data c' = all_data c /\
    plot_times c' = plot_times c /\
    thermocouple_temps c' = thermocouple_temps c /\
    plot_calls c' = plot_calls c /\
    n_reads (world c') = S (n_reads (world c)).
Proof.
  intros Hr. eexists. split; [now apply animate_read_fails |].
  repeat split; reflexivity.
Qed.

End Animate_properties.

(** ** Successive frames *)

Section Animate_frames.

Variable W : mock.
Variable date2num : Z -> Q.
Variables (handle : Z) (channels : list Z) (start_time : Z) (flag : bool).
Variable s0 : state.

Notation names := (map create_analog_channel channels).
Notation abcs := (abcs_of channels).
Notation the_animate :=
  (animate W date2num handle names abcs (thermocouple_index_of channels)
     start_time flag).

(** The rows, time stamps and temperatures of the first [k] frames of a
    plot that is started in the state [s0]. *)
Definition rows_of_frames (k : nat) : list (list value) :=
  map (fun j => sample_row W abcs start_time (n_reads s0 + j) (n_now s0 + j))
      (seq 0 k).

Definition times_of_frames (k : nat) : list Q :=
  map (fun j => date2num (now W (n_now s0 + j))) (seq 0 k).

Definition temps_of_frames (ch : Z) (k : nat) : list Q :=
  map (fun j =>
         read_value W (n_reads s0 + j)
           (create_analog_channel ch +:+ "_EF_READ_A"))
      (seq 0 k).

Definition reads_of_frames (k : nat) : list ljm_call :=
  map (fun _ => EReadNames handle (length abcs) abcs) (seq 0 k).

(** What holds of the closure between two frames. *)
Definition between_frames (k : nat) (c : closure) : Prop :=
  n_reads (world c) = (n_reads s0 + k)%nat /\
  n_now (world c) = (n_now s0 + k)%nat /\
  all_data c = rows_of_frames k /\
  plot_times c = times_of_frames k /\
  (forall ch, ch ∈ channels ->
     thermocouple_temps c !! create_analog_channel ch =
     Some (temps_of_frames ch k)) /\
  Forall aligned (plot_calls c) /\
  ljm_log (world c) = ljm_log s0 ++ reads_of_frames k /\
  fs_log (world c) = fs_log s0.

Lemma between_frames_initial : between_frames 0 (initial_closure s0 names).
Proof.
  unfold between_frames, initial_closure.
  cbn [world all_data plot_times thermocouple_temps plot_calls].
  rewrite !Nat.add_0_r.
  repeat split; try constructor; [| now rewrite app_nil_r].
  intros ch Hch. apply initial_temps_lookup.
  apply list_elem_of_fmap. now exists ch.
Qed.

Lemma between_frames_keys k c :
  between_frames k c -> has_keys names (thermocouple_temps c).
Proof.
  intros (_ & _ & _ & _ & Ht & _) cn Hcn.
  apply list_elem_of_fmap in Hcn as (ch & -> & Hch).
  rewrite (Ht ch Hch). eauto.
Qed.

Lemma animated_counters c :
  n_reads (world (animated W date2num handle channels start_time flag c)) =
    S (n_reads (world c)) /\
  n_now (world (animated W date2num handle channels start_time flag c)) =
    S (n_now (world c)).
Proof. unfold animated. cbn [world]. destruct flag; split; reflexivity. Qed.

Lemma animated_logs c :
  ljm_log (world (animated W date2num handle channels start_time flag c)) =
    ljm_log (world c) ++ [EReadNames handle (length abcs) abcs] /\
  fs_log (world (animated W date2num handle channels start_time flag c)) =
    fs_log (world c).
Proof. unfold animated. cbn [world]. destruct flag; split; reflexivity. Qed.

Lemma between_frames_animated k c :
  NoDup channels ->
  between_frames k c ->
  between_frames (S k)
    (animated W date2num handle channels start_time flag c).
Proof.
  intros Hnd (Hr & Hn & Hd & Ht & Htemps & Hal & Hljm & Hfs).
  destruct (animated_counters c) as [Er En].
  destruct (animated_logs c) as [Eljm Efs].
  assert (Hnew : forall ch, ch ∈ channels ->
            thermocouple_temps
              (animated W date2num handle channels start_time flag c)
              !! create_analog_channel ch =
            Some (temps_of_frames ch (S k))).
  { intros ch Hch. unfold animated. cbn [thermocouple_temps].
    rewrite lookup_foldl_append_temp, (Htemps ch Hch). unfold temperatures_of.
    rewrite (picked_once channels
               (fun ch => read_value W (n_reads (world c))
                            (create_analog_channel ch +:+ "_EF_READ_A"))
               ch Hnd Hch).
    cbn [fmap option_fmap option_map]. unfold temps_of_frames.
    rewrite seq_S, map_app, Hr. reflexivity. }
  unfold between_frames. rewrite Er, En, Hr, Hn, Eljm, Efs, Hljm, Hfs.
  split; [lia |]. split; [lia |].
  split; [| split; [| split; [exact Hnew |
                              split; [| split; [| reflexivity]]]]].
  - unfold animated. cbn [all_data]. unfold rows_of_frames.
    now rewrite Hd, seq_S, map_app, Hr, Hn.
  - unfold animated. cbn [plot_times]. unfold times_of_frames.
    now rewrite Ht, seq_S, map_app, Hn.
  - pose proof Hnew as Hnew'. unfold animated in Hnew' |- *.
    cbn [thermocouple_temps plot_calls] in Hnew' |- *.
    apply Forall_app. split; [exact Hal |]. apply Forall_app. split.
    + apply Forall_forall. intros p Hp.
      apply list_elem_of_fmap in Hp as (cn & -> & Hcn).
      apply list_elem_of_fmap in Hcn as (ch & -> & Hch).
      cbn [aligned]. rewrite (Hnew' ch Hch). cbn [from_option id].
      unfold temps_of_frames.
      rewrite Ht. unfold times_of_frames.
      rewrite length_app, !length_map, !length_seq. cbn [length]. lia.
    + repeat constructor.
  - unfold reads_of_frames. now rewrite seq_S, map_app, <- app_assoc.
Qed.

Lemma frames_run (frames : list Z) :
  NoDup channels ->
  forall k c,
  between_frames k c ->
  (forall j, (k <= j < k + length frames)%nat ->
     read_error W (n_reads s0 + j) = NOERROR) ->
  exists c',
    for_each04 frames the_animate c = (Ok04 tt, c') /\
    between_frames (k + length frames) c'.
Proof.
  intros Hnd. induction frames as [| i frames IH]; intros k c Hc Hreads.
  - exists c. cbn [for_each04 length]. rewrite Nat.add_0_r. now split.
  - cbn [for_each04 length].
    assert (Hr : read_error W (n_reads (world c)) = NOERROR).
    { destruct Hc as (-> & _). apply Hreads. cbn [length]. lia. }
    pose proof (between_frames_animated k c Hnd Hc) as Hnext.
    erewrite bind04_ok
      by (apply animate_ok;
          [exact Hr | exact (between_frames_keys k c Hc) |
           exact (proj1 (proj2 (proj2 (proj2 (proj2 (proj2 Hnext))))))]).
    destruct (IH (S k) _ Hnext) as (c' & E & H').
    { intros j Hj. apply Hreads. cbn [length]. lia. }
    exists c'. split; [exact E |].
    now replace (k + S (length frames))%nat with (S k + length frames)%nat
      by lia.
Qed.

(** X17.  Whatever frame numbers the animation passes, as long as the
    channels are pairwise distinct and the reads succeed, [k] calls of
    [animate] on the variables as they are set up before the plot is shown
    leave [k] rows in [all_data], in the order of the reads, [k] time
    stamps in [times] and for every channel its [k] temperatures in the
    order of the reads; and every [set_data] was called with as many
    time stamps as temperatures. *)
Theorem frames_accumulate_in_read_order (frames : list Z) :
  NoDup channels ->
  (forall j, (j < length frames)%nat ->
     read_error W (n_reads s0 + j) = NOERROR) ->
  exists c',
    for_each04 frames the_animate (initial_closure s0 names) = (Ok04 tt, c') /\
    all_data c' = rows_of_frames (length frames) /\
    plot_times c' = times_of_frames (length frames) /\
    (forall ch, ch ∈ channels ->
       thermocouple_temps c' !! create_analog_channel ch =
       Some (temps_of_frames ch (length frames))) /\
    Forall aligned (plot_calls c').
Proof.
  intros Hnd Hreads.
  destruct (frames_run frames Hnd 0 _ between_frames_initial)
    as (c' & E & H).
  { intros j Hj. apply Hreads. lia. }
  cbn [Nat.add] in H. destruct H as (_ & _ & Hd & Ht & Htemps & Hal & _).
  exists c'. repeat split; assumption.
Qed.

End Animate_frames.

(** ** A whole plot session on a T7

    [read_and_log_thermocouples] of the plotting script is cut where it
    hands over to the event loop of [plt.show()]: what it does before
    (lines 156-198, the configuration being that of the script without
    plot), the calls of [animate] made by the event loop, and what it does
    once [plt.show()] has returned (lines 239-255).  The calls that build
    the figure (lines 200-206) touch none of the variables and are left
    out. *)

Section Plotting.

Variable W : mock.

Definition setting_up (channels : list Z) (tc_type temp_unit : string)
    (seconds_between_readings : Q) : M (Z * list string * Z) :=
  '(handle, channel_names) ←
     configuring W channels tc_type temp_unit seconds_between_readings;
  start_time ← datetime_now W;
  ret (handle, channel_names, start_time).

(** Lines 243-251: unlike the script without plot, a directory gets the
    file name by concatenation and the index is never written. *)
Definition save04 (save_to : option path) (formatted_start_time : string)
    (data_df : DataFrame) : M unit :=
  match save_to with
  | None => ret tt
  | Some save_to =>
      if is_dir W save_to then
        mkdir W save_to;;
        let save_to := Join save_to (formatted_start_time +:+ ".csv") in
        to_csv W data_df save_to false
      else
        mkdir W (Parent save_to);;
        to_csv W data_df save_to false
  end.

Definition after_show (handle : Z) (channel_names : list string)
    (temp_unit : string) (save_to : option path) (start_time : Z)
    (all_data : list (list value)) : M unit :=
  let labels := map (fun cn => snd (get_read_ABC cn)) channel_names in
  let labels_flattened := concat labels in
  let labels_flattened := labels_flattened ++ ["time"] in
  let labels_flattened := labels_flattened ++ ["dt"] in
  let formatted_start_time := strftime W start_time save_time_format in
  data_df ← pd_DataFrame all_data labels_flattened;
  let data_df := setitem data_df "T unit" (VStr temp_unit) in
  save04 save_to formatted_start_time data_df;;
  release W handle.

End Plotting.

Lemma pd_DataFrame_rows (rows : list (list value)) (cols : list string) s :
  Forall (fun row => length row = length cols) rows ->
  pd_DataFrame rows cols s = (Ok (mkDataFrame cols rows), s).
Proof.
  intros H. unfold pd_DataFrame.
  replace (forallb _ rows) with true; [reflexivity |].
  symmetry. apply forallb_forall. intros row Hin.
  apply Nat.eqb_eq. rewrite Forall_forall in H. apply H.
  now apply list_elem_of_In.
Qed.

Section Plot_session.

Variable W : mock.
Variable date2num : Z -> Q.
Hypothesis open_ok : openS_error W = NOERROR.
Hypothesis info_ok : getHandleInfo_error W = NOERROR.
Hypothesis is_T7 : deviceType (getHandleInfo_result W) = dtT7.
Hypothesis writes_ok : forall i, write_error W i = NOERROR.
Hypothesis start_ok : startInterval_error W = NOERROR.

Variables (channels : list Z) (tc_type temp_unit : string) (u : Z)
          (seconds : Q) (print_output_flag : bool) (save_to : option path).
Hypothesis type_K : lower tc_type = "k".
Hypothesis unit_known : temp_unit_index !! lower temp_unit = Some u.

Hypothesis mkdir_always : forall p, mkdir_ok W p = true.
Hypothesis to_csv_always : forall p, to_csv_ok W p = true.
Hypothesis clean_ok : cleanInterval_error W = NOERROR.
Hypothesis close_ok : close_error W = NOERROR.

Notation names := (map create_analog_channel channels).
Notation h := (openS_handle W).

(** The state in which the plot is shown. *)
Definition set_up (s : state) : state :=
  count_now (configured W u channels seconds s).

Lemma setting_up_T7 s :
  setting_up W channels tc_type temp_unit seconds s =
  (Ok (h, names, now W (n_now s)), set_up s).
Proof.
  unfold setting_up.
  step by apply (configuring_T7 W open_ok info_ok is_T7 writes_ok start_ok
                   tc_type temp_unit u type_K unit_known).
  step by apply datetime_now_eq.
  reflexivity.
Qed.

Lemma set_up_fields s :
  n_now (set_up s) = S (n_now s) /\ n_reads (set_up s) = n_reads s /\
  fs_log (set_up s) = fs_log s /\
  ljm_log (set_up s) =
    ljm_log s ++
    [OpenS "ANY" "ANY" "ANY"; GetHandleInfo h] ++
    configuration_writes W u channels ++
    [StartInterval interval_handle (int_of_float (float_mul seconds (10 ^ 6 # 1)))].
Proof.
  unfold set_up, configured, opened.
  cbn [ljm_log fs_log n_now n_reads count_now count_write log_print log_call
       wrote app].
  repeat split; try reflexivity. now rewrite <- !app_assoc.
Qed.

(** The environment once the frame has been saved. *)
Definition saved04 (start_time : Z) (df : DataFrame) (s : state) : state :=
  match save_to with
  | None => s
  | Some p =>
      if is_dir W p then
        log_fs
          (ToCsv (Join p (strftime W start_time save_time_format +:+ ".csv"))
             false df)
          (log_fs (Mkdir p) s)
      else log_fs (ToCsv p false df) (log_fs (Mkdir (Parent p)) s)
  end.

Lemma save04_eq start_time df s :
  save04 W save_to (strftime W start_time save_time_format) df s =
  (Ok tt, saved04 start_time df s).
Proof.
  unfold save04, saved04. destruct save_to as [p |]; [| reflexivity].
  destruct (is_dir W p).
  - step by apply (mkdir_eq W mkdir_always). apply (to_csv_eq W to_csv_always).
  - step by apply (mkdir_eq W mkdir_always). apply (to_csv_eq W to_csv_always).
Qed.

Lemma after_show_ok start_time rows s :
  Forall (fun row => length row = length (labels_of channels)) rows ->
  after_show W h names temp_unit save_to start_time rows s =
  (Ok tt,
   log_print (PStr "Done!")
     (log_call (Close h)
        (log_call (CleanInterval interval_handle)
           (saved04 start_time
              (setitem (mkDataFrame (labels_of channels) rows) "T unit"
                 (VStr temp_unit)) s)))).
Proof.
  intros H. unfold after_show. cbv zeta. fold (labels_of channels).
  step by (apply pd_DataFrame_rows; exact H).
  step by apply save04_eq.
  apply (release_eq W clean_ok close_ok).
Qed.

(** X18.  A plot session on a T7 for thermocouples of type K on pairwise
    distinct channels, in which every read succeeds and the file can be
    written: whatever the frame numbers with which the event loop calls
    [animate] before [plt.show()] returns, the frame is built without a
    [ValueError] and saved once, with one row per call in the order of the
    reads, each extended by the temperature unit, under the labels followed
    by [T unit] and without the index; a directory gets the file named by
    the start time followed by [.csv].  The device sees the configuration,
    one read per call and then the release of the interval and of the
    handle. *)
Theorem plot_session_saves_every_frame (frames : list Z) (s : state) :
  NoDup channels ->
  (forall j, (j < length frames)%nat ->
     read_error W (n_reads s + j) = NOERROR) ->
  let start_time := now W (n_now s) in
  let rows :=
    map (fun j =>
           sample_row W (abcs_of channels) start_time (n_reads s + j)
             (S (n_now s + j)) ++ [VStr temp_unit])
        (seq 0 (length frames)) in
  let df := mkDataFrame (labels_of channels ++ ["T unit"]) rows in
  exists s1 c' s',
    setting_up W channels tc_type temp_unit seconds s =
      (Ok (h, names, start_time), s1) /\
    for_each04 frames
      (animate W date2num h names (abcs_of channels)
         (thermocouple_index_of channels) start_time print_output_flag)
      (initial_closure s1 names) = (Ok04 tt, c') /\
    after_show W h names temp_unit save_to start_time (all_data c')
      (world c') = (Ok tt, s') /\
    fs_log s' =
      fs_log s ++
      match save_to with
      | None => []
      | Some p =>
          if is_dir W p then
            [Mkdir p;
             ToCsv (Join p (strftime W start_time save_time_format +:+ ".csv"))
               false df]
          else [Mkdir (Parent p); ToCsv p false df]
      end /\
    ljm_log s' =
      ljm_log s ++
      [OpenS "ANY" "ANY" "ANY"; GetHandleInfo h] ++
      configuration_writes W u channels ++
      [StartInterval interval_handle (int_of_float (float_mul seconds (10 ^ 6 # 1)))] ++
      map (fun _ =>
             EReadNames h (length (abcs_of channels)) (abcs_of channels))
          (seq 0 (length frames)) ++
      [CleanInterval interval_handle; Close h].
Proof.
  intros Hnd Hreads start_time the_rows df.
  destruct (set_up_fields s) as (En & Er & Efs & Eljm).
  destruct (frames_run W date2num h channels start_time print_output_flag
              (set_up s) frames Hnd 0 _
              (between_frames_initial W date2num h channels start_time
                 (set_up s)))
    as (c' & Erun & _ & _ & Hd & _ & _ & _ & Hljm & Hfs).
  { intros j Hj. rewrite Er. apply Hreads. lia. }
  cbn [Nat.add] in Hd, Hljm.
  assert (Hrows : all_data c' =
            map (fun j =>
                   sample_row W (abcs_of channels) start_time (n_reads s + j)
                     (S (n_now s + j)))
                (seq 0 (length frames))).
  { rewrite Hd. unfold rows_of_frames. now rewrite Er, En. }
  assert (Hwidth : Forall (fun row => length row = length (labels_of channels))
                     (all_data c')).
  { rewrite Hrows. apply Forall_forall. intros row Hrow.
    apply list_elem_of_fmap in Hrow as (j & -> & _).
    now rewrite length_sample_row, length_labels_of. }
  eexists (set_up s), c', _.
  split; [apply setting_up_T7 |]. split; [exact Erun |].
  split; [apply after_show_ok; exact Hwidth |].
  assert (Hdf : setitem (mkDataFrame (labels_of channels) (all_data c'))
                  "T unit" (VStr temp_unit) = df).
  { unfold setitem, df, the_rows. cbn [columns rows].
    now rewrite Hrows, map_map. }
  rewrite Hdf. unfold saved04. split.
  - destruct save_to as [p |]; [destruct (is_dir W p) |];
      cbn [fs_log log_print log_call log_fs]; rewrite Hfs, Efs;
      [now rewrite <- app_assoc | now rewrite <- app_assoc |
       now rewrite app_nil_r].
  - destruct save_to as [p |]; [destruct (is_dir W p) |];
      cbn [ljm_log log_print log_call log_fs]; rewrite Hljm, Eljm;
      unfold reads_of_frames; now rewrite <- !app_assoc.
Qed.

End Plot_session.

(** ** The plot on the test double *)

(** Every read fails with LJME_RECONNECT_FAILED. *)
Definition every_read_fails : nat -> Z := fun _ => 1239.

Lemma animate_stores_a_frame_witness :
  exists c',
    animate (mock_device dtT7 no_read_error) inject_Z 1
      (map create_analog_channel [0; 2]) (abcs_of [0; 2])
      (thermocouple_index_of [0; 2]) 0 false 0
      (initial_closure initial_state (map create_analog_channel [0; 2])) =
    (Ok04 tt, c') /\
    length (all_data c') = 1%nat /\
    thermocouple_temps c' !! "AIN2" = Some [0#1].
Proof.
  destruct (animate_stores_a_frame (mock_device dtT7 no_read_error) inject_Z
              1 [0; 2] 0 false 0
              (initial_closure initial_state
                 (map create_analog_channel [0; 2])))
    as (c' & E & Hd & _ & Ht & _).
  - reflexivity.
  - compute_done.
  - constructor.
  - intros ch Hch. exists []. split; [| reflexivity].
    change (initial_temps (map create_analog_channel [0; 2])
              !! create_analog_channel ch = Some []).
    apply initial_temps_lookup, list_elem_of_fmap. now exists ch.
  - exists c'. split; [exact E |]. split; [now rewrite Hd |].
    assert (Hin : 2 ∈ [0; 2]) by compute_done.
    refine (eq_trans (Ht 2 Hin) _). vm_compute. reflexivity.
Defined.

Lemma animate_failed_read_changes_nothing_witness :
  exists c',
    animate (mock_device dtT7 every_read_fails) inject_Z 1
      (map create_analog_channel [0; 2]) (abcs_of [0; 2])
      (thermocouple_index_of [0; 2]) 0 false 0
      (initial_closure initial_state (map create_analog_channel [0; 2])) =
    (Raise04 (Exn (LJMError 1239)), c') /\
    all_data c' = [] /\ plot_calls c' = [].
Proof.
  destruct (animate_failed_read_changes_nothing
              (mock_device dtT7 every_read_fails) inject_Z 1 [0; 2] 0 false 0
              (initial_closure initial_state
                 (map create_analog_channel [0; 2])))
    as (c' & E & Hd & _ & _ & Hp & _).
  - discriminate.
  - exists c'. split; [exact E |]. split; [exact Hd | exact Hp].
Defined.

Lemma frames_accumulate_in_read_order_witness :
  exists c',
    for_each04 [0; 0; 1]
      (animate (mock_device dtT7 no_read_error) inject_Z 1
         (map create_analog_channel [0; 2]) (abcs_of [0; 2])
         (thermocouple_index_of [0; 2]) 0 false)
      (initial_closure initial_state (map create_analog_channel [0; 2])) =
    (Ok04 tt, c') /\
    length (all_data c') = 3%nat /\
    thermocouple_temps c' !! "AIN0" = Some [0#1; 1#1; 2#1] /\
    Forall aligned (plot_calls c').
Proof.
  destruct (frames_accumulate_in_read_order
              (mock_device dtT7 no_read_error) inject_Z 1 [0; 2] 0 false
              initial_state [0; 0; 1])
    as (c' & E & Hd & _ & Ht & Hal).
  - compute_done.
  - intros j _. reflexivity.
  - exists c'. split; [exact E |]. split; [now rewrite Hd |].
    split; [| exact Hal].
    assert (Hin : 0 ∈ [0; 2]) by compute_done.
    refine (eq_trans (Ht 0 Hin) _). vm_compute. reflexivity.
Defined.

Lemma plot_session_saves_every_frame_witness :
  exists s1 c' s',
    setting_up (mock_device dtT7 no_read_error) [0; 2] "k" "C" (1#1)
      initial_state = (Ok (1, ["AIN0"; "AIN2"], 0), s1) /\
    for_each04 [0; 0; 1]
      (animate (mock_device dtT7 no_read_error) inject_Z 1
         (map create_analog_channel [0; 2]) (abcs_of [0; 2])
         (thermocouple_index_of [0; 2]) 0 false)
      (initial_closure s1 (map create_analog_channel [0; 2])) =
    (Ok04 tt, c') /\
    after_show (mock_device dtT7 no_read_error) 1
      (map create_analog_channel [0; 2]) "C" (Some (Path "run.csv")) 0
      (all_data c') (world c') = (Ok tt, s') /\
    length (fs_log s') = 2%nat.
Proof.
  destruct (plot_session_saves_every_frame
              (mock_device dtT7 no_read_error) inject_Z eq_refl eq_refl
              eq_refl (fun _ => eq_refl) eq_refl [0; 2] "k" "C" 1 (1#1) false
              (Some (Path "run.csv")) eq_refl eq_refl (fun _ => eq_refl)
              (fun _ => eq_refl) eq_refl eq_refl [0; 0; 1] initial_state)
    as (s1 & c' & s' & E1 & E2 & E3 & Hfs & _).
  - compute_done.
  - intros j _. reflexivity.
  - exists s1, c', s'. split; [exact E1 |]. split; [exact E2 |].
    split; [exact E3 |]. now rewrite Hfs.
Defined.
